(** * Retail inventory tracker: ledger, warehouse controller, demand predictor

    A shallow embedding of
    - the ledger tables of [setup_database.py] and [app.py]
      ([products], [inventory], [stock_movements]),
    - [WarehouseController.transfer_inventory] and
      [WarehouseController.adjust_inventory]
      ([warehouse/warehouse_controller.py]),
    - [InventoryPredictor.predict_demand], [get_reorder_recommendation] and
      [_get_historical_movements] ([ai_engine/predictor.py]),
    - the read-only reports of the controller, [get_warehouse_info],
      [get_all_warehouses], [get_warehouse_capacity_report],
      [get_transfer_history] and [optimize_inventory_distribution], with the
      [users] and [warehouses] tables they read, and
      [InventoryPredictor.get_dashboard_summary],
    followed by the properties of the transfer and adjustment protocols, of
    the prediction arithmetic and of the reports.

    Conventions.  Python [int] is [Z].  Python [float] and [numpy.float64] are
    the binary64 numbers of [PrimFloat].  A table is the list of its rows in
    rowid order, so that [fetchone] of an unordered [SELECT] is the first
    matching row; the [id] columns, which no modelled statement reads, are the
    positions in the list.  INTEGER columns hold what Python hands to the
    store; SQLite's 64-bit limit on them is not modelled.  The store raises
    where a declared constraint (CHECK, UNIQUE) is violated; failures of the
    environment (a locked or unreadable file) are not modelled.  Logging has
    no effect on the ledger and is left out. *)

From Stdlib Require Import ZArith List Sorted Permutation String Ascii Bool Lia DecimalString Floats.
From Stdlib Require DecimalPos DecimalZ.
Import ListNotations.

Set Warnings "-inexact-float".

Open Scope Z_scope.

(** ** Python text helpers *)

(** [str(z)] of a Python int. *)
Definition str (z : Z) : string := NilZero.string_of_int (Z.to_int z).

(** [s.zfill(width)] for the digit strings produced by [strftime]. *)
Definition zfill (width : nat) (s : string) : string :=
  (string_of_list_ascii (repeat "0"%char (width - String.length s)) ++ s)%string.

(** [x or default] on an optional string: [None] and [''] are falsy. *)
Definition or_else (x : option string) (default : string) : string :=
  match x with
  | None => default
  | Some s => if String.eqb s "" then default else s
  end.

(** ** Timestamps *)

Record datetime := mkdatetime {
  year : Z; month : Z; day : Z;
  hour : Z; minute : Z; second : Z; microsecond : Z }.

(** [t.strftime('%Y%m%d%H%M%S')] *)
Definition strftime (t : datetime) : string :=
  (zfill 4 (str (year t)) ++ zfill 2 (str (month t)) ++ zfill 2 (str (day t)) ++
   zfill 2 (str (hour t)) ++ zfill 2 (str (minute t)) ++ zfill 2 (str (second t)))%string.

(** Timestamps are stored as ISO text and compared as text by the store, which
    is the lexicographic order of the fields. *)
Definition datetime_key (t : datetime) : list Z :=
  [year t; month t; day t; hour t; minute t; second t; microsecond t].

Fixpoint lex_leb (a b : list Z) : bool :=
  match a, b with
  | [], _ => true
  | _ :: _, [] => false
  | x :: a', y :: b' => (x <? y) || ((x =? y) && lex_leb a' b')
  end.

Definition datetime_leb (a b : datetime) : bool :=
  lex_leb (datetime_key a) (datetime_key b).

(** ** Ledger tables *)

Record Product := mkProduct { id : Z; name : string }.

Record InventoryRow := mkInventoryRow {
  product_id : Z;
  warehouse_id : Z;
  quantity : Z;
  reserved_quantity : Z;
  reorder_level : Z;
  max_stock_level : Z;
  last_updated : datetime }.

Record StockMovement := mkStockMovement {
  sm_product_id : Z;
  sm_warehouse_id : Z;
  movement_type : string;
  sm_quantity : Z;
  sm_reference_number : option string;
  notes : option string;
  user_id : Z;
  created_at : datetime }.

(** The repository creates the ledger in two places.  [app.py] ([init_database])
    declares [movement_type TEXT NOT NULL] and no uniqueness on [inventory];
    [setup_database.py] declares a CHECK on [movement_type] and
    [UNIQUE(product_id, warehouse_id)].  Both write [database/inventory.db],
    the file the controller and the predictor open. *)
Inductive Schema := AppSchema | SetupSchema.

(** [setup_database.py]: CHECK (movement_type IN (...)) *)
Definition setup_movement_types : list string :=
  ["IN"; "OUT"; "TRANSFER_IN"; "TRANSFER_OUT"; "ADJUSTMENT_IN";
   "ADJUSTMENT_OUT"; "RETURN"; "DAMAGED"; "INITIAL"; "REMOVED"]%string.

Definition movement_type_check (s : Schema) (kind : string) : bool :=
  match s with
  | AppSchema => true
  | SetupSchema => existsb (String.eqb kind) setup_movement_types
  end.

Definition inventory_unique (s : Schema) : bool :=
  match s with
  | AppSchema => false
  | SetupSchema => true
  end.

Record Database := mkDatabase {
  schema : Schema;
  products : list Product;
  inventory : list InventoryRow;
  stock_movements : list StockMovement }.

(** ** Connections, transactions and exceptions *)

(** [sqlite3.IntegrityError]; the wording of its message varies with the
    SQLite version and no property below depends on it. *)
Inductive Exception :=
| IntegrityError (msg : string).

(** [str(e)] *)
Definition str_exception (e : Exception) : string :=
  match e with IntegrityError msg => msg end.

Inductive outcome (A : Type) :=
| Returned (a : A)
| Raised (e : Exception).
Arguments Returned {A} a.
Arguments Raised {A} e.

(** An open connection: the rows as the connection sees them, the rows as they
    were at BEGIN while a transaction is open, and the number of clock
    readings taken so far. *)
Record State := mkState {
  live : Database;
  saved : option Database;
  tick : nat }.

Definition Py (A : Type) : Type := State -> outcome A * State.

Definition ret {A} (a : A) : Py A := fun st => (Returned a, st).

Definition bind {A B} (m : Py A) (k : A -> Py B) : Py B :=
  fun st =>
    match m st with
    | (Returned a, st') => k a st'
    | (Raised e, st') => (Raised e, st')
    end.

Definition raise {A} (e : Exception) : Py A := fun st => (Raised e, st).

(** [try: body except Exception as e: handler e] *)
Definition try_except {A} (body : Py A) (handler : Exception -> Py A) : Py A :=
  fun st =>
    match body st with
    | (Returned a, st') => (Returned a, st')
    | (Raised e, st') => handler e st'
    end.

Notation "x <- m ;; k" := (bind m (fun x => k))
  (at level 61, m at next level, right associativity).
Notation "m ;;; k" := (bind m (fun _ => k))
  (at level 61, right associativity).

Definition set_inventory (rows : list InventoryRow) (d : Database) : Database :=
  mkDatabase (schema d) (products d) rows (stock_movements d).

Definition set_stock_movements (rows : list StockMovement) (d : Database) : Database :=
  mkDatabase (schema d) (products d) (inventory d) rows.

(** What the database file holds: changes of an open transaction are not in it. *)
Definition committed (st : State) : Database :=
  match saved st with
  | Some d => d
  | None => live st
  end.

(** [sqlite3.connect(self.database_path)] *)
Definition connect (d : Database) : State := mkState d None 0.

(** [cursor.execute('BEGIN TRANSACTION')] *)
Definition begin_transaction : Py unit :=
  fun st => (Returned tt, mkState (live st) (Some (live st)) (tick st)).

(** [cursor.execute('COMMIT')] *)
Definition commit : Py unit :=
  fun st => (Returned tt, mkState (live st) None (tick st)).

(** [cursor.execute('ROLLBACK')] *)
Definition rollback : Py unit :=
  fun st => (Returned tt, mkState (committed st) None (tick st)).

(** [conn.close()]: an open transaction is abandoned. *)
Definition close : Py unit :=
  fun st => (Returned tt, mkState (committed st) None (tick st)).

(** [WHERE product_id = ? AND warehouse_id = ?] *)
Definition at_key (p w : Z) (r : InventoryRow) : bool :=
  (product_id r =? p) && (warehouse_id r =? w).

Definition with_quantity (q : Z) (t : datetime) (r : InventoryRow) : InventoryRow :=
  mkInventoryRow (product_id r) (warehouse_id r) q (reserved_quantity r)
                 (reorder_level r) (max_stock_level r) t.

Definition update_rows (q : Z) (t : datetime) (p w : Z)
  (rows : list InventoryRow) : list InventoryRow :=
  map (fun r => if at_key p w r then with_quantity q t r else r) rows.

Section Controller.

(** [clock n] is the [n]-th reading of the time taken during a call, by
    [datetime.now()] or by the store for a CURRENT_TIMESTAMP default. *)
Variable clock : nat -> datetime.

Definition now : Py datetime :=
  fun st => (Returned (clock (tick st)), mkState (live st) (saved st) (S (tick st))).

(** [SELECT quantity FROM inventory WHERE product_id = ? AND warehouse_id = ?]
    followed by [cursor.fetchone()] *)
Definition select_quantity (p w : Z) : Py (option Z) :=
  fun st => (Returned (option_map quantity (find (at_key p w) (inventory (live st)))), st).

(** [SELECT reorder_level, max_stock_level FROM inventory WHERE ...] and [fetchone] *)
Definition select_reorder_info (p w : Z) : Py (option (Z * Z)) :=
  fun st =>
    (Returned (option_map (fun r => (reorder_level r, max_stock_level r))
                          (find (at_key p w) (inventory (live st)))), st).

(** [UPDATE inventory SET quantity = ?, last_updated = ? WHERE product_id = ?
    AND warehouse_id = ?] *)
Definition update_inventory (q : Z) (t : datetime) (p w : Z) : Py unit :=
  fun st =>
    (Returned tt,
     mkState (set_inventory (update_rows q t p w (inventory (live st))) (live st))
             (saved st) (tick st)).

(** [INSERT INTO inventory (product_id, warehouse_id, quantity, reorder_level,
    max_stock_level) VALUES (?, ?, ?, ?, ?)]: [reserved_quantity] defaults to
    0 and [last_updated] to CURRENT_TIMESTAMP. *)
Definition insert_inventory (p w q rl ml : Z) : Py unit :=
  fun st =>
    if inventory_unique (schema (live st)) &&
       existsb (at_key p w) (inventory (live st))
    then (Raised (IntegrityError
            "UNIQUE constraint failed: inventory.product_id, inventory.warehouse_id"), st)
    else
      (Returned tt,
       mkState (set_inventory
                  (inventory (live st) ++
                   [mkInventoryRow p w q 0 rl ml (clock (tick st))]) (live st))
               (saved st) (S (tick st))).

(** [INSERT INTO stock_movements (product_id, warehouse_id, movement_type,
    quantity, reference_number, notes, user_id) VALUES (...)]: [created_at]
    defaults to CURRENT_TIMESTAMP. *)
Definition insert_stock_movement (p w : Z) (kind : string) (q : Z)
  (reference note : string) (user : Z) : Py unit :=
  fun st =>
    if movement_type_check (schema (live st)) kind
    then
      (Returned tt,
       mkState (set_stock_movements
                  (stock_movements (live st) ++
                   [mkStockMovement p w kind q (Some reference) (Some note) user
                                    (clock (tick st))]) (live st))
               (saved st) (S (tick st)))
    else (Raised (IntegrityError "CHECK constraint failed: stock_movements"), st).

(** The result dictionaries of the controller; an absent key is [None]. *)
Record Result := mkResult {
  success : bool;
  message : string;
  transfer_reference : option string;
  previous_quantity : option Z;
  new_quantity : option Z;
  reference_number : option string }.

Definition failure (msg : string) : Result :=
  mkResult false msg None None None None.

(** [WarehouseController.transfer_inventory] *)
Definition transfer_inventory_body (product from_warehouse_id to_warehouse_id
  quantity_ user : Z) (notes_ : option string) : Py Result :=
  try_except
    (source_result <- select_quantity product from_warehouse_id ;;
     match source_result with
     | None =>
         close ;;;
         ret (failure "Product not found in source warehouse")
     | Some source_quantity =>
         if source_quantity <? quantity_ then
           close ;;;
           ret (failure ("Insufficient inventory. Available: " ++ str source_quantity
                         ++ ", Requested: " ++ str quantity_))
         else
           dest_result <- select_quantity product to_warehouse_id ;;
           try_except
             (begin_transaction ;;;
              let new_source_quantity := source_quantity - quantity_ in
              t <- now ;;
              update_inventory new_source_quantity t product from_warehouse_id ;;;
              match dest_result with
              | Some dest_quantity =>
                  let new_dest_quantity := dest_quantity + quantity_ in
                  t <- now ;;
                  update_inventory new_dest_quantity t product to_warehouse_id
              | None =>
                  reorder_info <- select_reorder_info product from_warehouse_id ;;
                  let reorder_level_ :=
                    match reorder_info with Some i => fst i | None => 10 end in
                  let max_stock_level_ :=
                    match reorder_info with Some i => snd i | None => 1000 end in
                  insert_inventory product to_warehouse_id quantity_
                                   reorder_level_ max_stock_level_
              end ;;;
              t <- now ;;
              let transfer_reference_ := ("TRANSFER-" ++ strftime t)%string in
              insert_stock_movement product from_warehouse_id "TRANSFER_OUT" quantity_
                transfer_reference_
                ("Transfer to warehouse " ++ str to_warehouse_id ++ ". "
                 ++ or_else notes_ "") user ;;;
              insert_stock_movement product to_warehouse_id "TRANSFER_IN" quantity_
                transfer_reference_
                ("Transfer from warehouse " ++ str from_warehouse_id ++ ". "
                 ++ or_else notes_ "") user ;;;
              commit ;;;
              close ;;;
              ret (mkResult true
                     ("Successfully transferred " ++ str quantity_ ++ " units")
                     (Some transfer_reference_) None None None))
             (fun e => rollback ;;; close ;;; raise e)
     end)
    (fun e => ret (failure ("Transfer failed: " ++ str_exception e))).

(** [WarehouseController.adjust_inventory] *)
Definition adjust_inventory_body (product warehouse adjustment_quantity : Z)
  (adjustment_type : string) (user : Z) (reason : option string) : Py Result :=
  try_except
    (result <- select_quantity product warehouse ;;
     match result with
     | None =>
         close ;;;
         ret (failure "Inventory record not found")
     | Some current_quantity =>
         let new_quantity_ := current_quantity + adjustment_quantity in
         if new_quantity_ <? 0 then
           close ;;;
           ret (failure
                  ("Adjustment would result in negative inventory. Current: "
                   ++ str current_quantity ++ ", Adjustment: "
                   ++ str adjustment_quantity))
         else
           try_except
             (begin_transaction ;;;
              t <- now ;;
              update_inventory new_quantity_ t product warehouse ;;;
              let movement_type_ := ("ADJUST_" ++ adjustment_type)%string in
              t <- now ;;
              let reference_number_ := ("ADJ-" ++ strftime t)%string in
              insert_stock_movement product warehouse movement_type_
                (Z.abs adjustment_quantity) reference_number_
                (or_else reason (adjustment_type ++ " adjustment")) user ;;;
              commit ;;;
              close ;;;
              ret (mkResult true
                     ("Inventory adjusted successfully. New quantity: "
                      ++ str new_quantity_)
                     None (Some current_quantity) (Some new_quantity_)
                     (Some reference_number_)))
             (fun e => rollback ;;; close ;;; raise e)
     end)
    (fun e => ret (failure ("Adjustment failed: " ++ str_exception e))).

(** A call on the database file: the result dictionary and the file after
    the call.  Every path of the two bodies catches its exceptions, so the
    [Raised] case is there for totality only. *)
Definition call (body : Py Result) (d : Database) : Result * Database :=
  match body (connect d) with
  | (Returned r, st) => (r, committed st)
  | (Raised e, st) => (failure (str_exception e), committed st)
  end.

Definition transfer_inventory (d : Database) (product from_warehouse_id
  to_warehouse_id quantity_ user : Z) (notes_ : option string) : Result * Database :=
  call (transfer_inventory_body product from_warehouse_id to_warehouse_id
          quantity_ user notes_) d.

Definition adjust_inventory (d : Database) (product warehouse
  adjustment_quantity : Z) (adjustment_type : string) (user : Z)
  (reason : option string) : Result * Database :=
  call (adjust_inventory_body product warehouse adjustment_quantity
          adjustment_type user reason) d.

End Controller.

(** ** Inventory accessor *)

(** [getQuantity]: the quantity the ledger holds for a (product, warehouse)
    pair, [None] when the pair has no row. *)
Definition stored_quantity (d : Database) (p w : Z) : option Z :=
  option_map quantity (find (at_key p w) (inventory d)).

(** The units of a product held at a warehouse; a pair without a row holds none. *)
Definition held (d : Database) (p w : Z) : Z :=
  match stored_quantity d p w with
  | Some q => q
  | None => 0
  end.

(** Two versions of a row that differ at most in [quantity] and [last_updated]. *)
Definition same_frame (a b : InventoryRow) : Prop :=
  product_id a = product_id b /\ warehouse_id a = warehouse_id b /\
  reserved_quantity a = reserved_quantity b /\
  reorder_level a = reorder_level b /\ max_stock_level a = max_stock_level b.

(** What a transfer of product [p] from [f] to [t] may do to a row [a] that
    becomes [b]: keep everything but quantity and timestamp, and keep all of
    it when the row is neither the source's nor the destination's. *)
Definition transfer_touches (p f t : Z) (a b : InventoryRow) : Prop :=
  same_frame a b /\ (at_key p f a = false -> at_key p t a = false -> b = a).

(** The two movement rows of a transfer. *)
Definition transfer_out_row (clock : nat -> datetime) (p f t n u : Z)
  (nt : option string) : StockMovement :=
  mkStockMovement p f "TRANSFER_OUT" n
    (Some ("TRANSFER-" ++ strftime (clock 2%nat))%string)
    (Some ("Transfer to warehouse " ++ str t ++ ". " ++ or_else nt "")%string)
    u (clock 3%nat).

Definition transfer_in_row (clock : nat -> datetime) (p f t n u : Z)
  (nt : option string) : StockMovement :=
  mkStockMovement p t "TRANSFER_IN" n
    (Some ("TRANSFER-" ++ strftime (clock 2%nat))%string)
    (Some ("Transfer from warehouse " ++ str f ++ ". " ++ or_else nt "")%string)
    u (clock 4%nat).

(** Sample ledger used by the closed examples. *)
Definition sample_clock (n : nat) : datetime :=
  mkdatetime 2024 3 5 9 7 (Z.of_nat n) 0.

Definition sample_row (p w q r : Z) : InventoryRow :=
  mkInventoryRow p w q r 20 200 (mkdatetime 2024 1 1 0 0 0 0).

Definition sample_db (s : Schema) : Database :=
  mkDatabase s [mkProduct 1 "Widget"; mkProduct 2 "Gadget"]
    [sample_row 1 1 100 95; sample_row 1 2 0 0; sample_row 2 1 5 0] [].

(** ** Python numbers *)

(** [float(z)]: the binary64 number nearest to [z] (ties to even).  Python
    raises OverflowError where this yields an infinity, which no INTEGER
    column value reaches. *)
Definition float_of_int (z : Z) : float :=
  SF2Prim (binary_normalize prec emax z 0 false).

(** [m / 2^k] rounded to the nearest integer, ties to the even one. *)
Definition round_half_even (m k : Z) : Z :=
  let d := 2 ^ k in
  let q := m / d in
  match (2 * (m mod d)) ?= d with
  | Lt => q
  | Gt => q + 1
  | Eq => if Z.even q then q else q + 1
  end.

Inductive PyError :=
| OverflowError (msg : string)
| ValueError (msg : string).

Definition str_error (e : PyError) : string :=
  match e with
  | OverflowError msg => msg
  | ValueError msg => msg
  end.

(** [round(x)] of a float: the nearest int, ties to even; it raises on
    infinities and NaN. *)
Definition py_round (x : float) : PyError + Z :=
  match Prim2SF x with
  | S754_zero _ => inr 0
  | S754_finite s m e =>
      let v := if 0 <=? e then Zpos m * 2 ^ e else round_half_even (Zpos m) (- e) in
      inr (if s then - v else v)
  | S754_infinity _ => inl (OverflowError "cannot convert float infinity to integer")
  | S754_nan => inl (ValueError "cannot convert float NaN to integer")
  end.

(** [a <= x] for an int [a] and a float [x]; Python compares the two exactly. *)
Definition int_le_float (a : Z) (x : float) : bool :=
  match Prim2SF x with
  | S754_zero _ => a <=? 0
  | S754_finite s m e =>
      let v := if s then Zneg m else Zpos m in
      if 0 <=? e then a <=? v * 2 ^ e else a * 2 ^ (- e) <=? v
  | S754_infinity s => negb s
  | S754_nan => false
  end.

(** [l[start:]] *)
Definition slice_from {A} (start : Z) (l : list A) : list A :=
  let n := Z.of_nat (List.length l) in
  let s := if start <? 0 then Z.max 0 (start + n) else Z.min start n in
  skipn (Z.to_nat s) l.

(** [numpy.mean] of a list of ints: the float64 sum divided by the count.
    numpy adds in blocks rather than left to right; the two agree whenever
    the partial sums are exact, that is below 2^53 in magnitude. *)
Definition np_sum (xs : list Z) : float :=
  fold_left (fun acc x => (acc + float_of_int x)%float) xs 0%float.

Definition np_mean (xs : list Z) : float :=
  (np_sum xs / float_of_int (Z.of_nat (List.length xs)))%float.

(** ** Demand predictor *)

(** The result dictionary of [predict_demand]; an absent key is [None].  The
    fallback values 10, 5 are ints in the source and are held here as the
    floats of the same value. *)
Record Prediction := mkPrediction {
  predicted_demand : float;
  predicted_daily_demand : option float;
  confidence : float;
  method : string;
  historical_points : option nat;
  prediction_message : string }.

(** The result dictionary of [get_reorder_recommendation]. *)
Record Recommendation := mkRecommendation {
  should_reorder : bool;
  recommended_quantity : option Z;
  current_stock : option Z;
  available_stock : option Z;
  predicted_demand_30_days : option Z;
  safety_stock : option Z;
  urgency : option string;
  days_until_reorder : option Z;
  product_name : option string;
  recommendation_message : string }.

(** [ORDER BY created_at DESC]: newest first; rows with equal timestamps are
    kept in scan order here (the store does not promise an order among them). *)
Fixpoint insert_desc (m : StockMovement) (l : list StockMovement) : list StockMovement :=
  match l with
  | [] => [m]
  | x :: l' =>
      if datetime_leb (created_at x) (created_at m)
      then m :: l
      else x :: insert_desc m l'
  end.

Definition order_by_created_at_desc (l : list StockMovement) : list StockMovement :=
  fold_right insert_desc [] l.

(** [_get_historical_movements]: the movements of the pair since [since],
    the value of [datetime('now', '-90 days')] when the query runs, newest
    first. *)
Definition _get_historical_movements (d : Database) (product warehouse : Z)
  (since : datetime) : list StockMovement :=
  order_by_created_at_desc
    (filter (fun m => (sm_product_id m =? product) && (sm_warehouse_id m =? warehouse)
                      && datetime_leb since (created_at m))
            (stock_movements d)).

(** All the movements the ledger holds for a pair, of any age. *)
Definition pair_movements (d : Database) (product warehouse : Z) : list StockMovement :=
  filter (fun m => (sm_product_id m =? product) && (sm_warehouse_id m =? warehouse))
         (stock_movements d).

(** [row.get('movement_type') in ['OUT', 'TRANSFER_OUT']] *)
Definition is_outbound (m : StockMovement) : bool :=
  existsb (String.eqb (movement_type m)) ["OUT"; "TRANSFER_OUT"]%string.

Section Predictor.

(** [numpy.std] of the collected quantities, and [round(x, 2)] on a
    [numpy.float64]: both are numpy's, and which decimal rounding applies
    depends on its version. *)
Variable np_std : list Z -> float.
Variable np_round2 : float -> float.

(** The body of [predict_demand] once the history is fetched.  None of its
    steps raises on rows of the ledger's types, so the [error_fallback]
    result of its [except] clause does not arise here. *)
Definition predict_from (historical_data : list StockMovement) (days : Z) : Prediction :=
  if (List.length historical_data <? 7)%nat then
    mkPrediction 10 None 0.3 "default_fallback" None "Insufficient historical data"
  else
    let daily_movements := map sm_quantity (filter is_outbound historical_data) in
    match daily_movements with
    | [] =>
        mkPrediction 5 None 0.4 "no_outbound_data" None
                     "No outbound movement data available"
    | _ :: _ =>
        let recent_avg :=
          if (7 <=? List.length daily_movements)%nat
          then np_mean (slice_from (-7) daily_movements)
          else np_mean daily_movements in
        let overall_avg := np_mean daily_movements in
        let predicted_daily_demand_ := (recent_avg * 0.7 + overall_avg * 0.3)%float in
        let predicted_total_demand := (predicted_daily_demand_ * float_of_int days)%float in
        let std_dev := np_std daily_movements in
        let c := (1 - std_dev / (predicted_daily_demand_ + 1))%float in
        mkPrediction
          (np_round2 predicted_total_demand)
          (Some (np_round2 predicted_daily_demand_))
          (if (0.5 <? c)%float then np_round2 c else 0.5%float)
          "moving_average"
          (Some (List.length daily_movements))
          ("Prediction based on " ++ str (Z.of_nat (List.length daily_movements))
           ++ " historical data points")
    end.

(** [InventoryPredictor.predict_demand] *)
Definition predict_demand (d : Database) (since : datetime)
  (product warehouse days : Z) : Prediction :=
  predict_from (_get_historical_movements d product warehouse since) days.

(** [SELECT i.quantity, i.reserved_quantity, i.reorder_level,
    i.max_stock_level, p.name FROM inventory i JOIN products p ON
    i.product_id = p.id WHERE i.product_id = ? AND i.warehouse_id = ?] and
    [fetchone] *)
Definition select_inventory_with_product (d : Database) (product warehouse : Z)
  : option (Z * Z * Z * Z * string) :=
  match find (at_key product warehouse) (inventory d),
        find (fun pr => id pr =? product) (products d) with
  | Some i, Some pr =>
      Some (quantity i, reserved_quantity i, reorder_level i, max_stock_level i, name pr)
  | _, _ => None
  end.

Definition recommendation_error (e : PyError) : Recommendation :=
  mkRecommendation false None None None None None None None None
    ("Error generating recommendation: " ++ str_error e).

(** [InventoryPredictor.get_reorder_recommendation].  The entries of the
    result are rounded in the order the dictionary lists them, and an
    exception of [round] leads to the error result of the [except] clause.
    In the second branch a division by a zero prediction gives an infinity,
    as under numpy, which [round] then rejects. *)
Definition get_reorder_recommendation (d : Database) (since : datetime)
  (product warehouse : Z) : Recommendation :=
  match select_inventory_with_product d product warehouse with
  | None =>
      mkRecommendation false None None None None None None None None
                       "Product not found in inventory"
  | Some (current_qty, reserved_qty, reorder_level_, max_level, product_name_) =>
      let available_qty := current_qty - reserved_qty in
      let demand_prediction := predict_demand d since product warehouse 30 in
      let predicted_demand_ := predicted_demand demand_prediction in
      let safety_stock_ := (predicted_demand_ * 0.2)%float in
      if available_qty <=? reorder_level_ then
        let target_stock := (float_of_int max_level * 0.8)%float in
        let recommended_quantity_ := (target_stock - float_of_int available_qty)%float in
        match py_round recommended_quantity_ with
        | inl e => recommendation_error e
        | inr rq =>
        match py_round predicted_demand_ with
        | inl e => recommendation_error e
        | inr pd =>
        match py_round safety_stock_ with
        | inl e => recommendation_error e
        | inr ss =>
            mkRecommendation true (Some rq) (Some current_qty) (Some available_qty)
              (Some pd) (Some ss)
              (Some (if int_le_float available_qty (float_of_int reorder_level_ * 0.5)
                     then "high" else "medium")%string)
              None (Some product_name_)
              ("Reorder recommended: stock level is " ++ str available_qty
               ++ ", below reorder level of " ++ str reorder_level_)
        end end end
      else
        let y := (float_of_int (available_qty - reorder_level_)
                  / (predicted_demand_ / 30))%float in
        match py_round predicted_demand_ with
        | inl e => recommendation_error e
        | inr pd =>
        match (if (1 <? y)%float then py_round y else inr 1) with
        | inl e => recommendation_error e
        | inr days_ =>
            mkRecommendation false None (Some current_qty) (Some available_qty)
              (Some pd) None None (Some days_) (Some product_name_)
              ("No reorder needed. Estimated " ++ str days_
               ++ " days until reorder point.")
        end end
  end.

End Predictor.

(** [daily_movements]: the outbound quantities in the order the history lists
    them. *)
Definition collected (historical_data : list StockMovement) : list Z :=
  map sm_quantity (filter is_outbound historical_data).

(** The last [n] entries of a list. *)
Definition lastn {A} (n : nat) (l : list A) : list A :=
  skipn (List.length l - n) l.

(** Finite floats: the ones [round] accepts. *)
Definition finite_float (x : float) : bool :=
  match Prim2SF x with
  | S754_zero _ | S754_finite _ _ _ => true
  | S754_infinity _ | S754_nan => false
  end.

(** One candidate for [round(x, 2)] on [numpy.float64], numpy's own recipe:
    scale by 100, round to the nearest integer (ties to even), scale back. *)
Definition numpy_round2 (x : float) : float :=
  match py_round (x * 100) with
  | inr z => (float_of_int z / 100)%float
  | inl _ => (x * 100 / 100)%float
  end.

(** Population standard deviation where the deviations are taken and added
    left to right; used only to run the closed examples. *)
Definition sample_std (xs : list Z) : float :=
  let m := np_mean xs in
  sqrt (fold_left (fun acc x => (acc + (float_of_int x - m) * (float_of_int x - m))%float)
                  xs 0%float
        / float_of_int (Z.of_nat (List.length xs))).

(** The spec's reading of the moving average: the outbound quantities are put
    oldest to newest and the recent mean is taken over the last 7 of them,
    the 7 most recent outbound movements. *)
Definition spec_recent_window (historical_data : list StockMovement) : list Z :=
  slice_from (-7) (rev (collected historical_data)).

Definition spec_predicted_daily (historical_data : list StockMovement) : float :=
  (0.7 * np_mean (spec_recent_window historical_data)
   + 0.3 * np_mean (collected historical_data))%float.

Definition spec_predicted_total (historical_data : list StockMovement) (days : Z) : float :=
  (spec_predicted_daily historical_data * float_of_int days)%float.

(** A ledger with nine movements of product 1 at warehouse 1, one per day;
    the newest, of 9 March, takes out 100 units, the older ones 1 unit each,
    and one is inbound. *)
Definition sample_movement (kind : string) (q d : Z) : StockMovement :=
  mkStockMovement 1 1 kind q None None 7 (mkdatetime 2024 3 d 0 0 0 0).

Definition history_db : Database :=
  mkDatabase AppSchema [mkProduct 1 "Widget"]
    [mkInventoryRow 1 1 12 0 20 200 (mkdatetime 2024 1 1 0 0 0 0)]
    [sample_movement "OUT" 1 1; sample_movement "OUT" 1 2; sample_movement "OUT" 1 3;
     sample_movement "IN" 50 4; sample_movement "OUT" 1 5; sample_movement "OUT" 1 6;
     sample_movement "TRANSFER_OUT" 1 7; sample_movement "OUT" 1 8;
     sample_movement "OUT" 100 9].

Definition sample_since : datetime := mkdatetime 2024 1 1 0 0 0 0.

(** The ledger of the reorder example: quantity 12, nothing reserved, reorder
    level 20, maximum 200, no movement history. *)
Definition reorder_example_db : Database :=
  mkDatabase AppSchema [mkProduct 1 "Widget"]
    [mkInventoryRow 1 1 12 0 20 200 (mkdatetime 2024 1 1 0 0 0 0)] [].

(** A ledger whose seven movements of product 1 at warehouse 1 are all
    inbound. *)
Definition inbound_db : Database :=
  mkDatabase AppSchema [mkProduct 1 "Widget"]
    [mkInventoryRow 1 1 40 0 20 200 (mkdatetime 2024 1 1 0 0 0 0)]
    (map (sample_movement "IN" 5) [1; 2; 3; 4; 5; 6; 7]).

(** ** Ledger invariants *)

(** The stock invariant of the data model: no row holds a negative quantity. *)
Definition nonnegative_stock (rows : list InventoryRow) : Prop :=
  Forall (fun r => 0 <= quantity r) rows.

(** [UNIQUE(product_id, warehouse_id)]: no two rows for one pair. *)
Definition row_key (r : InventoryRow) : Z * Z := (product_id r, warehouse_id r).

Definition unique_keys (rows : list InventoryRow) : Prop :=
  NoDup (map row_key rows).

(** What an adjustment at the pair [(p, w)] may do to a row [a] that becomes
    [b]: keep everything but quantity and timestamp, and keep all of it when
    the row is not the pair's. *)
Definition adjust_touches (p w : Z) (a b : InventoryRow) : Prop :=
  same_frame a b /\ (at_key p w a = false -> b = a).

(** ** Tables beside the ledger *)

(** The columns of [users] and [warehouses] that the controller reads.  Their
    [id] is the primary key. *)
Record User := mkUser { u_id : Z; username : string }.

Record Warehouse := mkWarehouse {
  w_id : Z;
  w_name : string;
  location : string;
  capacity : option Z;
  manager_id : option Z;
  w_created_at : datetime }.

Record Directory := mkDirectory {
  users : list User;
  warehouses : list Warehouse }.

(** [ORDER BY]: a stable insertion sort; [precedes y x] says that [y] comes
    strictly before [x] in the order asked for, and rows that the order does
    not tell apart stay in scan order (the store promises no order among
    them). *)
Fixpoint insert_ordered {A} (precedes : A -> A -> bool) (x : A) (l : list A) : list A :=
  match l with
  | [] => [x]
  | y :: l' => if precedes y x then y :: insert_ordered precedes x l' else x :: l
  end.

Definition order_by {A} (precedes : A -> A -> bool) (l : list A) : list A :=
  fold_right (insert_ordered precedes) [] l.

(** [ORDER BY <timestamp> DESC] *)
Definition newer {A} (key : A -> datetime) (y x : A) : bool :=
  negb (datetime_leb (key y) (key x)).

(** [ORDER BY <integer> DESC] *)
Definition larger {A} (key : A -> Z) (y x : A) : bool := key x <? key y.

(** [ORDER BY <text>], in the byte order of the BINARY collation *)
Definition name_before {A} (key : A -> string) (y x : A) : bool :=
  String.ltb (key y) (key x).

(** ** Transfer history *)

(** The dictionaries of [get_transfer_history]. *)
Record TransferRecord := mkTransferRecord {
  tr_product_id : Z;
  tr_product_name : string;
  from_warehouse_id : Z;
  to_warehouse_id : Z;
  from_warehouse_name : string;
  to_warehouse_name : string;
  tr_quantity : Z;
  tr_reference_number : option string;
  transfer_date : datetime;
  transferred_by : string;
  tr_notes : option string }.

(** [sm1.reference_number = sm2.reference_number]: NULL equals nothing. *)
Definition same_reference (a b : option string) : bool :=
  match a, b with
  | Some x, Some y => String.eqb x y
  | _, _ => false
  end.

(** [if warehouse_id:] adds [AND (sm1.warehouse_id = ? OR sm2.warehouse_id = ?)];
    [None] and [0] are falsy. *)
Definition warehouse_filter (warehouse : option Z) (sm1 sm2 : StockMovement) : bool :=
  match warehouse with
  | None => true
  | Some w =>
      if w =? 0 then true
      else (sm_warehouse_id sm1 =? w) || (sm_warehouse_id sm2 =? w)
  end.

(** The ON and WHERE conditions of the query of [get_transfer_history]. *)
Definition transfer_join (warehouse : option Z) (cutoff_date : datetime)
  (sm1 sm2 : StockMovement) (p : Product) (u : User) (w1 w2 : Warehouse) : bool :=
  same_reference (sm_reference_number sm1) (sm_reference_number sm2)
  && (sm_product_id sm1 =? id p)
  && (user_id sm1 =? u_id u)
  && (sm_warehouse_id sm1 =? w_id w1)
  && (sm_warehouse_id sm2 =? w_id w2)
  && String.eqb (movement_type sm1) "TRANSFER_OUT"
  && String.eqb (movement_type sm2) "TRANSFER_IN"
  && datetime_leb cutoff_date (created_at sm1)
  && warehouse_filter warehouse sm1 sm2.

Definition transfer_record (sm1 sm2 : StockMovement) (p : Product) (u : User)
  (w1 w2 : Warehouse) : TransferRecord :=
  mkTransferRecord (sm_product_id sm1) (name p) (sm_warehouse_id sm1)
    (sm_warehouse_id sm2) (w_name w1) (w_name w2) (sm_quantity sm1)
    (sm_reference_number sm1) (created_at sm1) (username u) (notes sm1).

(** [WarehouseController.get_transfer_history]; [cutoff_date] is the value of
    [datetime.now() - timedelta(days=days_back)].  The rows of the join are
    produced in the order of the FROM clause and then ordered by
    [sm1.created_at DESC]. *)
Definition get_transfer_history (d : Database) (dir : Directory)
  (warehouse : option Z) (cutoff_date : datetime) : list TransferRecord :=
  order_by (newer transfer_date)
    (flat_map (fun sm1 =>
     flat_map (fun sm2 =>
     flat_map (fun p =>
     flat_map (fun u =>
     flat_map (fun w1 =>
     flat_map (fun w2 =>
       if transfer_join warehouse cutoff_date sm1 sm2 p u w1 w2
       then [transfer_record sm1 sm2 p u w1 w2] else [])
       (warehouses dir)) (warehouses dir)) (users dir)) (products d))
       (stock_movements d)) (stock_movements d)).

(** The rows of the join for one pair of movements. *)
Definition join_rows (d : Database) (dir : Directory) (wh : option Z) (cutoff : datetime)
  (sm1 sm2 : StockMovement) : list TransferRecord :=
  flat_map (fun p =>
  flat_map (fun u =>
  flat_map (fun w1 =>
  flat_map (fun w2 =>
    if transfer_join wh cutoff sm1 sm2 p u w1 w2
    then [transfer_record sm1 sm2 p u w1 w2] else [])
    (warehouses dir)) (warehouses dir)) (users dir)) (products d).

(** ** Python numbers, continued *)

Definition exact_int (z : Z) : spec_float :=
  match z with
  | Z0 => S754_zero false
  | Zpos m => S754_finite false m 0
  | Zneg m => S754_finite true m 0
  end.

(** [a / b] on ints, for [b] other than 0: the binary64 number nearest to the
    quotient. *)
Definition int_true_div (a b : Z) : float :=
  SF2Prim (SFdiv prec emax (exact_int a) (exact_int b)).

(** [round(x, 2)] on a Python float: the decimal with two places nearest to
    [x] (ties to the even one), then the binary64 number nearest to it. *)
Definition py_round2 (x : float) : float :=
  match Prim2SF x with
  | S754_finite s m e =>
      if 0 <=? e then x
      else
        match round_half_even (Zpos m * 100) (- e) with
        | Zpos n => SF2Prim (SFdiv prec emax (S754_finite s n 0) (S754_finite false 100 0))
        | _ => SF2Prim (S754_zero s)
        end
  | _ => x
  end.

(** ** Aggregates over the inventory of a warehouse *)

(** [inventory i ... WHERE/ON i.warehouse_id = w] *)
Definition rows_of_warehouse (d : Database) (w : Z) : list InventoryRow :=
  filter (fun r => warehouse_id r =? w) (inventory d).

(** [SUM(i.quantity)], read as 0 over no rows where the caller does so with
    COALESCE or [or 0] *)
Definition sum_quantity (rows : list InventoryRow) : Z :=
  fold_right Z.add 0 (map quantity rows).

(** [COUNT(DISTINCT i.product_id)] *)
Definition count_distinct_products (rows : list InventoryRow) : Z :=
  Z.of_nat (List.length (nodup Z.eq_dec (map product_id rows))).

(** [COUNT(CASE WHEN i.quantity <= i.reorder_level THEN 1 END)] *)
Definition count_low_stock (rows : list InventoryRow) : Z :=
  Z.of_nat (List.length (filter (fun r => quantity r <=? reorder_level r) rows)).

(** [AVG(i.quantity)] over at least one row: the sum, as a float, divided by
    the count (exact while the sum stays within 2^53, where every way of
    adding the rows up agrees). *)
Definition sql_avg (rows : list InventoryRow) : float :=
  (float_of_int (sum_quantity rows) / float_of_int (Z.of_nat (List.length rows)))%float.

(** [(total_items / capacity) * 100] under [if capacity and capacity > 0],
    and the int 0 (held as the float 0) otherwise. *)
Definition utilization (capacity_ : option Z) (total_items_ : Z) : float :=
  match capacity_ with
  | Some c => if 0 <? c then (int_true_div total_items_ c * 100)%float else 0%float
  | None => 0%float
  end.

(** ** Capacity report *)

(** The dictionaries of [get_warehouse_capacity_report]. *)
Record CapacityEntry := mkCapacityEntry {
  ce_warehouse_id : Z;
  ce_warehouse_name : string;
  ce_location : string;
  ce_capacity : option Z;
  total_items : Z;
  unique_products : Z;
  low_stock_items : Z;
  utilization_percentage : float;
  available_capacity : Z;
  capacity_status : string }.

(** The body of the loop of [get_warehouse_capacity_report] for one warehouse
    (one group of the query: [id] is the primary key). *)
Definition capacity_entry (d : Database) (w : Warehouse) : CapacityEntry :=
  let rows := rows_of_warehouse d (w_id w) in
  let total_items_ := sum_quantity rows in
  let utilization_percentage_ := utilization (capacity w) total_items_ in
  let available_capacity_ :=
    match capacity w with
    | Some c => if 0 <? c then c - total_items_ else c
    | None => 0
    end in
  let capacity_status_ :=
    (if int_le_float 90 utilization_percentage_ then "CRITICAL"
     else if int_le_float 75 utilization_percentage_ then "WARNING"
     else "NORMAL")%string in
  mkCapacityEntry (w_id w) (w_name w) (location w) (capacity w)
    total_items_ (count_distinct_products rows) (count_low_stock rows)
    (py_round2 utilization_percentage_) (Z.max 0 available_capacity_)
    capacity_status_.

(** [WarehouseController.get_warehouse_capacity_report] *)
Definition get_warehouse_capacity_report (d : Database) (dir : Directory)
  : list CapacityEntry :=
  map (capacity_entry d) (order_by (name_before w_name) (warehouses dir)).

(** The order of the report: by name, byte by byte. *)
Definition name_order (a b : Warehouse) : Prop := String.leb (w_name a) (w_name b) = true.

(** What the rows of a table hold at one warehouse. *)
Definition stock_at (rows : list InventoryRow) (w : Z) : Z :=
  sum_quantity (filter (fun r => warehouse_id r =? w) rows).

(** ** Warehouse list *)

(** The dictionaries of [get_all_warehouses]. *)
Record WarehouseSummary := mkWarehouseSummary {
  ws_id : Z;
  ws_name : string;
  ws_location : string;
  ws_capacity : option Z;
  ws_capacity_utilization : float;
  ws_total_products : Z;
  ws_total_items : Z;
  ws_manager_name : option string }.

(** [LEFT JOIN users u ON w.manager_id = u.id] *)
Definition manager_of (dir : Directory) (w : Warehouse) : option string :=
  match manager_id w with
  | Some m => option_map username (find (fun u => u_id u =? m) (users dir))
  | None => None
  end.

(** [WarehouseController.get_all_warehouses] *)
Definition get_all_warehouses (d : Database) (dir : Directory) : list WarehouseSummary :=
  map (fun w =>
         let rows := rows_of_warehouse d (w_id w) in
         let total_items_ := sum_quantity rows in
         mkWarehouseSummary (w_id w) (w_name w) (location w) (capacity w)
           (py_round2 (utilization (capacity w) total_items_))
           (count_distinct_products rows) total_items_ (manager_of dir w))
      (order_by (name_before w_name) (warehouses dir)).

(** ** Warehouse details *)

(** The dictionary of [get_warehouse_info], its [statistics] laid flat. *)
Record WarehouseInfo := mkWarehouseInfo {
  wi_id : Z;
  wi_name : string;
  wi_location : string;
  wi_capacity : option Z;
  wi_capacity_utilization : float;
  wi_manager_id : option Z;
  wi_manager_name : option string;
  wi_created_at : datetime;
  wi_total_products : Z;
  wi_total_items : Z;
  wi_low_stock_products : Z;
  wi_avg_stock_level : float;
  wi_top_products : list (string * Z * string);
  wi_recent_movements : list (string * Z * string * datetime * string) }.

Section WarehouseInfo.

(** The [category] column of [products], which the [Product] rows do not
    hold. *)
Variable category : Product -> string.

(** [SELECT p.name, i.quantity, p.category FROM inventory i JOIN products p ON
    i.product_id = p.id WHERE i.warehouse_id = ? ORDER BY i.quantity DESC
    LIMIT 5] *)
Definition top_products (d : Database) (w : Z) : list (string * Z * string) :=
  firstn 5
    (order_by (larger (fun x => snd (fst x)))
       (flat_map (fun i =>
          map (fun p => (name p, quantity i, category p))
              (filter (fun p => product_id i =? id p) (products d)))
          (rows_of_warehouse d w))).

(** [SELECT sm.movement_type, sm.quantity, p.name, sm.created_at, u.username
    FROM stock_movements sm JOIN products p ON sm.product_id = p.id JOIN
    users u ON sm.user_id = u.id WHERE sm.warehouse_id = ? ORDER BY
    sm.created_at DESC LIMIT 10] *)
Definition recent_movements (d : Database) (dir : Directory) (w : Z)
  : list (string * Z * string * datetime * string) :=
  firstn 10
    (order_by (newer (fun x => snd (fst x)))
       (flat_map (fun sm =>
          flat_map (fun p =>
            map (fun u => (movement_type sm, sm_quantity sm, name p, created_at sm,
                           username u))
                (filter (fun u => user_id sm =? u_id u) (users dir)))
            (filter (fun p => sm_product_id sm =? id p) (products d)))
          (filter (fun sm => sm_warehouse_id sm =? w) (stock_movements d)))).

(** [WarehouseController.get_warehouse_info]; [None] is the result both for a
    warehouse that is not there and for an exception, which the function
    catches.  Over no rows [SUM] and [AVG] are NULL: the division of [None]
    by the capacity raises TypeError. *)
Definition get_warehouse_info (d : Database) (dir : Directory) (warehouse : Z)
  : option WarehouseInfo :=
  match find (fun w => w_id w =? warehouse) (warehouses dir) with
  | None => None
  | Some w =>
      let manager_name :=
        match manager_id w with
        | Some m =>
            if m =? 0 then None
            else option_map username (find (fun u => u_id u =? m) (users dir))
        | None => None
        end in
      let rows := rows_of_warehouse d (w_id w) in
      let total_items_ := match rows with [] => None | _ => Some (sum_quantity rows) end in
      let avg_stock_level := match rows with [] => None | _ => Some (sql_avg rows) end in
      let positive := match capacity w with Some c => 0 <? c | None => false end in
      match positive, total_items_ with
      | true, None => None
      | _, _ =>
          let total := match total_items_ with Some s => s | None => 0 end in
          Some (mkWarehouseInfo (w_id w) (w_name w) (location w) (capacity w)
                  (py_round2 (utilization (capacity w) total))
                  (manager_id w) manager_name (w_created_at w)
                  (count_distinct_products rows) total (count_low_stock rows)
                  (py_round2 (match avg_stock_level with Some a => a | None => 0%float end))
                  (top_products d (w_id w)) (recent_movements d dir (w_id w)))
      end
  end.

End WarehouseInfo.

(** ** Dashboard summary *)

(** [t.strftime('%Y-%m-%d %H:%M:%S')] *)
Definition strftime_iso (t : datetime) : string :=
  (zfill 4 (str (year t)) ++ "-" ++ zfill 2 (str (month t)) ++ "-" ++ zfill 2 (str (day t))
   ++ " " ++ zfill 2 (str (hour t)) ++ ":" ++ zfill 2 (str (minute t)) ++ ":"
   ++ zfill 2 (str (second t)))%string.

(** The dictionary of [get_dashboard_summary]. *)
Record DashboardSummary := mkDashboardSummary {
  reorder_needed : Z;
  out_of_stock : Z;
  total_inventory_value : float;
  prediction_engine_status : string;
  last_update : string }.

Section Dashboard.

(** The value of [SELECT COALESCE(SUM(i.quantity * p.unit_price), 0) FROM
    inventory i JOIN products p ON i.product_id = p.id]: the [unit_price]
    column is not held in the [Product] rows. *)
Variable inventory_value : Database -> float.

(** [InventoryPredictor.get_dashboard_summary]; [now_] is the reading of
    [datetime.now()]. *)
Definition get_dashboard_summary (d : Database) (now_ : datetime) : DashboardSummary :=
  mkDashboardSummary
    (Z.of_nat (List.length (filter (fun i => quantity i <=? reorder_level i) (inventory d))))
    (Z.of_nat (List.length (filter (fun i => quantity i =? 0) (inventory d))))
    (py_round2 (inventory_value d))
    "Active"
    (strftime_iso now_).

End Dashboard.

(** ** Sample data, continued *)

(** The registry of the closed examples: one user and three warehouses, the
    third without a capacity. *)
Definition keeper : User := mkUser 7 "keeper".

Definition main_warehouse : Warehouse :=
  mkWarehouse 1 "Main" "Chennai" (Some 1000) (Some 7) (mkdatetime 2024 1 1 0 0 0 0).

Definition branch_warehouse : Warehouse :=
  mkWarehouse 2 "Branch" "Madurai" (Some 50) None (mkdatetime 2024 1 1 0 0 0 0).

Definition annex_warehouse : Warehouse :=
  mkWarehouse 3 "Annex" "Salem" None None (mkdatetime 2024 1 1 0 0 0 0).

Definition sample_directory : Directory :=
  mkDirectory [keeper] [main_warehouse; branch_warehouse; annex_warehouse].

Definition sample_category (p : Product) : string := "General".

(** A clock that reads one day and some hours after [sample_clock]. *)
Definition later_clock (n : nat) : datetime :=
  mkdatetime 2024 3 6 10 0 (Z.of_nat n) 0.

(** The sample ledger after 30 units of product 1 went from warehouse 1 to
    warehouse 2. *)
Definition transferred_db : Database :=
  snd (transfer_inventory sample_clock (sample_db AppSchema) 1 1 2 30 7 None).

(** A ledger with eight movements of product 1 at warehouse 1, of which two
    are outbound. *)
Definition few_outbound_db : Database :=
  mkDatabase AppSchema [mkProduct 1 "Widget"]
    [mkInventoryRow 1 1 40 0 20 200 (mkdatetime 2024 1 1 0 0 0 0)]
    (map (sample_movement "IN" 5) [1; 2; 3; 4; 5; 6]
     ++ [sample_movement "OUT" 4 7; sample_movement "TRANSFER_OUT" 8 8]).

(** ** Distribution report *)

(** [sep in s] for a separator of one character. *)
Fixpoint contains (sep : ascii) (s : string) : bool :=
  match s with
  | EmptyString => false
  | String c s' => Ascii.eqb c sep || contains sep s'
  end.

(** [s.split(sep)] for a separator of one character: one piece more than
    there are separators. *)
Fixpoint str_split (sep : ascii) (s : string) : list string :=
  match s with
  | EmptyString => [EmptyString]
  | String c s' =>
      if Ascii.eqb c sep then EmptyString :: str_split sep s'
      else
        match str_split sep s' with
        | piece :: rest => String c piece :: rest
        | [] => [String c EmptyString]
        end
  end.

(** [GROUP_CONCAT(x)]: the values of the group, separated by commas. *)
Definition group_concat (values : list string) : string := String.concat "," values.

(** [MAX(x)] and [MIN(x)] over a group, which has at least one row. *)
Definition list_max (l : list Z) : Z :=
  match l with
  | [] => 0
  | x :: l' => fold_right Z.max x l'
  end.

Definition list_min (l : list Z) : Z :=
  match l with
  | [] => 0
  | x :: l' => fold_right Z.min x l'
  end.

(** [a > x] for an int [a] and a float [x], compared exactly. *)
Definition int_gt_float (a : Z) (x : float) : bool :=
  match Prim2SF x with
  | S754_nan => false
  | _ => negb (int_le_float a x)
  end.

(** [int(x)] of a float: the integer part; it raises on infinities and
    NaN. *)
Definition int_of_float (x : float) : PyError + Z :=
  match Prim2SF x with
  | S754_zero _ => inr 0
  | S754_finite s m e =>
      let v := if 0 <=? e then Zpos m * 2 ^ e else Zpos m / 2 ^ (- e) in
      inr (if s then - v else v)
  | S754_infinity _ => inl (OverflowError "cannot convert float infinity to integer")
  | S754_nan => inl (ValueError "cannot convert float NaN to integer")
  end.

(** [f] on every entry, in order; [None] as soon as one raises. *)
Fixpoint traverse {A B} (f : A -> option B) (l : list A) : option (list B) :=
  match l with
  | [] => Some []
  | x :: l' =>
      match f x with
      | None => None
      | Some y =>
          match traverse f l' with
          | None => None
          | Some ys => Some (y :: ys)
          end
      end
  end.

(** The rows of [inventory i JOIN products p ON i.product_id = p.id JOIN
    warehouses w ON i.warehouse_id = w.id] for the product row [p]: one
    group of [GROUP BY i.product_id, p.name], [id] being the primary key of
    [products]. *)
Definition product_rows (d : Database) (dir : Directory) (p : Product)
  : list (Warehouse * InventoryRow) :=
  flat_map (fun i => map (fun w => (w, i))
                         (filter (fun w => warehouse_id i =? w_id w) (warehouses dir)))
           (filter (fun i => product_id i =? id p) (inventory d)).

(** [w.name || ':' || i.quantity] *)
Definition name_and_quantity (r : Warehouse * InventoryRow) : string :=
  (w_name (fst r) ++ ":" ++ str (quantity (snd r)))%string.

(** A warehouse whose name holds neither of the two separators. *)
Definition plain_name (w : Warehouse) : bool :=
  negb (contains "," (w_name w)) && negb (contains ":" (w_name w)).

(** The pair the loop of [optimize_inventory_distribution] is to recover
    from the text of [name_and_quantity]. *)
Definition named_quantity (r : Warehouse * InventoryRow) : string * Z :=
  (w_name (fst r), quantity (snd r)).

(** The rows of the query of [optimize_inventory_distribution]; within a
    group [GROUP_CONCAT] takes the rows in scan order here (the store
    promises no order). *)
Record DistributionRow := mkDistributionRow {
  dr_product_id : Z;
  dr_product_name : string;
  warehouse_quantities : string;
  avg_quantity : float;
  quantity_difference : Z;
  warehouse_count : Z }.

Definition distribution_row (d : Database) (dir : Directory) (p : Product)
  : DistributionRow :=
  let rows := product_rows d dir p in
  mkDistributionRow (id p) (name p)
    (group_concat (map name_and_quantity rows))
    (sql_avg (map snd rows))
    (list_max (map (fun r => quantity (snd r)) rows)
     - list_min (map (fun r => quantity (snd r)) rows))
    (Z.of_nat (List.length rows)).

(** [HAVING COUNT(w.id) > 1 AND (MAX(i.quantity) - MIN(i.quantity)) >
    avg_quantity * 0.5] *)
Definition having (r : DistributionRow) : bool :=
  (1 <? warehouse_count r)
  && int_gt_float (quantity_difference r) (avg_quantity r * 0.5)%float.

(** The query, [ORDER BY quantity_difference DESC]. *)
Definition distribution_query (d : Database) (dir : Directory) : list DistributionRow :=
  order_by (larger quantity_difference)
    (filter having (map (distribution_row d dir) (products d))).

(** The dictionaries of [optimize_inventory_distribution]. *)
Record Suggestion := mkSuggestion {
  sg_product_id : Z;
  sg_product_name : string;
  from_warehouse : string;
  to_warehouse : string;
  current_from_quantity : Z;
  current_to_quantity : Z;
  suggested_transfer : Z;
  efficiency_gain : string;
  priority : string }.

Section Distribution.

(** [int(s)] of Python on a string, [None] standing for ValueError.  The
    properties below use one of its rules only: it reads back what [str]
    writes. *)
Variable py_int : string -> option Z.

(** [warehouse_name, quantity = wq.split(':')] and [int(quantity)] for one
    piece: the unpacking raises unless there are exactly two parts. *)
Definition parse_piece (wq : string) : option (string * Z) :=
  match str_split ":" wq with
  | [warehouse_name; quantity_] =>
      match py_int quantity_ with
      | Some q => Some (warehouse_name, q)
      | None => None
      end
  | _ => None
  end.

(** The loop over [warehouse_quantities.split(',')]. *)
Definition parse_warehouse_quantities (wq : string) : option (list (string * Z)) :=
  traverse parse_piece (str_split "," wq).

(** The body of the loop over the rows of the query: [None] when it raises,
    no suggestion when the imbalance check fails, one suggestion
    otherwise.  [sort] is stable and ascending. *)
Definition suggestion_for (r : DistributionRow) : option (list Suggestion) :=
  match parse_warehouse_quantities (warehouse_quantities r) with
  | None => None
  | Some warehouse_data =>
      match order_by (fun y x => snd y <? snd x) warehouse_data with
      | [] => None
      | lowest :: rest =>
          let highest := last rest lowest in
          if int_gt_float (snd highest - snd lowest) (avg_quantity r * 0.5)%float then
            match int_of_float (int_true_div (snd highest - snd lowest) 2) with
            | inl _ => None
            | inr suggested_transfer_ =>
                Some [mkSuggestion (dr_product_id r) (dr_product_name r)
                        (fst highest) (fst lowest) (snd highest) (snd lowest)
                        suggested_transfer_
                        ("Reduces imbalance by " ++ str suggested_transfer_ ++ " units")
                        (if int_gt_float (quantity_difference r) (avg_quantity r * 2)%float
                         then "HIGH" else "MEDIUM")]
            end
          else Some []
      end
  end.

(** [WarehouseController.optimize_inventory_distribution]: an exception
    anywhere in the loop leaves the empty list. *)
Definition optimize_inventory_distribution (d : Database) (dir : Directory)
  : list Suggestion :=
  match traverse suggestion_for (distribution_query d dir) with
  | Some found => List.concat found
  | None => []
  end.

End Distribution.

(** A reader of the decimal numerals [str] writes, used to run the closed
    examples. *)
Definition decimal_int (s : string) : option Z :=
  option_map Z.of_int (NilZero.int_of_string s).

(** A registry with a warehouse whose name holds a colon. *)
Definition dock_warehouse : Warehouse :=
  mkWarehouse 2 "Dock:2" "Madurai" (Some 50) None (mkdatetime 2024 1 1 0 0 0 0).

Definition colon_directory : Directory :=
  mkDirectory [keeper] [main_warehouse; dock_warehouse].

(** * Properties *)

(** ** Rows and keys *)

Lemma at_key_with_quantity p w q t r :
  at_key p w (with_quantity q t r) = at_key p w r.
Proof. reflexivity. Qed.

Lemma at_key_other_warehouse p w w' r :
  w <> w' -> at_key p w r = true -> at_key p w' r = false.
Proof.
  unfold at_key. intros Hw H. apply andb_true_iff in H as [_ H].
  apply Z.eqb_eq in H. apply andb_false_iff. right. apply Z.eqb_neq. congruence.
Qed.

Lemma find_update_rows_same q t p w rows :
  find (at_key p w) (update_rows q t p w rows)
  = option_map (with_quantity q t) (find (at_key p w) rows).
Proof.
  induction rows as [|r rows IH]; simpl; [reflexivity|].
  destruct (at_key p w r) eqn:E; simpl.
  - rewrite at_key_with_quantity, E. reflexivity.
  - rewrite E. exact IH.
Qed.

Lemma find_update_rows_other q t p w w' rows :
  w <> w' ->
  find (at_key p w') (update_rows q t p w rows) = find (at_key p w') rows.
Proof.
  intros Hw. induction rows as [|r rows IH]; simpl; [reflexivity|].
  destruct (at_key p w r) eqn:E.
  - rewrite at_key_with_quantity, (at_key_other_warehouse _ _ _ _ Hw E). exact IH.
  - rewrite IH. reflexivity.
Qed.

Lemma existsb_update_rows q t p w p' w' rows :
  existsb (at_key p' w') (update_rows q t p w rows) = existsb (at_key p' w') rows.
Proof.
  induction rows as [|r rows IH]; simpl; [reflexivity|].
  rewrite IH. destruct (at_key p w r); reflexivity.
Qed.

Lemma find_none_existsb {A} (f : A -> bool) l :
  find f l = None -> existsb f l = false.
Proof.
  induction l as [|a l IH]; simpl; [reflexivity|].
  destruct (f a); [discriminate|exact IH].
Qed.

Lemma find_app_none {A} (f : A -> bool) l l' :
  find f l = None -> find f (l ++ l') = find f l'.
Proof.
  induction l as [|a l IH]; simpl; [reflexivity|].
  destruct (f a); [discriminate|exact IH].
Qed.

Lemma find_app_some {A} (f : A -> bool) l l' a :
  find f l = Some a -> find f (l ++ l') = Some a.
Proof.
  induction l as [|b l IH]; simpl; [discriminate|].
  destruct (f b); [trivial|exact IH].
Qed.

Lemma at_key_refl p w q r rl ml t : at_key p w (mkInventoryRow p w q r rl ml t) = true.
Proof. unfold at_key. simpl. rewrite !Z.eqb_refl. reflexivity. Qed.

Lemma transfer_kinds_pass s :
  movement_type_check s "TRANSFER_OUT" = true /\
  movement_type_check s "TRANSFER_IN" = true.
Proof. destruct s; split; reflexivity. Qed.

(** ** The four outcomes of a transfer and the four of an adjustment *)

Ltac run_py :=
  cbn -[String.append str strftime update_rows movement_type_check
        inventory_unique find existsb].

Ltac open_call :=
  unfold transfer_inventory, adjust_inventory, call, transfer_inventory_body,
    adjust_inventory_body, try_except, bind, select_quantity, select_reorder_info,
    insert_stock_movement, insert_inventory;
  cbn [connect live inventory].

Section Outcomes.

Variable clock : nat -> datetime.

Lemma transfer_not_found d p f t n u nt :
  stored_quantity d p f = None ->
  transfer_inventory clock d p f t n u nt
  = (failure "Product not found in source warehouse", d).
Proof.
  unfold stored_quantity. intros Hq. open_call. rewrite Hq. reflexivity.
Qed.

Lemma transfer_insufficient d p f t n u nt q :
  stored_quantity d p f = Some q -> q < n ->
  transfer_inventory clock d p f t n u nt
  = (failure ("Insufficient inventory. Available: " ++ str q
              ++ ", Requested: " ++ str n), d).
Proof.
  unfold stored_quantity. intros Hq Hn.
  assert (Hlt : (q <? n) = true) by (apply Z.ltb_lt; lia).
  open_call. rewrite Hq. cbn beta iota. rewrite Hlt. reflexivity.
Qed.

Lemma transfer_existing d p f t n u nt q dq :
  stored_quantity d p f = Some q -> n <= q ->
  stored_quantity d p t = Some dq ->
  transfer_inventory clock d p f t n u nt
  = (mkResult true ("Successfully transferred " ++ str n ++ " units")
       (Some ("TRANSFER-" ++ strftime (clock 2%nat))%string) None None None,
     mkDatabase (schema d) (products d)
       (update_rows (dq + n) (clock 1%nat) p t
          (update_rows (q - n) (clock 0%nat) p f (inventory d)))
       (stock_movements d
        ++ [transfer_out_row clock p f t n u nt; transfer_in_row clock p f t n u nt])).
Proof.
  unfold stored_quantity. intros Hq Hn Hd.
  assert (Hlt : (q <? n) = false) by (apply Z.ltb_ge; lia).
  destruct (transfer_kinds_pass (schema d)) as [Ho Hi].
  open_call. rewrite Hq. cbn beta iota. rewrite Hlt.
  cbn beta iota. cbn [connect live inventory]. rewrite Hd.
  run_py. rewrite Ho. run_py. rewrite Hi. run_py.
  rewrite <- app_assoc. reflexivity.
Qed.

Lemma transfer_created d p f t n u nt r :
  find (at_key p f) (inventory d) = Some r -> n <= quantity r ->
  stored_quantity d p t = None ->
  transfer_inventory clock d p f t n u nt
  = (mkResult true ("Successfully transferred " ++ str n ++ " units")
       (Some ("TRANSFER-" ++ strftime (clock 2%nat))%string) None None None,
     mkDatabase (schema d) (products d)
       (update_rows (quantity r - n) (clock 0%nat) p f (inventory d)
        ++ [mkInventoryRow p t n 0 (reorder_level r) (max_stock_level r)
                           (clock 1%nat)])
       (stock_movements d
        ++ [transfer_out_row clock p f t n u nt; transfer_in_row clock p f t n u nt])).
Proof.
  unfold stored_quantity. intros Hr Hn Hd.
  assert (Hlt : (quantity r <? n) = false) by (apply Z.ltb_ge; lia).
  destruct (transfer_kinds_pass (schema d)) as [Ho Hi].
  assert (Hnone : find (at_key p t) (inventory d) = None)
    by (destruct (find (at_key p t) (inventory d)); [discriminate|reflexivity]).
  open_call. rewrite Hr. cbn [option_map]. cbn beta iota. rewrite Hlt.
  cbn beta iota. cbn [connect live inventory]. rewrite Hd.
  run_py. rewrite find_update_rows_same, Hr. cbn [option_map fst snd].
  rewrite existsb_update_rows, (find_none_existsb _ _ Hnone), andb_false_r.
  run_py. rewrite Ho. run_py. rewrite Hi. run_py.
  rewrite <- app_assoc. reflexivity.
Qed.

Lemma adjust_not_found d p w a ty u rs :
  stored_quantity d p w = None ->
  adjust_inventory clock d p w a ty u rs
  = (failure "Inventory record not found", d).
Proof.
  unfold stored_quantity. intros Hq. open_call. rewrite Hq. reflexivity.
Qed.

Lemma adjust_negative d p w a ty u rs q :
  stored_quantity d p w = Some q -> q + a < 0 ->
  adjust_inventory clock d p w a ty u rs
  = (failure ("Adjustment would result in negative inventory. Current: "
              ++ str q ++ ", Adjustment: " ++ str a), d).
Proof.
  unfold stored_quantity. intros Hq Hn.
  assert (Hlt : (q + a <? 0) = true) by (apply Z.ltb_lt; lia).
  open_call. rewrite Hq. cbn beta iota. rewrite Hlt. reflexivity.
Qed.

Lemma adjust_accepted d p w a ty u rs q :
  stored_quantity d p w = Some q -> 0 <= q + a ->
  movement_type_check (schema d) ("ADJUST_" ++ ty) = true ->
  adjust_inventory clock d p w a ty u rs
  = (mkResult true
       ("Inventory adjusted successfully. New quantity: " ++ str (q + a))
       None (Some q) (Some (q + a))
       (Some ("ADJ-" ++ strftime (clock 1%nat))%string),
     mkDatabase (schema d) (products d)
       (update_rows (q + a) (clock 0%nat) p w (inventory d))
       (stock_movements d
        ++ [mkStockMovement p w ("ADJUST_" ++ ty) (Z.abs a)
              (Some ("ADJ-" ++ strftime (clock 1%nat))%string)
              (Some (or_else rs (ty ++ " adjustment"))) u (clock 2%nat)])).
Proof.
  unfold stored_quantity. intros Hq Hn Hc.
  assert (Hlt : (q + a <? 0) = false) by (apply Z.ltb_ge; lia).
  open_call. rewrite Hq. cbn beta iota. rewrite Hlt.
  run_py. rewrite Hc. run_py. reflexivity.
Qed.

Lemma adjust_rejected d p w a ty u rs q :
  stored_quantity d p w = Some q -> 0 <= q + a ->
  movement_type_check (schema d) ("ADJUST_" ++ ty) = false ->
  adjust_inventory clock d p w a ty u rs
  = (failure "Adjustment failed: CHECK constraint failed: stock_movements", d).
Proof.
  unfold stored_quantity. intros Hq Hn Hc.
  assert (Hlt : (q + a <? 0) = false) by (apply Z.ltb_ge; lia).
  open_call. rewrite Hq. cbn beta iota. rewrite Hlt.
  run_py. rewrite Hc. run_py. reflexivity.
Qed.

End Outcomes.

(** ** Quantities after the writes of a transfer *)

Lemma stored_quantity_inv d p w q :
  stored_quantity d p w = Some q ->
  exists r, find (at_key p w) (inventory d) = Some r /\ quantity r = q.
Proof.
  unfold stored_quantity. destruct (find (at_key p w) (inventory d)) as [r|];
    simpl; intros H; [|discriminate].
  exists r. split; [reflexivity|congruence].
Qed.

Lemma quantity_after_update q t p w rows :
  option_map quantity (find (at_key p w) (update_rows q t p w rows))
  = option_map (fun _ => q) (find (at_key p w) rows).
Proof.
  rewrite find_update_rows_same. destruct (find (at_key p w) rows); reflexivity.
Qed.

Lemma transfer_success_source clock d p f t n u nt :
  success (fst (transfer_inventory clock d p f t n u nt)) = true ->
  exists r, find (at_key p f) (inventory d) = Some r /\ n <= quantity r.
Proof.
  intros Hs. destruct (stored_quantity d p f) as [q|] eqn:Hq.
  - destruct (Z_lt_le_dec q n) as [Hlt|Hle].
    + rewrite (transfer_insufficient clock d p f t n u nt q Hq Hlt) in Hs. discriminate.
    + destruct (stored_quantity_inv _ _ _ _ Hq) as (r & Hr & Hqr).
      exists r. split; [exact Hr|lia].
  - rewrite (transfer_not_found clock d p f t n u nt Hq) in Hs. discriminate.
Qed.

Section TransferFacts.

Variable clock : nat -> datetime.


Lemma transfer_source_quantity d p f t n u nt q :
  f <> t -> stored_quantity d p f = Some q -> n <= q ->
  stored_quantity (snd (transfer_inventory clock d p f t n u nt)) p f = Some (q - n).
Proof.
  intros Hft Hq Hn.
  destruct (stored_quantity_inv _ _ _ _ Hq) as (r & Hr & Hqr).
  destruct (stored_quantity d p t) as [dq|] eqn:Hd.
  - rewrite (transfer_existing clock d p f t n u nt q dq Hq Hn Hd).
    unfold stored_quantity. cbn [snd inventory].
    rewrite find_update_rows_other by congruence.
    rewrite quantity_after_update, Hr. reflexivity.
  - assert (Hn' : n <= quantity r) by lia.
    rewrite (transfer_created clock d p f t n u nt r Hr Hn' Hd).
    unfold stored_quantity. cbn [snd inventory].
    erewrite find_app_some by (rewrite find_update_rows_same, Hr; reflexivity).
    simpl. f_equal. lia.
Qed.

Lemma transfer_destination_quantity d p f t n u nt q :
  stored_quantity d p f = Some q -> n <= q ->
  stored_quantity (snd (transfer_inventory clock d p f t n u nt)) p t
  = Some (match stored_quantity d p t with Some dq => dq + n | None => n end).
Proof.
  intros Hq Hn.
  destruct (stored_quantity_inv _ _ _ _ Hq) as (r & Hr & Hqr).
  destruct (stored_quantity d p t) as [dq|] eqn:Hd.
  - rewrite (transfer_existing clock d p f t n u nt q dq Hq Hn Hd).
    unfold stored_quantity in *. cbn [snd inventory].
    rewrite quantity_after_update.
    destruct (find (at_key p t) (update_rows (q - n) (clock 0%nat) p f (inventory d)))
      eqn:E; [reflexivity|].
    exfalso. apply find_none_existsb in E. rewrite existsb_update_rows in E.
    destruct (find (at_key p t) (inventory d)) as [x|] eqn:Ex; [|discriminate].
    apply find_some in Ex. destruct Ex as [Hin Hk].
    assert (Hex : existsb (at_key p t) (inventory d) = true)
      by (apply existsb_exists; exists x; split; assumption).
    congruence.
  - assert (Hn' : n <= quantity r) by lia.
    rewrite (transfer_created clock d p f t n u nt r Hr Hn' Hd).
    assert (Hnone : find (at_key p t) (inventory d) = None).
    { unfold stored_quantity in Hd.
      destruct (find (at_key p t) (inventory d)); [discriminate|reflexivity]. }
    unfold stored_quantity. cbn [snd inventory].
    rewrite find_app_none.
    + cbn [find]. rewrite at_key_refl. reflexivity.
    + apply find_none_existsb in Hnone.
      destruct (find (at_key p t) (update_rows (quantity r - n) (clock 0%nat) p f (inventory d)))
        as [x|] eqn:Ex; [|reflexivity].
      apply find_some in Ex. destruct Ex as [Hin Hk].
      assert (Hex : existsb (at_key p t)
                      (update_rows (quantity r - n) (clock 0%nat) p f (inventory d)) = true)
        by (apply existsb_exists; exists x; split; assumption).
      rewrite existsb_update_rows in Hex. congruence.
Qed.

Lemma transfer_movements d p f t n u nt :
  success (fst (transfer_inventory clock d p f t n u nt)) = true ->
  transfer_reference (fst (transfer_inventory clock d p f t n u nt))
  = Some ("TRANSFER-" ++ strftime (clock 2%nat))%string /\
  stock_movements (snd (transfer_inventory clock d p f t n u nt))
  = stock_movements d
    ++ [transfer_out_row clock p f t n u nt; transfer_in_row clock p f t n u nt].
Proof.
  intros Hs. destruct (transfer_success_source _ _ _ _ _ _ _ _ Hs) as (r & Hr & Hn).
  assert (Hq : stored_quantity d p f = Some (quantity r))
    by (unfold stored_quantity; rewrite Hr; reflexivity).
  destruct (stored_quantity d p t) as [dq|] eqn:Hd.
  - rewrite (transfer_existing clock d p f t n u nt _ dq Hq Hn Hd). split; reflexivity.
  - rewrite (transfer_created clock d p f t n u nt r Hr Hn Hd). split; reflexivity.
Qed.

End TransferFacts.

Section TransferProperties.

Variable clock : nat -> datetime.

(** C1.  A successful transfer between two distinct warehouses whose source
    holds at least the requested quantity takes the quantity from the
    source row, adds it to the destination row (or creates that row with
    the quantity), and so leaves the units held by the two warehouses
    together unchanged. *)
Theorem transfer_conserves_pair_total d p f t n u nt q :
  f <> t ->
  stored_quantity d p f = Some q ->
  n <= q ->
  success (fst (transfer_inventory clock d p f t n u nt)) = true ->
  let d' := snd (transfer_inventory clock d p f t n u nt) in
  stored_quantity d' p f = Some (q - n) /\
  stored_quantity d' p t
  = Some (match stored_quantity d p t with Some dq => dq + n | None => n end) /\
  held d' p f + held d' p t = held d p f + held d p t.
Proof.
  intros Hft Hq Hn _ d'.
  pose proof (transfer_source_quantity clock d p f t n u nt q Hft Hq Hn) as Hf.
  pose proof (transfer_destination_quantity clock d p f t n u nt q Hq Hn) as Ht.
  fold d' in Hf, Ht. split; [exact Hf|]. split; [exact Ht|].
  unfold held. rewrite Hf, Ht, Hq.
  destruct (stored_quantity d p t); lia.
Qed.

(** C3.  When the source row exists but holds less than the requested
    quantity, the transfer returns the failure whose message reports the
    available and the requested amounts, and the ledger (inventory and
    stock movements) is what it was. *)
Theorem transfer_insufficient_stock d p f t n u nt q :
  stored_quantity d p f = Some q ->
  q < n ->
  let r := fst (transfer_inventory clock d p f t n u nt) in
  success r = false /\
  message r = ("Insufficient inventory. Available: " ++ str q
               ++ ", Requested: " ++ str n)%string /\
  snd (transfer_inventory clock d p f t n u nt) = d.
Proof.
  intros Hq Hn. rewrite (transfer_insufficient clock d p f t n u nt q Hq Hn).
  repeat split.
Qed.

(** C4.  A successful transfer appends exactly two stock movements to the
    log: TRANSFER_OUT at the source then TRANSFER_IN at the destination,
    both for the transferred quantity and both carrying the reference
    number generated in this call, which the result returns. *)
Theorem transfer_records_movement_pair d p f t n u nt :
  success (fst (transfer_inventory clock d p f t n u nt)) = true ->
  exists ref out_notes in_notes out_time in_time,
    ref = ("TRANSFER-" ++ strftime (clock 2%nat))%string /\
    transfer_reference (fst (transfer_inventory clock d p f t n u nt)) = Some ref /\
    stock_movements (snd (transfer_inventory clock d p f t n u nt))
    = stock_movements d
      ++ [mkStockMovement p f "TRANSFER_OUT" n (Some ref) out_notes u out_time;
          mkStockMovement p t "TRANSFER_IN" n (Some ref) in_notes u in_time].
Proof.
  intros Hs. destruct (transfer_movements clock d p f t n u nt Hs) as [Href Hm].
  exists ("TRANSFER-" ++ strftime (clock 2%nat))%string.
  exists (Some ("Transfer to warehouse " ++ str t ++ ". " ++ or_else nt "")%string).
  exists (Some ("Transfer from warehouse " ++ str f ++ ". " ++ or_else nt "")%string).
  exists (clock 3%nat), (clock 4%nat).
  split; [reflexivity|]. split; [exact Href|exact Hm].
Qed.



End TransferProperties.

(** ** The frame of a transfer *)

Lemma same_frame_refl a : same_frame a a.
Proof. repeat split. Qed.

Lemma transfer_touches_refl p f t rows :
  Forall2 (transfer_touches p f t) rows rows.
Proof.
  induction rows as [|r rows IH]; constructor; [|exact IH].
  split; [apply same_frame_refl|reflexivity].
Qed.

Lemma update_rows_touches_source q1 t1 p f t rows :
  Forall2 (transfer_touches p f t) rows (update_rows q1 t1 p f rows).
Proof.
  induction rows as [|r rows IH]; cbn [update_rows map]; constructor; [|exact IH].
  unfold transfer_touches. destruct (at_key p f r) eqn:Ef.
  - split; [repeat split|]. intros H. discriminate.
  - split; [apply same_frame_refl|reflexivity].
Qed.

Lemma update_rows_touches_both q1 t1 q2 t2 p f t rows :
  Forall2 (transfer_touches p f t) rows
          (update_rows q2 t2 p t (update_rows q1 t1 p f rows)).
Proof.
  induction rows as [|r rows IH]; cbn [update_rows map]; constructor; [|exact IH].
  unfold transfer_touches. destruct (at_key p f r) eqn:Ef.
  - rewrite at_key_with_quantity.
    destruct (at_key p t r) eqn:Et; (split; [repeat split|intros H; discriminate]).
  - destruct (at_key p t r) eqn:Et.
    + split; [repeat split|]. intros _ H. discriminate.
    + split; [apply same_frame_refl|reflexivity].
Qed.

(** C6.  Whatever its outcome, a transfer keeps every inventory row that was
    there, in place, with its reserved quantity (and its key and thresholds)
    as before: at most the quantity and the timestamp of the source's and the
    destination's rows change, and at most one row, the destination's, is
    added.  No step looks at the reserved quantity: there is a successful
    transfer after which the source row holds less than it has reserved. *)
Theorem transfer_leaves_reserved_alone :
  (forall clock d p f t n u nt,
      exists kept created,
        inventory (snd (transfer_inventory clock d p f t n u nt)) = kept ++ created /\
        Forall2 (transfer_touches p f t) (inventory d) kept /\
        (created = [] \/
         exists row, created = [row] /\ stored_quantity d p t = None /\
                     at_key p t row = true /\ reserved_quantity row = 0)) /\
  (exists clock d p f t n u nt row,
      success (fst (transfer_inventory clock d p f t n u nt)) = true /\
      find (at_key p f) (inventory (snd (transfer_inventory clock d p f t n u nt)))
      = Some row /\
      quantity row < reserved_quantity row).
Proof.
  split.
  - intros clock d p f t n u nt.
    destruct (stored_quantity d p f) as [q|] eqn:Hq.
    + destruct (Z_lt_le_dec q n) as [Hlt|Hle].
      * rewrite (transfer_insufficient clock d p f t n u nt q Hq Hlt).
        exists (inventory d), []. rewrite app_nil_r.
        split; [reflexivity|]. split; [apply transfer_touches_refl|now left].
      * destruct (stored_quantity_inv _ _ _ _ Hq) as (r & Hr & Hqr).
        destruct (stored_quantity d p t) as [dq|] eqn:Hd.
        -- rewrite (transfer_existing clock d p f t n u nt q dq Hq Hle Hd).
           eexists _, []. rewrite app_nil_r. split; [reflexivity|].
           split; [apply update_rows_touches_both|now left].
        -- assert (Hn' : n <= quantity r) by lia.
           rewrite (transfer_created clock d p f t n u nt r Hr Hn' Hd).
           eexists _, _. split; [reflexivity|].
           split; [apply update_rows_touches_source|].
           right. eexists. split; [reflexivity|].
           split; [reflexivity|]. split; [apply at_key_refl|reflexivity].
    + rewrite (transfer_not_found clock d p f t n u nt Hq).
      exists (inventory d), []. rewrite app_nil_r.
      split; [reflexivity|]. split; [apply transfer_touches_refl|now left].
  - exists sample_clock, (sample_db AppSchema), 1, 1, 2, 30, 7, None.
    eexists. split; [reflexivity|]. split; [reflexivity|]. simpl. lia.
Qed.

(** ** Adjustments *)

Section AdjustProperties.

Variable clock : nat -> datetime.

(** The adjustment protocol on a ledger whose [stock_movements] table
    admits the kind ADJUST_<type> (any kind under the schema of [app.py]):
    a result below zero is refused with the ledger untouched; otherwise the
    row's quantity becomes the previous one plus the delta, the result
    reports both, and one movement of that kind with magnitude [|delta|] is
    appended. *)
Theorem adjust_inventory_protocol d p w a ty u rs q :
  stored_quantity d p w = Some q ->
  movement_type_check (schema d) ("ADJUST_" ++ ty) = true ->
  let r := fst (adjust_inventory clock d p w a ty u rs) in
  let d' := snd (adjust_inventory clock d p w a ty u rs) in
  (q + a < 0 -> success r = false /\ d' = d) /\
  (0 <= q + a ->
   success r = true /\
   stored_quantity d' p w = Some (q + a) /\
   previous_quantity r = Some q /\ new_quantity r = Some (q + a) /\
   exists ref note time,
     stock_movements d'
     = stock_movements d
       ++ [mkStockMovement p w ("ADJUST_" ++ ty) (Z.abs a) ref note u time]).
Proof.
  intros Hq Hc r d'. split.
  - intros Hneg. subst r d'.
    rewrite (adjust_negative clock d p w a ty u rs q Hq Hneg). split; reflexivity.
  - intros Hpos. subst r d'.
    rewrite (adjust_accepted clock d p w a ty u rs q Hq Hpos Hc).
    cbn [fst snd success previous_quantity new_quantity stock_movements].
    split; [reflexivity|]. split.
    + unfold stored_quantity in *. cbn [inventory].
      rewrite quantity_after_update.
      destruct (find (at_key p w) (inventory d)); [reflexivity|discriminate].
    + split; [reflexivity|]. split; [reflexivity|].
      do 3 eexists. reflexivity.
Qed.

End AdjustProperties.

(** C5 (failing input).  On a ledger created by [setup_database.py] the
    CHECK on [movement_type] admits none of ADJUST_CORRECTION, ADJUST_DAMAGE,
    ADJUST_FOUND: an adjustment of +5 'CORRECTION' on a row holding 100 is
    rolled back and reported as failed, although 100 + 5 is not negative. *)
Theorem adjust_rejected_by_movement_check :
  stored_quantity (sample_db SetupSchema) 1 1 = Some 100 /\
  0 <= 100 + 5 /\
  movement_type_check SetupSchema "ADJUST_CORRECTION" = false /\
  movement_type_check SetupSchema "ADJUST_DAMAGE" = false /\
  movement_type_check SetupSchema "ADJUST_FOUND" = false /\
  success (fst (adjust_inventory sample_clock (sample_db SetupSchema)
                  1 1 5 "CORRECTION" 7 None)) = false /\
  snd (adjust_inventory sample_clock (sample_db SetupSchema) 1 1 5 "CORRECTION" 7 None)
  = sample_db SetupSchema /\
  stored_quantity
    (snd (adjust_inventory sample_clock (sample_db SetupSchema) 1 1 5 "CORRECTION" 7 None))
    1 1 = Some 100.
Proof. repeat split; try reflexivity. lia. Qed.

(** ** Lists and slices *)

Lemma slice_from_last7 {A} (l : list A) :
  (7 <= List.length l)%nat -> slice_from (-7) l = lastn 7 l.
Proof.
  intros H. unfold slice_from, lastn. cbn [Z.ltb Z.compare].
  f_equal. lia.
Qed.

Lemma collected_length h : (List.length (collected h) <= List.length h)%nat.
Proof.
  unfold collected. rewrite length_map. apply filter_length_le.
Qed.

Lemma collected_none h :
  Forall (fun m => is_outbound m = false) h -> collected h = [].
Proof.
  unfold collected. induction 1 as [|m h Hm _ IH]; simpl; [reflexivity|].
  rewrite Hm. exact IH.
Qed.

(** ** The history is newest first *)

Lemma lex_leb_total a b :
  List.length a = List.length b -> lex_leb a b = false -> lex_leb b a = true.
Proof.
  revert b. induction a as [|x a IH]; intros [|y b] Hl H; simpl in *;
    try discriminate; try reflexivity.
  apply orb_false_iff in H as [Hlt H].
  apply Z.ltb_ge in Hlt.
  destruct (Z.eq_dec x y) as [->|Hne].
  - rewrite Z.eqb_refl in *. simpl in H. rewrite (IH b); [|lia|exact H].
    apply orb_true_r.
  - assert (Hyx : (y <? x) = true) by (apply Z.ltb_lt; lia).
    rewrite Hyx. reflexivity.
Qed.

Lemma datetime_leb_total a b :
  datetime_leb a b = false -> datetime_leb b a = true.
Proof. apply lex_leb_total. reflexivity. Qed.

Definition newer_or_same (a b : StockMovement) : Prop :=
  datetime_leb (created_at b) (created_at a) = true.

Lemma insert_desc_head m l x :
  HdRel newer_or_same x l -> newer_or_same x m ->
  HdRel newer_or_same x (insert_desc m l).
Proof.
  intros Hh Hm. destruct l as [|y l]; simpl.
  - constructor. exact Hm.
  - destruct (datetime_leb (created_at y) (created_at m)).
    + constructor. exact Hm.
    + constructor. inversion Hh. assumption.
Qed.

Lemma insert_desc_sorted m l :
  Sorted newer_or_same l -> Sorted newer_or_same (insert_desc m l).
Proof.
  induction 1 as [|x l Hs IH Hh]; simpl.
  - repeat constructor.
  - destruct (datetime_leb (created_at x) (created_at m)) eqn:E.
    + constructor; [constructor; assumption|].
      constructor. exact E.
    + constructor; [exact IH|]. apply insert_desc_head; [assumption|].
      apply datetime_leb_total. exact E.
Qed.

Lemma insert_desc_length m l :
  List.length (insert_desc m l) = S (List.length l).
Proof.
  induction l as [|x l IH]; simpl; [reflexivity|].
  destruct (datetime_leb (created_at x) (created_at m)); simpl; [reflexivity|].
  rewrite IH. reflexivity.
Qed.

Lemma order_by_created_at_desc_length l :
  List.length (order_by_created_at_desc l) = List.length l.
Proof.
  unfold order_by_created_at_desc. induction l as [|m l IH]; simpl; [reflexivity|].
  rewrite insert_desc_length, IH. reflexivity.
Qed.

(** The fetched history is no longer than the list of the pair's movements. *)
Lemma history_length_le d p w since :
  (List.length (_get_historical_movements d p w since)
   <= List.length (pair_movements d p w))%nat.
Proof.
  unfold _get_historical_movements, pair_movements.
  rewrite order_by_created_at_desc_length.
  induction (stock_movements d) as [|m l IH]; simpl; [lia|].
  destruct ((sm_product_id m =? p) && (sm_warehouse_id m =? w)); simpl.
  - destruct (datetime_leb since (created_at m)); simpl; lia.
  - exact IH.
Qed.

(** [_get_historical_movements] returns the movements newest first: each row
    is at least as recent as the one after it. *)
Lemma history_newest_first d p w since :
  Sorted newer_or_same (_get_historical_movements d p w since).
Proof.
  unfold _get_historical_movements, order_by_created_at_desc.
  induction (filter _ (stock_movements d)) as [|m l IH]; simpl.
  - constructor.
  - apply insert_desc_sorted. exact IH.
Qed.

(** ** Demand prediction *)

Lemma py_round_finite x :
  finite_float x = true -> exists z, py_round x = inr z.
Proof.
  unfold finite_float, py_round. destruct (Prim2SF x); intros H;
    try discriminate; eexists; reflexivity.
Qed.

Section PredictorProperties.

Variable np_std : list Z -> float.
Variable np_round2 : float -> float.

(** C2 (as amended).  When at least 7 outbound quantities are collected
    from the history, the recent mean is taken over the last 7 entries of
    the collected sequence, the overall mean over all of them, the daily
    prediction is [0.7 * recent + 0.3 * overall], and the returned total is
    the daily prediction times [days], rounded to two decimals. *)
Theorem predict_demand_moving_average d since p w days :
  let dm := collected (_get_historical_movements d p w since) in
  (7 <= List.length dm)%nat ->
  let recent_avg := np_mean (lastn 7 dm) in
  let overall_avg := np_mean dm in
  let predicted_daily := (recent_avg * 0.7 + overall_avg * 0.3)%float in
  let r := predict_demand np_std np_round2 d since p w days in
  method r = "moving_average"%string /\
  predicted_demand r = np_round2 (predicted_daily * float_of_int days) /\
  predicted_daily_demand r = Some (np_round2 predicted_daily).
Proof.
  intros dm Hdm. unfold predict_demand, predict_from.
  pose proof (collected_length (_get_historical_movements d p w since)) as Hle.
  fold dm in Hle.
  assert (Hh : (List.length (_get_historical_movements d p w since) <? 7)%nat = false)
    by (apply Nat.ltb_ge; lia).
  rewrite Hh. fold (collected (_get_historical_movements d p w since)). fold dm.
  destruct dm as [|x dm'] eqn:Edm; [simpl in Hdm; lia|].
  assert (H7 : (7 <=? List.length (x :: dm'))%nat = true) by (apply Nat.leb_le; exact Hdm).
  rewrite H7, (slice_from_last7 (x :: dm') Hdm).
  repeat split.
Qed.

(** C7.  With fewer than 7 movements in the fetched history (in particular
    when the ledger holds fewer than 7 movements for the pair) the prediction
    is the fallback (10, 0.3, default_fallback); with at least 7, none of
    them of kind OUT or TRANSFER_OUT, it is the fallback
    (5, 0.4, no_outbound_data). *)
Theorem predict_demand_fallbacks d since p w days :
  let h := _get_historical_movements d p w since in
  let r := predict_demand np_std np_round2 d since p w days in
  ((List.length (pair_movements d p w) < 7)%nat ->
   r = mkPrediction 10 None 0.3 "default_fallback" None
                    "Insufficient historical data") /\
  ((List.length h < 7)%nat ->
   r = mkPrediction 10 None 0.3 "default_fallback" None
                    "Insufficient historical data") /\
  ((7 <= List.length h)%nat ->
   Forall (fun m => is_outbound m = false) h ->
   r = mkPrediction 5 None 0.4 "no_outbound_data" None
                    "No outbound movement data available").
Proof.
  intros h r.
  assert (Hshort : (List.length h < 7)%nat ->
                   r = mkPrediction 10 None 0.3 "default_fallback" None
                                    "Insufficient historical data").
  { intros Hlt. subst r. unfold predict_demand, predict_from. fold h.
    apply Nat.ltb_lt in Hlt. rewrite Hlt. reflexivity. }
  split; [|split].
  - intros Hlt. apply Hshort.
    pose proof (history_length_le d p w since) as Hle. fold h in Hle. lia.
  - exact Hshort.
  - intros Hge Hall. subst r. unfold predict_demand, predict_from. fold h.
    apply Nat.ltb_ge in Hge. rewrite Hge.
    fold (collected h). rewrite (collected_none h Hall). reflexivity.
Qed.

(** C8 (as amended).  With [available = quantity - reserved_quantity] at
    most the reorder level, and the three figures that the result rounds
    finite, the recommendation is to reorder
    [round(max_stock_level * 0.8 - available)] units, with urgency high
    when [available <= reorder_level * 0.5] and medium otherwise. *)
Theorem reorder_recommendation_low_stock d since p w cq rq rl ml nm :
  select_inventory_with_product d p w = Some (cq, rq, rl, ml, nm) ->
  let available := cq - rq in
  available <= rl ->
  let pd := predicted_demand (predict_demand np_std np_round2 d since p w 30) in
  let amount := (float_of_int ml * 0.8 - float_of_int available)%float in
  finite_float amount = true ->
  finite_float pd = true ->
  finite_float (pd * 0.2) = true ->
  let r := get_reorder_recommendation np_std np_round2 d since p w in
  should_reorder r = true /\
  (exists z, py_round amount = inr z /\ recommended_quantity r = Some z) /\
  urgency r
  = Some (if int_le_float available (float_of_int rl * 0.5)
          then "high" else "medium")%string.
Proof.
  intros Hsel available Hav pd amount Ha Hp Hs r. subst r.
  unfold get_reorder_recommendation. rewrite Hsel.
  fold available. fold pd.
  assert (Hle : (available <=? rl) = true) by (apply Z.leb_le; exact Hav).
  rewrite Hle. fold amount.
  destruct (py_round_finite _ Ha) as [z Hz].
  destruct (py_round_finite _ Hp) as [z1 Hz1].
  destruct (py_round_finite _ Hs) as [z2 Hz2].
  rewrite Hz, Hz1, Hz2. cbn [should_reorder recommended_quantity urgency].
  split; [reflexivity|]. split; [exists z; split; reflexivity|reflexivity].
Qed.

End PredictorProperties.

(** * Closed instances *)

(** C1 on the sample ledger: 30 units of product 1 from warehouse 1 (100
    units) to warehouse 2 (0 units). *)
Lemma transfer_conserves_pair_total_witness :
  1 <> 2 /\
  stored_quantity (sample_db SetupSchema) 1 1 = Some 100 /\
  30 <= 100 /\
  success (fst (transfer_inventory sample_clock (sample_db SetupSchema) 1 1 2 30 7 None))
  = true /\
  (let d' := snd (transfer_inventory sample_clock (sample_db SetupSchema) 1 1 2 30 7 None) in
   stored_quantity d' 1 1 = Some (100 - 30) /\
   stored_quantity d' 1 2
   = Some (match stored_quantity (sample_db SetupSchema) 1 2 with
           | Some dq => dq + 30
           | None => 30
           end) /\
   held d' 1 1 + held d' 1 2
   = held (sample_db SetupSchema) 1 1 + held (sample_db SetupSchema) 1 2).
Proof.
  assert (H1 : 1 <> 2) by discriminate.
  assert (H2 : stored_quantity (sample_db SetupSchema) 1 1 = Some 100) by reflexivity.
  assert (H3 : 30 <= 100) by lia.
  assert (H4 : success (fst (transfer_inventory sample_clock (sample_db SetupSchema)
                               1 1 2 30 7 None)) = true) by reflexivity.
  split; [exact H1|]. split; [exact H2|]. split; [exact H3|]. split; [exact H4|].
  exact (transfer_conserves_pair_total sample_clock (sample_db SetupSchema)
           1 1 2 30 7 None 100 H1 H2 H3 H4).
Defined.

(** C3 on the sample ledger: 130 units asked of a row holding 100. *)
Lemma transfer_insufficient_stock_witness :
  stored_quantity (sample_db AppSchema) 1 1 = Some 100 /\
  100 < 130 /\
  (let r := fst (transfer_inventory sample_clock (sample_db AppSchema) 1 1 2 130 7 None) in
   success r = false /\
   message r = ("Insufficient inventory. Available: " ++ str 100
                ++ ", Requested: " ++ str 130)%string /\
   snd (transfer_inventory sample_clock (sample_db AppSchema) 1 1 2 130 7 None)
   = sample_db AppSchema).
Proof.
  assert (H1 : stored_quantity (sample_db AppSchema) 1 1 = Some 100) by reflexivity.
  assert (H2 : 100 < 130) by lia.
  split; [exact H1|]. split; [exact H2|].
  exact (transfer_insufficient_stock sample_clock (sample_db AppSchema)
           1 1 2 130 7 None 100 H1 H2).
Defined.

(** C4 on the sample ledger: the transfer to a warehouse without a row. *)
Lemma transfer_records_movement_pair_witness :
  success (fst (transfer_inventory sample_clock (sample_db SetupSchema) 1 1 3 30 7 None))
  = true /\
  exists ref out_notes in_notes out_time in_time,
    ref = ("TRANSFER-" ++ strftime (sample_clock 2%nat))%string /\
    transfer_reference
      (fst (transfer_inventory sample_clock (sample_db SetupSchema) 1 1 3 30 7 None))
    = Some ref /\
    stock_movements
      (snd (transfer_inventory sample_clock (sample_db SetupSchema) 1 1 3 30 7 None))
    = stock_movements (sample_db SetupSchema)
      ++ [mkStockMovement 1 1 "TRANSFER_OUT" 30 (Some ref) out_notes 7 out_time;
          mkStockMovement 1 3 "TRANSFER_IN" 30 (Some ref) in_notes 7 in_time].
Proof.
  assert (H : success (fst (transfer_inventory sample_clock (sample_db SetupSchema)
                              1 1 3 30 7 None)) = true) by reflexivity.
  split; [exact H|].
  exact (transfer_records_movement_pair sample_clock (sample_db SetupSchema)
           1 1 3 30 7 None H).
Defined.




(** C2 as stated fails on the sample history.  Its eight outbound movements
    are collected newest first, so the last 7 entries are the 7 oldest and
    leave out the newest movement of 100 units, which the 7 most recent
    include.  The recent mean is 1 where the spec's is 106/7, and the
    returned total, 141.38 under numpy's rounding, is neither the spec's
    438.375 nor the unrounded product 141.375. *)
Lemma predict_demand_recent_window_is_oldest :
  let h := _get_historical_movements history_db 1 1 sample_since in
  (7 <= List.length (collected h))%nat /\
  collected h = [100; 1; 1; 1; 1; 1; 1; 1] /\
  slice_from (-7) (collected h) = [1; 1; 1; 1; 1; 1; 1] /\
  spec_recent_window h = [1; 1; 1; 1; 1; 1; 100] /\
  np_mean (slice_from (-7) (collected h)) <> np_mean (spec_recent_window h) /\
  predicted_demand (predict_demand sample_std numpy_round2 history_db sample_since 1 1 30)
  <> spec_predicted_total h 30 /\
  predicted_demand (predict_demand sample_std numpy_round2 history_db sample_since 1 1 30)
  <> ((np_mean (slice_from (-7) (collected h)) * 0.7 + np_mean (collected h) * 0.3)
      * float_of_int 30)%float.
Proof.
  cbv zeta. split; [vm_compute; lia|].
  split; [reflexivity|]. split; [reflexivity|]. split; [reflexivity|].
  repeat split; intros H; apply (f_equal Prim2SF) in H; vm_compute in H; discriminate.
Qed.

(** C2 (as amended) on the sample history. *)
Lemma predict_demand_moving_average_witness :
  (7 <= List.length (collected (_get_historical_movements history_db 1 1 sample_since)))%nat /\
  (let dm := collected (_get_historical_movements history_db 1 1 sample_since) in
   let recent_avg := np_mean (lastn 7 dm) in
   let overall_avg := np_mean dm in
   let predicted_daily := (recent_avg * 0.7 + overall_avg * 0.3)%float in
   let r := predict_demand sample_std numpy_round2 history_db sample_since 1 1 30 in
   method r = "moving_average"%string /\
   predicted_demand r = numpy_round2 (predicted_daily * float_of_int 30) /\
   predicted_daily_demand r = Some (numpy_round2 predicted_daily)).
Proof.
  assert (H : (7 <= List.length
                      (collected (_get_historical_movements history_db 1 1 sample_since)))%nat)
    by (vm_compute; lia).
  split; [exact H|].
  exact (predict_demand_moving_average sample_std numpy_round2 history_db sample_since
           1 1 30 H).
Defined.

(** C7 on a ledger without movements and on one with seven inbound ones. *)
Lemma predict_demand_fallbacks_witness :
  ((List.length (pair_movements reorder_example_db 1 1) < 7)%nat /\
   predict_demand sample_std numpy_round2 reorder_example_db sample_since 1 1 30
   = mkPrediction 10 None 0.3 "default_fallback" None "Insufficient historical data") /\
  ((List.length (_get_historical_movements history_db 1 2 sample_since) < 7)%nat /\
   predict_demand sample_std numpy_round2 history_db sample_since 1 2 30
   = mkPrediction 10 None 0.3 "default_fallback" None "Insufficient historical data") /\
  ((7 <= List.length (_get_historical_movements inbound_db 1 1 sample_since))%nat /\
   Forall (fun m => is_outbound m = false)
          (_get_historical_movements inbound_db 1 1 sample_since) /\
   predict_demand sample_std numpy_round2 inbound_db sample_since 1 1 30
   = mkPrediction 5 None 0.4 "no_outbound_data" None
                  "No outbound movement data available").
Proof.
  assert (H0 : (List.length (pair_movements reorder_example_db 1 1) < 7)%nat)
    by (vm_compute; lia).
  assert (H1 : (List.length (_get_historical_movements history_db 1 2 sample_since)
                < 7)%nat) by (vm_compute; lia).
  assert (H2 : (7 <= List.length (_get_historical_movements inbound_db 1 1 sample_since))%nat)
    by (vm_compute; lia).
  assert (H3 : Forall (fun m => is_outbound m = false)
                      (_get_historical_movements inbound_db 1 1 sample_since))
    by (vm_compute; repeat constructor).
  split; [|split].
  - split; [exact H0|].
    exact (proj1 (predict_demand_fallbacks sample_std numpy_round2 reorder_example_db
                    sample_since 1 1 30) H0).
  - split; [exact H1|].
    exact (proj1 (proj2 (predict_demand_fallbacks sample_std numpy_round2 history_db
                           sample_since 1 2 30)) H1).
  - split; [exact H2|]. split; [exact H3|].
    exact (proj2 (proj2 (predict_demand_fallbacks sample_std numpy_round2 inbound_db
                           sample_since 1 1 30)) H2 H3).
Defined.

(** C8's example as stated fails: with quantity 12, nothing reserved, reorder
    level 20 and maximum 200 the recommendation is 148 units with urgency
    medium, since 12 is above half the reorder level. *)
Lemma reorder_example_urgency_is_medium :
  select_inventory_with_product reorder_example_db 1 1 = Some (12, 0, 20, 200, "Widget"%string) /\
  12 - 0 <= 20 /\
  recommended_quantity
    (get_reorder_recommendation sample_std numpy_round2 reorder_example_db sample_since 1 1)
  = Some 148 /\
  int_le_float (12 - 0) (float_of_int 20 * 0.5) = false /\
  urgency
    (get_reorder_recommendation sample_std numpy_round2 reorder_example_db sample_since 1 1)
  = Some "medium"%string /\
  urgency
    (get_reorder_recommendation sample_std numpy_round2 reorder_example_db sample_since 1 1)
  <> Some "high"%string.
Proof.
  split; [reflexivity|]. split; [lia|]. split; [vm_compute; reflexivity|].
  split; [vm_compute; reflexivity|]. split; [vm_compute; reflexivity|].
  vm_compute. discriminate.
Qed.

(** C8 (as amended) on the example ledger. *)
Lemma reorder_recommendation_low_stock_witness :
  select_inventory_with_product reorder_example_db 1 1
  = Some (12, 0, 20, 200, "Widget"%string) /\
  12 - 0 <= 20 /\
  finite_float (float_of_int 200 * 0.8 - float_of_int (12 - 0)) = true /\
  finite_float
    (predicted_demand
       (predict_demand sample_std numpy_round2 reorder_example_db sample_since 1 1 30))
  = true /\
  finite_float
    (predicted_demand
       (predict_demand sample_std numpy_round2 reorder_example_db sample_since 1 1 30)
     * 0.2) = true /\
  (let r := get_reorder_recommendation sample_std numpy_round2 reorder_example_db
              sample_since 1 1 in
   should_reorder r = true /\
   (exists z, py_round (float_of_int 200 * 0.8 - float_of_int (12 - 0)) = inr z /\
              recommended_quantity r = Some z) /\
   urgency r
   = Some (if int_le_float (12 - 0) (float_of_int 20 * 0.5)
           then "high" else "medium")%string).
Proof.
  assert (H1 : select_inventory_with_product reorder_example_db 1 1
               = Some (12, 0, 20, 200, "Widget"%string)) by reflexivity.
  assert (H2 : 12 - 0 <= 20) by lia.
  assert (H3 : finite_float (float_of_int 200 * 0.8 - float_of_int (12 - 0)) = true)
    by (vm_compute; reflexivity).
  assert (H4 : finite_float
                 (predicted_demand
                    (predict_demand sample_std numpy_round2 reorder_example_db
                       sample_since 1 1 30)) = true) by (vm_compute; reflexivity).
  assert (H5 : finite_float
                 (predicted_demand
                    (predict_demand sample_std numpy_round2 reorder_example_db
                       sample_since 1 1 30) * 0.2) = true) by (vm_compute; reflexivity).
  split; [exact H1|]. split; [exact H2|]. split; [exact H3|].
  split; [exact H4|]. split; [exact H5|].
  exact (reorder_recommendation_low_stock sample_std numpy_round2 reorder_example_db
           sample_since 1 1 12 0 20 200 "Widget"%string H1 H2 H3 H4 H5).
Defined.

(** * Further properties of the controller *)

(** ** All or nothing *)

Section Atomicity.

Variable clock : nat -> datetime.


(** X2.  An adjustment that does not report success has written nothing,
    also when the store rejects the movement row after the quantity was
    updated: the update is rolled back. *)
Theorem adjust_all_or_nothing d p w a ty u rs :
  success (fst (adjust_inventory clock d p w a ty u rs)) = false ->
  snd (adjust_inventory clock d p w a ty u rs) = d.
Proof.
  intros Hs. destruct (stored_quantity d p w) as [q|] eqn:Hq.
  - destruct (Z_lt_le_dec (q + a) 0) as [Hlt|Hle].
    + rewrite (adjust_negative clock d p w a ty u rs q Hq Hlt). reflexivity.
    + destruct (movement_type_check (schema d) ("ADJUST_" ++ ty)) eqn:Hc.
      * rewrite (adjust_accepted clock d p w a ty u rs q Hq Hle Hc) in Hs. discriminate.
      * rewrite (adjust_rejected clock d p w a ty u rs q Hq Hle Hc). reflexivity.
  - rewrite (adjust_not_found clock d p w a ty u rs Hq). reflexivity.
Qed.

End Atomicity.

(** ** The outcomes, as one case analysis *)

Lemma transfer_cases clock d p f t n u nt :
  (success (fst (transfer_inventory clock d p f t n u nt)) = false /\
   snd (transfer_inventory clock d p f t n u nt) = d) \/
  (exists r dq,
      find (at_key p f) (inventory d) = Some r /\ n <= quantity r /\
      stored_quantity d p t = Some dq /\
      success (fst (transfer_inventory clock d p f t n u nt)) = true /\
      inventory (snd (transfer_inventory clock d p f t n u nt))
      = update_rows (dq + n) (clock 1%nat) p t
          (update_rows (quantity r - n) (clock 0%nat) p f (inventory d))) \/
  (exists r,
      find (at_key p f) (inventory d) = Some r /\ n <= quantity r /\
      stored_quantity d p t = None /\
      success (fst (transfer_inventory clock d p f t n u nt)) = true /\
      inventory (snd (transfer_inventory clock d p f t n u nt))
      = update_rows (quantity r - n) (clock 0%nat) p f (inventory d)
        ++ [mkInventoryRow p t n 0 (reorder_level r) (max_stock_level r) (clock 1%nat)]).
Proof.
  destruct (stored_quantity d p f) as [q|] eqn:Hq.
  - destruct (Z_lt_le_dec q n) as [Hlt|Hle].
    + left. rewrite (transfer_insufficient clock d p f t n u nt q Hq Hlt). split; reflexivity.
    + destruct (stored_quantity_inv _ _ _ _ Hq) as (r & Hr & Hqr). subst q.
      destruct (stored_quantity d p t) as [dq|] eqn:Hd.
      * right. left. exists r, dq.
        rewrite (transfer_existing clock d p f t n u nt _ dq Hq Hle Hd).
        repeat split; assumption.
      * right. right. exists r.
        rewrite (transfer_created clock d p f t n u nt r Hr Hle Hd).
        repeat split; assumption.
  - left. rewrite (transfer_not_found clock d p f t n u nt Hq). split; reflexivity.
Qed.

Lemma adjust_cases clock d p w a ty u rs :
  (success (fst (adjust_inventory clock d p w a ty u rs)) = false /\
   snd (adjust_inventory clock d p w a ty u rs) = d) \/
  (exists q,
      stored_quantity d p w = Some q /\ 0 <= q + a /\
      movement_type_check (schema d) ("ADJUST_" ++ ty) = true /\
      success (fst (adjust_inventory clock d p w a ty u rs)) = true /\
      inventory (snd (adjust_inventory clock d p w a ty u rs))
      = update_rows (q + a) (clock 0%nat) p w (inventory d)).
Proof.
  destruct (stored_quantity d p w) as [q|] eqn:Hq.
  - destruct (Z_lt_le_dec (q + a) 0) as [Hlt|Hle].
    + left. rewrite (adjust_negative clock d p w a ty u rs q Hq Hlt). split; reflexivity.
    + destruct (movement_type_check (schema d) ("ADJUST_" ++ ty)) eqn:Hc.
      * right. exists q.
        rewrite (adjust_accepted clock d p w a ty u rs q Hq Hle Hc).
        repeat split; assumption.
      * left. rewrite (adjust_rejected clock d p w a ty u rs q Hq Hle Hc).
        split; reflexivity.
  - left. rewrite (adjust_not_found clock d p w a ty u rs Hq). split; reflexivity.
Qed.

(** ** Invariants of the inventory table *)

Lemma update_rows_nonnegative q t p w rows :
  nonnegative_stock rows -> 0 <= q -> nonnegative_stock (update_rows q t p w rows).
Proof.
  unfold nonnegative_stock. intros H Hq. induction H as [|r rows Hr _ IH]; simpl.
  - constructor.
  - constructor; [|exact IH]. destruct (at_key p w r); simpl; assumption.
Qed.

Lemma row_key_update_rows q t p w rows :
  map row_key (update_rows q t p w rows) = map row_key rows.
Proof.
  induction rows as [|r rows IH]; simpl; [reflexivity|].
  rewrite IH. destruct (at_key p w r); reflexivity.
Qed.

Lemma find_none_key_absent p w rows :
  find (at_key p w) rows = None -> ~ In (p, w) (map row_key rows).
Proof.
  induction rows as [|r rows IH]; simpl; [tauto|].
  destruct (at_key p w r) eqn:E; [discriminate|].
  intros Hn [Hk|Hin]; [|exact (IH Hn Hin)].
  unfold row_key in Hk. injection Hk as Hp Hw. unfold at_key in E.
  rewrite Hp, Hw, !Z.eqb_refl in E. discriminate.
Qed.

Lemma NoDup_snoc {A} (l : list A) x : NoDup l -> ~ In x l -> NoDup (l ++ [x]).
Proof.
  induction 1 as [|y l Hy Hl IH]; intros Hx; simpl.
  - constructor; [tauto|constructor].
  - constructor.
    + rewrite in_app_iff. intros [H|[H|[]]]; [tauto|]. subst. apply Hx. now left.
    + apply IH. intros H. apply Hx. now right.
Qed.

Section Invariants.

Variable clock : nat -> datetime.

(** X3.  A transfer of a non-negative quantity keeps the stock invariant: if
    no row is negative before the call, none is after it, whatever the
    outcome. *)
Theorem transfer_keeps_nonnegative_stock d p f t n u nt :
  nonnegative_stock (inventory d) ->
  0 <= n ->
  nonnegative_stock (inventory (snd (transfer_inventory clock d p f t n u nt))).
Proof.
  intros Hinv Hn.
  destruct (transfer_cases clock d p f t n u nt)
    as [[_ ->]|[(r & dq & Hr & Hle & Hd & _ & ->)|(r & Hr & Hle & Hd & _ & ->)]].
  - exact Hinv.
  - destruct (stored_quantity_inv _ _ _ _ Hd) as (rd & Hrd & Hqd).
    apply find_some in Hrd. destruct Hrd as [Hin _].
    pose proof (proj1 (Forall_forall _ _) Hinv rd Hin) as Hdq. simpl in Hdq.
    apply update_rows_nonnegative; [apply update_rows_nonnegative|]; try assumption; lia.
  - unfold nonnegative_stock. apply Forall_app. split.
    + apply update_rows_nonnegative; [assumption|lia].
    + constructor; [simpl; exact Hn|constructor].
Qed.

(** X4.  An adjustment keeps the stock invariant for every delta: a result
    below zero is refused, and any other result is not negative. *)
Theorem adjust_keeps_nonnegative_stock d p w a ty u rs :
  nonnegative_stock (inventory d) ->
  nonnegative_stock (inventory (snd (adjust_inventory clock d p w a ty u rs))).
Proof.
  intros Hinv.
  destruct (adjust_cases clock d p w a ty u rs) as [[_ ->]|(q & _ & Hle & _ & _ & ->)].
  - exact Hinv.
  - apply update_rows_nonnegative; assumption.
Qed.

(** X5.  Transfers and adjustments keep the pairs of the inventory table
    distinct: on a table without two rows for one (product, warehouse) pair
    the row a transfer creates is for a pair that had none. *)
Theorem writes_keep_unique_keys d p f t n u nt a ty rs :
  unique_keys (inventory d) ->
  unique_keys (inventory (snd (transfer_inventory clock d p f t n u nt))) /\
  unique_keys (inventory (snd (adjust_inventory clock d p f a ty u rs))).
Proof.
  unfold unique_keys. intros Hinv. split.
  - destruct (transfer_cases clock d p f t n u nt)
      as [[_ ->]|[(r & dq & _ & _ & _ & _ & ->)|(r & Hr & Hle & Hd & _ & ->)]].
    + exact Hinv.
    + rewrite !row_key_update_rows. exact Hinv.
    + assert (Hnone : find (at_key p t) (inventory d) = None).
      { unfold stored_quantity in Hd.
        destruct (find (at_key p t) (inventory d)); [discriminate|reflexivity]. }
      rewrite map_app, row_key_update_rows.
      change (map row_key [mkInventoryRow p t n 0 (reorder_level r) (max_stock_level r)
                                          (clock 1%nat)]) with [(p, t)].
      apply NoDup_snoc; [exact Hinv|].
      apply find_none_key_absent. exact Hnone.
  - destruct (adjust_cases clock d p f a ty u rs) as [[_ ->]|(q & _ & _ & _ & _ & ->)].
    + exact Hinv.
    + rewrite row_key_update_rows. exact Hinv.
Qed.

(** X6.  The row a transfer creates at the destination takes its reorder
    level and maximum stock level from the source row, holds the transferred
    quantity and reserves nothing; the defaults 10 and 1000 of the code are
    never used, since the source row is there when they are looked up. *)
Theorem transfer_created_row_inherits d p f t n u nt r :
  find (at_key p f) (inventory d) = Some r ->
  n <= quantity r ->
  stored_quantity d p t = None ->
  exists row,
    find (at_key p t) (inventory (snd (transfer_inventory clock d p f t n u nt)))
    = Some row /\
    quantity row = n /\ reserved_quantity row = 0 /\
    reorder_level row = reorder_level r /\
    max_stock_level row = max_stock_level r.
Proof.
  intros Hr Hle Hd.
  rewrite (transfer_created clock d p f t n u nt r Hr Hle Hd). cbn [snd inventory].
  assert (Hft : f <> t).
  { intros ->. unfold stored_quantity in Hd. rewrite Hr in Hd. discriminate. }
  assert (Hnone : find (at_key p t) (inventory d) = None).
  { unfold stored_quantity in Hd.
    destruct (find (at_key p t) (inventory d)); [discriminate|reflexivity]. }
  eexists. split.
  - rewrite find_app_none
      by (rewrite find_update_rows_other by exact Hft; exact Hnone).
    cbn [find]. rewrite at_key_refl. reflexivity.
  - repeat split.
Qed.

(** X7.  An adjustment changes nothing but the quantity and the timestamp of
    the rows of its pair: every row stays in place, with its key, reserved
    quantity and thresholds, rows of other pairs are left as they are, and no
    row is added or removed. *)
Theorem adjust_frame d p w a ty u rs :
  Forall2 (adjust_touches p w) (inventory d)
          (inventory (snd (adjust_inventory clock d p w a ty u rs))).
Proof.
  assert (Hrefl : forall rows, Forall2 (adjust_touches p w) rows rows).
  { induction rows as [|r rows IH]; constructor; [|exact IH].
    split; [apply same_frame_refl|reflexivity]. }
  destruct (adjust_cases clock d p w a ty u rs) as [[_ ->]|(q & _ & _ & _ & _ & ->)].
  - apply Hrefl.
  - generalize (update_rows_touches_source (q + a) (clock 0%nat) p w w (inventory d)).
    apply Forall2_impl. intros x y [Hf Hk]. split; [exact Hf|].
    intros Hx. apply Hk; exact Hx.
Qed.

End Invariants.

(** ** How calls compose *)

Section Composition.

Variables clock clock' : nat -> datetime.



(** X10.  The movement log does not record the direction of an adjustment:
    on a row that can take both, the adjustments by [a] and by [-a] append
    the same movement row (kind, magnitude, reference, notes), yet leave
    different quantities unless [a] is 0. *)
Theorem adjust_direction_not_recorded d p w a ty u rs q :
  stored_quantity d p w = Some q ->
  0 <= q + a ->
  0 <= q - a ->
  movement_type_check (schema d) ("ADJUST_" ++ ty) = true ->
  stock_movements (snd (adjust_inventory clock d p w a ty u rs))
  = stock_movements (snd (adjust_inventory clock d p w (- a) ty u rs)) /\
  stored_quantity (snd (adjust_inventory clock d p w a ty u rs)) p w = Some (q + a) /\
  stored_quantity (snd (adjust_inventory clock d p w (- a) ty u rs)) p w = Some (q - a).
Proof.
  intros Hq Hp Hm Hc.
  assert (Hm' : 0 <= q + - a) by lia.
  rewrite (adjust_accepted clock d p w a ty u rs q Hq Hp Hc).
  rewrite (adjust_accepted clock d p w (- a) ty u rs q Hq Hm' Hc).
  cbn [snd stock_movements]. rewrite Z.abs_opp. split; [reflexivity|].
  unfold stored_quantity in *. cbn [inventory]. rewrite !quantity_after_update.
  destruct (find (at_key p w) (inventory d)); [|discriminate].
  split; simpl; f_equal; lia.
Qed.

End Composition.

(** ** Adjustments on the schema of the set-up script *)

Lemma setup_check_rejects_adjust ty :
  movement_type_check SetupSchema ("ADJUST_" ++ ty) = false.
Proof. reflexivity. Qed.

(** X11.  On a ledger with the schema of [setup_database.py] no adjustment
    succeeds, whatever its type, delta and pair: the kind ADJUST_<type>
    always fails the CHECK on [movement_type], and the ledger is left as it
    was. *)
Theorem adjust_never_succeeds_on_setup_schema clock d p w a ty u rs :
  schema d = SetupSchema ->
  success (fst (adjust_inventory clock d p w a ty u rs)) = false /\
  snd (adjust_inventory clock d p w a ty u rs) = d.
Proof.
  intros Hs.
  destruct (adjust_cases clock d p w a ty u rs) as [H|(q & _ & _ & Hc & _)].
  - exact H.
  - rewrite Hs, setup_check_rejects_adjust in Hc. discriminate.
Qed.

(** * Further properties of the predictor *)

Lemma insert_desc_permutation m l : Permutation (insert_desc m l) (m :: l).
Proof.
  induction l as [|x l IH]; simpl; [reflexivity|].
  destruct (datetime_leb (created_at x) (created_at m)); [reflexivity|].
  rewrite IH. apply perm_swap.
Qed.

Lemma order_by_created_at_desc_permutation l :
  Permutation (order_by_created_at_desc l) l.
Proof.
  unfold order_by_created_at_desc. induction l as [|m l IH]; simpl; [reflexivity|].
  rewrite insert_desc_permutation. constructor. exact IH.
Qed.

Lemma history_permutation d p w since :
  Permutation
    (_get_historical_movements d p w since)
    (filter (fun m => datetime_leb since (created_at m)) (pair_movements d p w)).
Proof.
  unfold _get_historical_movements, pair_movements.
  rewrite order_by_created_at_desc_permutation.
  induction (stock_movements d) as [|m l IH]; simpl; [reflexivity|].
  destruct ((sm_product_id m =? p) && (sm_warehouse_id m =? w)); simpl.
  - destruct (datetime_leb since (created_at m)); [constructor|]; exact IH.
  - exact IH.
Qed.

Lemma history_in_iff d p w since m :
  In m (_get_historical_movements d p w since) <->
  In m (stock_movements d) /\ sm_product_id m = p /\
  sm_warehouse_id m = w /\ datetime_leb since (created_at m) = true.
Proof.
  pose proof (history_permutation d p w since) as Hperm. split.
  - intros Hin. apply (Permutation_in _ Hperm) in Hin.
    apply filter_In in Hin. destruct Hin as [Hin Hs].
    unfold pair_movements in Hin. apply filter_In in Hin. destruct Hin as [Hin Hk].
    apply andb_true_iff in Hk. destruct Hk as [Hp Hw].
    apply Z.eqb_eq in Hp. apply Z.eqb_eq in Hw. tauto.
  - intros (Hin & Hp & Hw & Hs).
    apply (Permutation_in _ (Permutation_sym Hperm)).
    apply filter_In. split; [|exact Hs].
    unfold pair_movements. apply filter_In. split; [exact Hin|].
    apply andb_true_iff. split; apply Z.eqb_eq; assumption.
Qed.

(** X12.  The history the predictor works on holds exactly the movements of
    the pair that are not older than the cut-off, each as often as the log
    holds it, and lists them newest first. *)
Theorem history_is_the_recent_movements_of_the_pair d p w since :
  Permutation
    (_get_historical_movements d p w since)
    (filter (fun m => datetime_leb since (created_at m)) (pair_movements d p w)) /\
  Sorted newer_or_same (_get_historical_movements d p w since) /\
  (forall m, In m (_get_historical_movements d p w since) <->
             In m (stock_movements d) /\ sm_product_id m = p /\
             sm_warehouse_id m = w /\ datetime_leb since (created_at m) = true).
Proof.
  split; [apply history_permutation|]. split; [apply history_newest_first|].
  intros m. apply history_in_iff.
Qed.

Lemma in_collected h m :
  In m h -> is_outbound m = true -> In (sm_quantity m) (collected h).
Proof.
  intros Hin Ho. unfold collected. apply in_map. apply filter_In. split; assumption.
Qed.

(** X13.  A transfer counts as demand at its source and not at its
    destination: after a successful transfer whose TRANSFER_OUT row is not
    older than the cut-off, the quantity is among the outbound quantities the
    predictor collects for the source pair, while the TRANSFER_IN row it
    wrote for the destination is not an outbound movement. *)
Theorem transfer_counts_as_demand_at_source clock d p f t n u nt since :
  success (fst (transfer_inventory clock d p f t n u nt)) = true ->
  datetime_leb since (clock 3%nat) = true ->
  let d' := snd (transfer_inventory clock d p f t n u nt) in
  In n (collected (_get_historical_movements d' p f since)) /\
  In (transfer_in_row clock p f t n u nt) (stock_movements d') /\
  is_outbound (transfer_in_row clock p f t n u nt) = false.
Proof.
  intros Hs Hsince d'.
  destruct (transfer_movements clock d p f t n u nt Hs) as [_ Hm]. fold d' in Hm.
  split; [|split].
  - change n with (sm_quantity (transfer_out_row clock p f t n u nt)).
    apply in_collected; [|reflexivity].
    apply history_in_iff.
    split; [|repeat split; exact Hsince].
    rewrite Hm. apply in_or_app. right. now left.
  - rewrite Hm. apply in_or_app. right. right. now left.
  - reflexivity.
Qed.

Section PredictorEdges.

Variable np_std : list Z -> float.
Variable np_round2 : float -> float.

(** X14.  With at least 7 movements in the history but only 1 to 6 outbound
    ones, the recent mean and the overall mean are the same mean of all
    outbound quantities; the method is still moving_average and the number of
    points reported is the number of outbound movements, not of movements. *)
Theorem predict_demand_few_outbound d since p w days :
  let h := _get_historical_movements d p w since in
  let dm := collected h in
  (7 <= List.length h)%nat ->
  (1 <= List.length dm < 7)%nat ->
  let r := predict_demand np_std np_round2 d since p w days in
  method r = "moving_average"%string /\
  predicted_demand r
  = np_round2 ((np_mean dm * 0.7 + np_mean dm * 0.3) * float_of_int days) /\
  historical_points r = Some (List.length dm).
Proof.
  intros h dm Hh Hdm. unfold predict_demand, predict_from. fold h.
  apply Nat.ltb_ge in Hh. rewrite Hh. fold (collected h). fold dm.
  destruct dm as [|x dm'] eqn:E; [simpl in Hdm; lia|].
  assert (H7 : (7 <=? List.length (x :: dm'))%nat = false) by (apply Nat.leb_gt; lia).
  rewrite H7. repeat split.
Qed.

(** X15.  A reorder is recommended only for a pair that has an inventory row
    and a product row and whose available stock, quantity minus reserved
    quantity, is at most its reorder level: stock that is reserved counts as
    gone, and a row whose product is missing is never recommended. *)
Theorem reorder_only_when_available_is_low d since p w :
  should_reorder (get_reorder_recommendation np_std np_round2 d since p w) = true ->
  exists i pr,
    find (at_key p w) (inventory d) = Some i /\
    find (fun pr => id pr =? p) (products d) = Some pr /\
    quantity i - reserved_quantity i <= reorder_level i.
Proof.
  unfold get_reorder_recommendation, select_inventory_with_product.
  destruct (find (at_key p w) (inventory d)) as [i|]; [|discriminate].
  destruct (find (fun pr => id pr =? p) (products d)) as [pr|]; [|discriminate].
  destruct (quantity i - reserved_quantity i <=? reorder_level i) eqn:E.
  - intros _. exists i, pr. apply Z.leb_le in E. repeat split. exact E.
  - destruct (py_round _); [discriminate|].
    destruct (if (1 <? _)%float then _ else _); discriminate.
Qed.

End PredictorEdges.

(** * Transfer history *)

Lemma insert_ordered_permutation {A} (precedes : A -> A -> bool) x l :
  Permutation (insert_ordered precedes x l) (x :: l).
Proof.
  induction l as [|y l IH]; simpl; [reflexivity|].
  destruct (precedes y x); [|reflexivity].
  rewrite IH. apply perm_swap.
Qed.

Lemma order_by_permutation {A} (precedes : A -> A -> bool) l :
  Permutation (order_by precedes l) l.
Proof.
  unfold order_by. induction l as [|x l IH]; simpl; [reflexivity|].
  rewrite insert_ordered_permutation. constructor. exact IH.
Qed.

Lemma in_transfer_history d dir wh cutoff rec :
  In rec (get_transfer_history d dir wh cutoff) <->
  exists sm1 sm2 p u w1 w2,
    In sm1 (stock_movements d) /\ In sm2 (stock_movements d) /\
    In p (products d) /\ In u (users dir) /\
    In w1 (warehouses dir) /\ In w2 (warehouses dir) /\
    transfer_join wh cutoff sm1 sm2 p u w1 w2 = true /\
    rec = transfer_record sm1 sm2 p u w1 w2.
Proof.
  unfold get_transfer_history. split.
  - intros Hin. apply (Permutation_in _ (order_by_permutation _ _)) in Hin.
    apply in_flat_map in Hin. destruct Hin as (sm1 & H1 & Hin).
    apply in_flat_map in Hin. destruct Hin as (sm2 & H2 & Hin).
    apply in_flat_map in Hin. destruct Hin as (p & Hp & Hin).
    apply in_flat_map in Hin. destruct Hin as (u & Hu & Hin).
    apply in_flat_map in Hin. destruct Hin as (w1 & Hw1 & Hin).
    apply in_flat_map in Hin. destruct Hin as (w2 & Hw2 & Hin).
    exists sm1, sm2, p, u, w1, w2.
    destruct (transfer_join wh cutoff sm1 sm2 p u w1 w2); [|contradiction].
    destruct Hin as [<-|[]]. repeat split; assumption.
  - intros (sm1 & sm2 & p & u & w1 & w2 & H1 & H2 & Hp & Hu & Hw1 & Hw2 & Hj & ->).
    apply (Permutation_in _ (Permutation_sym (order_by_permutation _ _))).
    apply in_flat_map. exists sm1. split; [exact H1|].
    apply in_flat_map. exists sm2. split; [exact H2|].
    apply in_flat_map. exists p. split; [exact Hp|].
    apply in_flat_map. exists u. split; [exact Hu|].
    apply in_flat_map. exists w1. split; [exact Hw1|].
    apply in_flat_map. exists w2. split; [exact Hw2|].
    rewrite Hj. now left.
Qed.

Lemma transfer_join_inv wh cutoff sm1 sm2 p u w1 w2 :
  transfer_join wh cutoff sm1 sm2 p u w1 w2 = true ->
  (exists ref, sm_reference_number sm1 = Some ref /\ sm_reference_number sm2 = Some ref) /\
  sm_product_id sm1 = id p /\ user_id sm1 = u_id u /\
  sm_warehouse_id sm1 = w_id w1 /\ sm_warehouse_id sm2 = w_id w2 /\
  movement_type sm1 = "TRANSFER_OUT"%string /\
  movement_type sm2 = "TRANSFER_IN"%string /\
  datetime_leb cutoff (created_at sm1) = true /\
  warehouse_filter wh sm1 sm2 = true.
Proof.
  unfold transfer_join. rewrite !andb_true_iff, !Z.eqb_eq, !String.eqb_eq.
  intros ((((((((Hr & Hp) & Hu) & H1) & H2) & Ho) & Hi) & Hc) & Hf).
  repeat split; try assumption.
  unfold same_reference in Hr.
  destruct (sm_reference_number sm1) as [x|]; [|discriminate].
  destruct (sm_reference_number sm2) as [y|]; [|discriminate].
  apply String.eqb_eq in Hr. subst y. exists x. split; reflexivity.
Qed.

(** X16.  Every record of the transfer history is made of a TRANSFER_OUT and
    a TRANSFER_IN movement of the log that carry the same reference number:
    product, quantity, date and source come from the first, the destination
    from the second, whose product and quantity are not compared.  Product,
    user and both warehouses are registered, so a transfer to or from a
    warehouse id without a row in [warehouses] is never listed. *)
Theorem transfer_history_sound d dir wh cutoff rec :
  In rec (get_transfer_history d dir wh cutoff) ->
  exists sm1 sm2 ref,
    In sm1 (stock_movements d) /\ In sm2 (stock_movements d) /\
    movement_type sm1 = "TRANSFER_OUT"%string /\
    movement_type sm2 = "TRANSFER_IN"%string /\
    sm_reference_number sm1 = Some ref /\ sm_reference_number sm2 = Some ref /\
    tr_reference_number rec = Some ref /\
    tr_product_id rec = sm_product_id sm1 /\
    tr_quantity rec = sm_quantity sm1 /\
    transfer_date rec = created_at sm1 /\
    datetime_leb cutoff (transfer_date rec) = true /\
    from_warehouse_id rec = sm_warehouse_id sm1 /\
    to_warehouse_id rec = sm_warehouse_id sm2 /\
    In (tr_product_id rec) (map id (products d)) /\
    In (from_warehouse_id rec) (map w_id (warehouses dir)) /\
    In (to_warehouse_id rec) (map w_id (warehouses dir)).
Proof.
  intros Hin. apply in_transfer_history in Hin.
  destruct Hin as (sm1 & sm2 & p & u & w1 & w2 & H1 & H2 & Hp & Hu & Hw1 & Hw2 & Hj & ->).
  apply transfer_join_inv in Hj.
  destruct Hj as ((ref & Hr1 & Hr2) & Hpid & Huid & Hf & Ht & Ho & Hi & Hc & _).
  exists sm1, sm2, ref. cbn.
  repeat split; try assumption.
  - rewrite Hpid. apply in_map. exact Hp.
  - rewrite Hf. apply in_map. exact Hw1.
  - rewrite Ht. apply in_map. exact Hw2.
Qed.

Lemma transfer_join_intro wh cutoff sm1 sm2 p u w1 w2 ref :
  sm_reference_number sm1 = Some ref -> sm_reference_number sm2 = Some ref ->
  sm_product_id sm1 = id p -> user_id sm1 = u_id u ->
  sm_warehouse_id sm1 = w_id w1 -> sm_warehouse_id sm2 = w_id w2 ->
  movement_type sm1 = "TRANSFER_OUT"%string ->
  movement_type sm2 = "TRANSFER_IN"%string ->
  datetime_leb cutoff (created_at sm1) = true ->
  warehouse_filter wh sm1 sm2 = true ->
  transfer_join wh cutoff sm1 sm2 p u w1 w2 = true.
Proof.
  intros Hr1 Hr2 Hp Hu H1 H2 Ho Hi Hc Hf. unfold transfer_join, same_reference.
  rewrite Hr1, Hr2, Hp, Hu, H1, H2, Ho, Hi, Hc, Hf, !Z.eqb_refl, String.eqb_refl.
  reflexivity.
Qed.

Lemma transfer_keeps_products clock d p f t n u nt :
  products (snd (transfer_inventory clock d p f t n u nt)) = products d.
Proof.
  destruct (stored_quantity d p f) as [q|] eqn:Hq.
  - destruct (Z_lt_le_dec q n) as [Hlt|Hle].
    + rewrite (transfer_insufficient clock d p f t n u nt q Hq Hlt). reflexivity.
    + destruct (stored_quantity_inv _ _ _ _ Hq) as (r & Hr & Hqr). subst q.
      destruct (stored_quantity d p t) as [dq|] eqn:Hd.
      * rewrite (transfer_existing clock d p f t n u nt _ dq Hq Hle Hd). reflexivity.
      * rewrite (transfer_created clock d p f t n u nt r Hr Hle Hd). reflexivity.
  - rewrite (transfer_not_found clock d p f t n u nt Hq). reflexivity.
Qed.

(** X17.  Insert and look up.  After a successful transfer whose product,
    user and two warehouses are registered, the history since any cut-off
    not after the TRANSFER_OUT row lists the transfer, with its product,
    source, destination, quantity, reference number and notes; it does so
    without a warehouse filter and with the filter set to the source or to
    the destination. *)
Theorem transfer_is_listed_in_history clock d dir p f t n u nt cutoff pr usr wf wt wh :
  success (fst (transfer_inventory clock d p f t n u nt)) = true ->
  In pr (products d) -> id pr = p ->
  In usr (users dir) -> u_id usr = u ->
  In wf (warehouses dir) -> w_id wf = f ->
  In wt (warehouses dir) -> w_id wt = t ->
  datetime_leb cutoff (clock 3%nat) = true ->
  wh = None \/ wh = Some f \/ wh = Some t ->
  In (mkTransferRecord p (name pr) f t (w_name wf) (w_name wt) n
        (Some ("TRANSFER-" ++ strftime (clock 2%nat))%string) (clock 3%nat)
        (username usr)
        (Some ("Transfer to warehouse " ++ str t ++ ". " ++ or_else nt "")%string))
     (get_transfer_history (snd (transfer_inventory clock d p f t n u nt)) dir wh cutoff).
Proof.
  intros Hs Hpr Hp Husr Hu Hwf Hf Hwt Ht Hc Hwh.
  destruct (transfer_movements clock d p f t n u nt Hs) as [_ Hm].
  apply in_transfer_history.
  exists (transfer_out_row clock p f t n u nt), (transfer_in_row clock p f t n u nt),
         pr, usr, wf, wt.
  rewrite Hm, transfer_keeps_products.
  split; [apply in_or_app; right; now left|].
  split; [apply in_or_app; right; right; now left|].
  repeat (split; [assumption|]).
  split; [|reflexivity].
  apply (transfer_join_intro _ _ _ _ _ _ _ _ ("TRANSFER-" ++ strftime (clock 2%nat)));
    try reflexivity; try (symmetry; assumption); try assumption.
  unfold warehouse_filter. destruct Hwh as [->|[->| ->]]; [reflexivity| |].
  - destruct (f =? 0); [reflexivity|]. cbn. rewrite Z.eqb_refl. reflexivity.
  - destruct (t =? 0); [reflexivity|]. cbn. rewrite Z.eqb_refl. apply orb_true_r.
Qed.

(** X18.  The warehouse filter of the history keeps the records that leave or
    reach the warehouse and nothing else; the warehouse id 0 is read as no
    filter at all, so the history of a warehouse with id 0 is the whole
    history. *)
Theorem transfer_history_filter d dir w cutoff :
  (w <> 0 ->
   forall rec,
     In rec (get_transfer_history d dir (Some w) cutoff) <->
     In rec (get_transfer_history d dir None cutoff) /\
     (from_warehouse_id rec = w \/ to_warehouse_id rec = w)) /\
  get_transfer_history d dir (Some 0) cutoff = get_transfer_history d dir None cutoff.
Proof.
  split; [|reflexivity].
  intros Hw rec. rewrite !in_transfer_history. split.
  - intros (sm1 & sm2 & p & u & w1 & w2 & H1 & H2 & Hp & Hu & Hw1 & Hw2 & Hj & ->).
    pose proof (transfer_join_inv _ _ _ _ _ _ _ _ Hj)
      as ((ref & Hr1 & Hr2) & Hpid & Huid & Hf & Ht & Ho & Hi & Hc & Hflt).
    split.
    + exists sm1, sm2, p, u, w1, w2. repeat (split; [assumption|]).
      split; [|reflexivity].
      apply (transfer_join_intro _ _ _ _ _ _ _ _ ref); try assumption. reflexivity.
    + unfold warehouse_filter in Hflt.
      apply Z.eqb_neq in Hw. rewrite Hw in Hflt.
      apply orb_true_iff in Hflt. cbn. rewrite <- !Z.eqb_eq. exact Hflt.
  - intros [(sm1 & sm2 & p & u & w1 & w2 & H1 & H2 & Hp & Hu & Hw1 & Hw2 & Hj & ->) Hor].
    pose proof (transfer_join_inv _ _ _ _ _ _ _ _ Hj)
      as ((ref & Hr1 & Hr2) & Hpid & Huid & Hf & Ht & Ho & Hi & Hc & _).
    exists sm1, sm2, p, u, w1, w2. repeat (split; [assumption|]).
    split; [|reflexivity].
    apply (transfer_join_intro _ _ _ _ _ _ _ _ ref); try assumption.
    unfold warehouse_filter. apply Z.eqb_neq in Hw. rewrite Hw.
    apply orb_true_iff. cbn in Hor. rewrite !Z.eqb_eq. exact Hor.
Qed.

(** X19.  Reference numbers are cut to the second, and the history pairs
    movements by reference number alone.  When two successful transfers take
    their reference in the same second, the history lists a transfer from
    the first one's source to the second one's destination, with the first
    one's product and quantity, whether or not such a transfer was made. *)
Theorem same_second_transfers_are_cross_listed
  clock clock' d dir p f t n u nt p' f' t' n' u' nt' cutoff pr usr wf wt :
  let first := transfer_inventory clock d p f t n u nt in
  let second := transfer_inventory clock' (snd first) p' f' t' n' u' nt' in
  success (fst first) = true ->
  success (fst second) = true ->
  strftime (clock 2%nat) = strftime (clock' 2%nat) ->
  In pr (products d) -> id pr = p ->
  In usr (users dir) -> u_id usr = u ->
  In wf (warehouses dir) -> w_id wf = f ->
  In wt (warehouses dir) -> w_id wt = t' ->
  datetime_leb cutoff (clock 3%nat) = true ->
  exists rec,
    In rec (get_transfer_history (snd second) dir None cutoff) /\
    tr_product_id rec = p /\ tr_quantity rec = n /\
    from_warehouse_id rec = f /\ to_warehouse_id rec = t'.
Proof.
  intros first second Hs1 Hs2 Href Hpr Hp Husr Hu Hwf Hf Hwt Ht Hc.
  subst second first.
  destruct (transfer_movements clock d p f t n u nt Hs1) as [_ Hm1].
  destruct (transfer_movements clock' _ p' f' t' n' u' nt' Hs2) as [_ Hm2].
  exists (transfer_record (transfer_out_row clock p f t n u nt)
                          (transfer_in_row clock' p' f' t' n' u' nt') pr usr wf wt).
  split; [|repeat split].
  apply in_transfer_history.
  exists (transfer_out_row clock p f t n u nt), (transfer_in_row clock' p' f' t' n' u' nt'),
         pr, usr, wf, wt.
  rewrite Hm2, Hm1, !transfer_keeps_products.
  split; [apply in_or_app; left; apply in_or_app; right; now left|].
  split; [apply in_or_app; right; right; now left|].
  repeat (split; [assumption|]).
  split; [|reflexivity].
  apply (transfer_join_intro _ _ _ _ _ _ _ _ ("TRANSFER-" ++ strftime (clock 2%nat)));
    try reflexivity; try (symmetry; assumption); try assumption.
  unfold transfer_in_row. cbn [sm_reference_number]. rewrite Href. reflexivity.
Qed.

(** * Warehouse reports *)

Lemma insert_ordered_head {A} (precedes : A -> A -> bool) (R : A -> A -> Prop) x l z :
  HdRel R z l -> R z x -> HdRel R z (insert_ordered precedes x l).
Proof.
  intros Hh Hx. destruct l as [|y l]; simpl.
  - constructor. exact Hx.
  - destruct (precedes y x); constructor; [inversion Hh; assumption|exact Hx].
Qed.

Lemma order_by_sorted {A} (precedes : A -> A -> bool) (R : A -> A -> Prop) :
  (forall x y, precedes y x = true -> R y x) ->
  (forall x y, precedes y x = false -> R x y) ->
  forall l, Sorted R (order_by precedes l).
Proof.
  intros Ht Hf l. unfold order_by. induction l as [|x l IH]; simpl; [constructor|].
  induction IH as [|y l' Hs IH' Hh]; simpl.
  - repeat constructor.
  - destruct (precedes y x) eqn:E.
    + constructor; [exact IH'|]. apply insert_ordered_head; [exact Hh|]. apply Ht. exact E.
    + constructor; [constructor; assumption|]. constructor. apply Hf. exact E.
Qed.

Lemma warehouses_in_name_order l :
  Sorted name_order (order_by (name_before w_name) l).
Proof.
  apply order_by_sorted; unfold name_before, name_order, String.ltb, String.leb; intros x y.
  - destruct (String.compare (w_name y) (w_name x)); intros H; try discriminate; reflexivity.
  - rewrite (String.compare_antisym (w_name y) (w_name x)).
    destruct (String.compare (w_name x) (w_name y)); intros H; try discriminate; reflexivity.
Qed.

(** X20.  The capacity report has one entry for every warehouse, also for a
    warehouse that holds nothing, in the order of the warehouse names; the
    warehouse list is laid out on the same rows and shows, warehouse by
    warehouse, the same total, product count and utilization. *)
Theorem reports_list_every_warehouse d dir :
  exists ws,
    Permutation ws (warehouses dir) /\
    Sorted name_order ws /\
    get_warehouse_capacity_report d dir = map (capacity_entry d) ws /\
    map ce_warehouse_id (get_warehouse_capacity_report d dir) = map w_id ws /\
    map (fun s => (ws_id s, ws_total_items s, ws_total_products s, ws_capacity_utilization s))
        (get_all_warehouses d dir)
    = map (fun e => (ce_warehouse_id e, total_items e, unique_products e,
                     utilization_percentage e))
          (get_warehouse_capacity_report d dir).
Proof.
  exists (order_by (name_before w_name) (warehouses dir)).
  split; [apply order_by_permutation|]. split; [apply warehouses_in_name_order|].
  unfold get_warehouse_capacity_report, get_all_warehouses.
  split; [reflexivity|]. rewrite !map_map. split; reflexivity.
Qed.

(** X21.  In every entry of the capacity report the available capacity is
    not negative: it is what is left of a positive capacity, and 0 when the
    warehouse holds more than that.  A warehouse whose capacity is missing,
    zero or negative is shown with utilization 0, status NORMAL and nothing
    available, however much it holds. *)
Theorem capacity_entry_without_room d dir e :
  In e (get_warehouse_capacity_report d dir) ->
  0 <= available_capacity e /\
  match ce_capacity e with
  | Some c =>
      if 0 <? c then available_capacity e = Z.max 0 (c - total_items e)
      else available_capacity e = 0 /\ capacity_status e = "NORMAL"%string /\
           utilization_percentage e = 0%float
  | None =>
      available_capacity e = 0 /\ capacity_status e = "NORMAL"%string /\
      utilization_percentage e = 0%float
  end.
Proof.
  unfold get_warehouse_capacity_report. intros Hin.
  apply in_map_iff in Hin. destruct Hin as (w & <- & _).
  unfold capacity_entry, utilization.
  cbn [available_capacity ce_capacity total_items capacity_status utilization_percentage].
  split; [apply Z.le_max_l|].
  destruct (capacity w) as [c|]; [|repeat split].
  destruct (0 <? c) eqn:E; [reflexivity|].
  apply Z.ltb_ge in E. split; [lia|split; reflexivity].
Qed.

(** ** Transfers in the capacity report *)

Lemma update_rows_no_match q t p w rows :
  ~ In (p, w) (map row_key rows) -> update_rows q t p w rows = rows.
Proof.
  induction rows as [|x rows IH]; simpl; [reflexivity|].
  intros Hn. destruct (at_key p w x) eqn:E.
  - exfalso. apply Hn. left. unfold at_key in E. apply andb_true_iff in E.
    destruct E as [Hp Hw]. apply Z.eqb_eq in Hp. apply Z.eqb_eq in Hw.
    unfold row_key. congruence.
  - rewrite IH; [reflexivity|]. intros H. apply Hn. now right.
Qed.

Lemma stock_at_update_rows q t p w rows r w' :
  unique_keys rows ->
  find (at_key p w) rows = Some r ->
  stock_at (update_rows q t p w rows) w'
  = stock_at rows w' + (if w' =? w then q - quantity r else 0).
Proof.
  unfold unique_keys, stock_at, sum_quantity.
  induction rows as [|x rows IH]; simpl; [discriminate|].
  intros Hnd Hf. inversion Hnd as [|k ks Hk Hnd']; subst.
  destruct (at_key p w x) eqn:E.
  - injection Hf as ->.
    assert (Hkey : row_key r = (p, w)).
    { unfold at_key in E. apply andb_true_iff in E. destruct E as [Hp Hw].
      apply Z.eqb_eq in Hp. apply Z.eqb_eq in Hw. unfold row_key. congruence. }
    rewrite Hkey in Hk. rewrite (update_rows_no_match _ _ _ _ _ Hk).
    assert (Hw : warehouse_id r = w) by (unfold row_key in Hkey; congruence).
    cbn [with_quantity warehouse_id]. rewrite Hw, (Z.eqb_sym w' w).
    destruct (w =? w'); simpl; lia.
  - specialize (IH Hnd' Hf).
    destruct (warehouse_id x =? w'); simpl; lia.
Qed.

Lemma stock_at_app rows rows' w :
  stock_at (rows ++ rows') w = stock_at rows w + stock_at rows' w.
Proof.
  unfold stock_at, sum_quantity. rewrite filter_app, map_app.
  induction (map quantity (filter (fun r => warehouse_id r =? w) rows)) as [|x l IH];
    simpl; lia.
Qed.

(** X22.  The capacity report follows a transfer exactly.  On an inventory
    table without two rows for one pair, a transfer of [n] units between two
    distinct warehouses, from a source holding at least [n], lowers the
    total of the source's entry by [n], raises the total of the
    destination's entry by [n] and leaves every other entry's total as it
    was. *)
Theorem transfer_moves_report_totals clock d p f t n u nt q w :
  unique_keys (inventory d) ->
  f <> t ->
  stored_quantity d p f = Some q ->
  n <= q ->
  total_items (capacity_entry (snd (transfer_inventory clock d p f t n u nt)) w)
  = total_items (capacity_entry d w)
    + (if w_id w =? f then - n else 0) + (if w_id w =? t then n else 0).
Proof.
  intros Hu Hft Hq Hn.
  change (stock_at (inventory (snd (transfer_inventory clock d p f t n u nt))) (w_id w)
          = stock_at (inventory d) (w_id w)
            + (if w_id w =? f then - n else 0) + (if w_id w =? t then n else 0)).
  destruct (stored_quantity_inv _ _ _ _ Hq) as (r & Hr & Hqr). subst q.
  destruct (stored_quantity d p t) as [dq|] eqn:Hd.
  - rewrite (transfer_existing clock d p f t n u nt _ dq Hq Hn Hd). cbn [snd inventory].
    destruct (stored_quantity_inv _ _ _ _ Hd) as (rd & Hrd & Hqd).
    assert (Hu1 : unique_keys (update_rows (quantity r - n) (clock 0%nat) p f (inventory d))).
    { unfold unique_keys. rewrite row_key_update_rows. exact Hu. }
    assert (Hrd1 : find (at_key p t)
                        (update_rows (quantity r - n) (clock 0%nat) p f (inventory d))
                   = Some rd)
      by (rewrite find_update_rows_other by exact Hft; exact Hrd).
    rewrite (stock_at_update_rows _ _ _ _ _ rd _ Hu1 Hrd1).
    rewrite (stock_at_update_rows _ _ _ _ _ r _ Hu Hr).
    destruct (w_id w =? f), (w_id w =? t); lia.
  - rewrite (transfer_created clock d p f t n u nt r Hr Hn Hd). cbn [snd inventory].
    rewrite stock_at_app, (stock_at_update_rows _ _ _ _ _ r _ Hu Hr).
    unfold stock_at at 2. cbn [filter warehouse_id]. rewrite (Z.eqb_sym t (w_id w)).
    destruct (w_id w =? f), (w_id w =? t); cbn; lia.
Qed.

(** ** Warehouse details *)

Section WarehouseInfoProperties.

Variable category : Product -> string.

(** X23.  [get_warehouse_info] gives nothing in two cases only: the
    warehouse has no row, or it has one with a positive capacity and no
    inventory at all.  In the second case the sum over no rows is NULL and
    the utilization cannot be computed, so a registered, empty warehouse is
    reported like a missing one. *)
Theorem warehouse_info_is_missing d dir wid :
  get_warehouse_info category d dir wid = None <->
  find (fun w => w_id w =? wid) (warehouses dir) = None \/
  exists w c,
    find (fun w => w_id w =? wid) (warehouses dir) = Some w /\
    capacity w = Some c /\ 0 < c /\ rows_of_warehouse d (w_id w) = [].
Proof.
  unfold get_warehouse_info.
  destruct (find (fun w => w_id w =? wid) (warehouses dir)) as [w|]; [|tauto].
  destruct (capacity w) as [c|] eqn:Hc.
  - destruct (0 <? c) eqn:E.
    + apply Z.ltb_lt in E. destruct (rows_of_warehouse d (w_id w)) as [|r rows] eqn:Hr.
      * split; [|reflexivity]. intros _. right. exists w, c. repeat split; assumption.
      * split; [discriminate|]. intros [H|(w' & c' & Hw & _ & _ & H)]; [discriminate|].
        injection Hw as <-. rewrite Hr in H. discriminate.
    + apply Z.ltb_ge in E. split; [destruct (rows_of_warehouse d (w_id w)); discriminate|].
      intros [H|(w' & c' & Hw & Hc' & Hpos & _)]; [discriminate|].
      injection Hw as <-. rewrite Hc in Hc'. injection Hc' as <-. lia.
  - split; [destruct (rows_of_warehouse d (w_id w)); discriminate|].
    intros [H|(w' & c' & Hw & Hc' & _)]; [discriminate|].
    injection Hw as <-. rewrite Hc in Hc'. discriminate.
Qed.

(** X24.  Whenever [get_warehouse_info] gives a result, it is for a
    registered warehouse with the asked id, its totals and its utilization
    are the ones the capacity report shows for that warehouse, and it lists
    at most 5 products and at most 10 movements. *)
Theorem warehouse_info_agrees_with_report d dir wid info :
  get_warehouse_info category d dir wid = Some info ->
  exists w,
    In w (warehouses dir) /\ w_id w = wid /\ wi_id info = wid /\
    wi_total_items info = total_items (capacity_entry d w) /\
    wi_total_products info = unique_products (capacity_entry d w) /\
    wi_low_stock_products info = low_stock_items (capacity_entry d w) /\
    wi_capacity_utilization info = utilization_percentage (capacity_entry d w) /\
    (List.length (wi_top_products info) <= 5)%nat /\
    (List.length (wi_recent_movements info) <= 10)%nat.
Proof.
  unfold get_warehouse_info.
  destruct (find (fun w => w_id w =? wid) (warehouses dir)) as [w|] eqn:Hf; [|discriminate].
  apply find_some in Hf. destruct Hf as [Hin Hid]. apply Z.eqb_eq in Hid.
  intros H. exists w. split; [exact Hin|]. split; [exact Hid|].
  assert (Htotal : match rows_of_warehouse d (w_id w) with
                   | [] => 0
                   | _ :: _ => sum_quantity (rows_of_warehouse d (w_id w))
                   end = sum_quantity (rows_of_warehouse d (w_id w)))
    by (destruct (rows_of_warehouse d (w_id w)); reflexivity).
  destruct (match capacity w with Some c => 0 <? c | None => false end);
    destruct (rows_of_warehouse d (w_id w)) as [|r rows] eqn:Hr;
    try discriminate; injection H as <-;
    cbn [wi_id wi_total_items wi_total_products wi_low_stock_products
         wi_capacity_utilization wi_top_products wi_recent_movements];
    unfold capacity_entry;
    cbn [total_items unique_products low_stock_items utilization_percentage];
    rewrite ?Hr; repeat split; try exact Hid;
    try (unfold top_products; apply firstn_le_length);
    try (unfold recent_movements; apply firstn_le_length).
Qed.

End WarehouseInfoProperties.

(** ** Dashboard *)

(** X25.  On the dashboard the number of rows out of stock never exceeds the
    number of rows that need a reorder, provided no reorder level is
    negative: a row with quantity 0 is at or below its level. *)
Theorem dashboard_out_of_stock_needs_reorder inventory_value d now_ :
  Forall (fun i => 0 <= reorder_level i) (inventory d) ->
  out_of_stock (get_dashboard_summary inventory_value d now_)
  <= reorder_needed (get_dashboard_summary inventory_value d now_).
Proof.
  unfold get_dashboard_summary. cbn [out_of_stock reorder_needed].
  intros H. apply inj_le.
  induction H as [|i rows Hi _ IH]; simpl; [lia|].
  destruct (quantity i =? 0) eqn:E.
  - apply Z.eqb_eq in E.
    assert (Hl : (quantity i <=? reorder_level i) = true) by (apply Z.leb_le; lia).
    rewrite Hl. simpl. lia.
  - destruct (quantity i <=? reorder_level i); simpl; lia.
Qed.

(** ** One record for one transfer *)

Lemma flat_map_nil {A B} (f : A -> list B) l :
  (forall x, In x l -> f x = []) -> flat_map f l = [].
Proof.
  induction l as [|x l IH]; simpl; [reflexivity|].
  intros H. rewrite (H x) by now left. apply IH. intros y Hy. apply H. now right.
Qed.

Lemma flat_map_single {A B} (k : A -> Z) (f : A -> list B) a x0 l :
  (forall x, k x <> a -> f x = []) ->
  NoDup (map k l) -> In x0 l -> k x0 = a ->
  flat_map f l = f x0.
Proof.
  intros Hf. induction l as [|x l IH]; simpl; [tauto|].
  intros Hnd [->|Hin] Hk; inversion Hnd as [|? ? Hx Hnd']; subst.
  - rewrite flat_map_nil; [apply app_nil_r|].
    intros y Hy. apply Hf. intros Hy'. apply Hx. rewrite <- Hy'. apply in_map. exact Hy.
  - rewrite (IH Hnd' Hin eq_refl). rewrite Hf; [reflexivity|].
    intros Hx'. apply Hx. rewrite Hx'. apply in_map. exact Hin.
Qed.

Lemma join_rows_none d dir wh cutoff sm1 sm2 :
  (forall p u w1 w2, transfer_join wh cutoff sm1 sm2 p u w1 w2 = false) ->
  join_rows d dir wh cutoff sm1 sm2 = [].
Proof.
  intros H. unfold join_rows.
  apply flat_map_nil. intros p _. apply flat_map_nil. intros u _.
  apply flat_map_nil. intros w1 _. apply flat_map_nil. intros w2 _.
  rewrite H. reflexivity.
Qed.

Lemma transfer_join_false_reference wh cutoff sm1 sm2 p u w1 w2 :
  same_reference (sm_reference_number sm1) (sm_reference_number sm2) = false ->
  transfer_join wh cutoff sm1 sm2 p u w1 w2 = false.
Proof. intros H. unfold transfer_join. rewrite H. reflexivity. Qed.

Lemma join_rows_one d dir wh cutoff sm1 sm2 pr usr wf wt ref :
  sm_reference_number sm1 = Some ref -> sm_reference_number sm2 = Some ref ->
  movement_type sm1 = "TRANSFER_OUT"%string ->
  movement_type sm2 = "TRANSFER_IN"%string ->
  datetime_leb cutoff (created_at sm1) = true ->
  warehouse_filter wh sm1 sm2 = true ->
  NoDup (map id (products d)) -> In pr (products d) -> id pr = sm_product_id sm1 ->
  NoDup (map u_id (users dir)) -> In usr (users dir) -> u_id usr = user_id sm1 ->
  NoDup (map w_id (warehouses dir)) ->
  In wf (warehouses dir) -> w_id wf = sm_warehouse_id sm1 ->
  In wt (warehouses dir) -> w_id wt = sm_warehouse_id sm2 ->
  join_rows d dir wh cutoff sm1 sm2 = [transfer_record sm1 sm2 pr usr wf wt].
Proof.
  intros Hr1 Hr2 Ho Hi Hc Hflt Hnp Hpr Hp Hnu Husr Hu Hnw Hwf Hf Hwt Ht.
  assert (Hfalse : forall p u w1 w2,
             id p <> sm_product_id sm1 \/ u_id u <> user_id sm1 \/
             w_id w1 <> sm_warehouse_id sm1 \/ w_id w2 <> sm_warehouse_id sm2 ->
             transfer_join wh cutoff sm1 sm2 p u w1 w2 = false).
  { intros p u w1 w2 H. unfold transfer_join.
    destruct H as [H|[H|[H|H]]];
      apply not_eq_sym in H; apply Z.eqb_neq in H; rewrite H;
      rewrite ?andb_false_r; reflexivity. }
  unfold join_rows.
  rewrite (flat_map_single id _ (sm_product_id sm1) pr); try assumption.
  - rewrite (flat_map_single u_id _ (user_id sm1) usr); try assumption.
    + rewrite (flat_map_single w_id _ (sm_warehouse_id sm1) wf); try assumption.
      * rewrite (flat_map_single w_id _ (sm_warehouse_id sm2) wt); try assumption.
        -- rewrite (transfer_join_intro _ _ _ _ _ _ _ _ ref); auto.
        -- intros w2 H. rewrite Hfalse; auto.
      * intros w1 H. apply flat_map_nil. intros w2 _. rewrite Hfalse; auto.
    + intros u H. apply flat_map_nil. intros w1 _. apply flat_map_nil. intros w2 _.
      rewrite Hfalse; auto.
  - intros p H. apply flat_map_nil. intros u _. apply flat_map_nil. intros w1 _.
    apply flat_map_nil. intros w2 _. rewrite Hfalse; auto.
Qed.

Lemma flat_map_ext_in {A B} (f g : A -> list B) l :
  (forall x, In x l -> f x = g x) -> flat_map f l = flat_map g l.
Proof.
  induction l as [|x l IH]; simpl; [reflexivity|].
  intros H. rewrite (H x) by now left. f_equal. apply IH. intros y Hy. apply H. now right.
Qed.

(** X26.  One record for one transfer.  When no earlier movement carries the
    reference number of a successful transfer, and products, users and
    warehouses have distinct ids among which the transfer's are found, the
    history after the transfer is the history before it plus one record,
    the transfer's; no other record appears or disappears. *)
Theorem transfer_adds_one_history_record
  clock d dir p f t n u nt cutoff pr usr wf wt wh :
  success (fst (transfer_inventory clock d p f t n u nt)) = true ->
  Forall (fun m => sm_reference_number m
                   <> Some ("TRANSFER-" ++ strftime (clock 2%nat))%string)
         (stock_movements d) ->
  NoDup (map id (products d)) -> In pr (products d) -> id pr = p ->
  NoDup (map u_id (users dir)) -> In usr (users dir) -> u_id usr = u ->
  NoDup (map w_id (warehouses dir)) ->
  In wf (warehouses dir) -> w_id wf = f ->
  In wt (warehouses dir) -> w_id wt = t ->
  datetime_leb cutoff (clock 3%nat) = true ->
  wh = None \/ wh = Some f \/ wh = Some t ->
  Permutation
    (get_transfer_history (snd (transfer_inventory clock d p f t n u nt)) dir wh cutoff)
    (mkTransferRecord p (name pr) f t (w_name wf) (w_name wt) n
       (Some ("TRANSFER-" ++ strftime (clock 2%nat))%string) (clock 3%nat)
       (username usr)
       (Some ("Transfer to warehouse " ++ str t ++ ". " ++ or_else nt "")%string)
     :: get_transfer_history d dir wh cutoff).
Proof.
  intros Hs Hfresh Hnp Hpr Hp Hnu Husr Hu Hnw Hwf Hf Hwt Ht Hc Hwh.
  destruct (transfer_movements clock d p f t n u nt Hs) as [_ Hm].
  set (o := transfer_out_row clock p f t n u nt) in *.
  set (i := transfer_in_row clock p f t n u nt) in *.
  set (d' := snd (transfer_inventory clock d p f t n u nt)) in *.
  set (ref := ("TRANSFER-" ++ strftime (clock 2%nat))%string) in *.
  assert (Hprod : products d' = products d) by apply transfer_keeps_products.
  assert (Hjoin : forall sm1 sm2,
             join_rows d' dir wh cutoff sm1 sm2 = join_rows d dir wh cutoff sm1 sm2)
    by (intros; unfold join_rows; rewrite Hprod; reflexivity).
  assert (Hflt : warehouse_filter wh o i = true).
  { unfold warehouse_filter. destruct Hwh as [->|[->| ->]]; [reflexivity| |].
    - destruct (f =? 0); [reflexivity|]. cbn. rewrite Z.eqb_refl. reflexivity.
    - destruct (t =? 0); [reflexivity|]. cbn. rewrite Z.eqb_refl. apply orb_true_r. }
  assert (Hold_o : forall m, In m (stock_movements d) ->
                             join_rows d dir wh cutoff m o = [] /\
                             join_rows d dir wh cutoff m i = [] /\
                             join_rows d dir wh cutoff o m = []).
  { intros m Hin. pose proof (proj1 (Forall_forall _ _) Hfresh m Hin) as Hne.
    assert (H1 : same_reference (sm_reference_number m) (Some ref) = false).
    { unfold same_reference. destruct (sm_reference_number m) as [x|] eqn:E; [|reflexivity].
      apply String.eqb_neq. intros ->. apply Hne. exact E. }
    assert (H2 : same_reference (Some ref) (sm_reference_number m) = false).
    { unfold same_reference. destruct (sm_reference_number m) as [x|] eqn:E; [|reflexivity].
      apply String.eqb_neq. intros <-. apply Hne. exact E. }
    repeat split; apply join_rows_none; intros;
      apply transfer_join_false_reference; assumption. }
  assert (Hin_any : forall m, join_rows d dir wh cutoff i m = []).
  { intros m. apply join_rows_none. intros. unfold transfer_join.
    change (movement_type i) with "TRANSFER_IN"%string.
    cbn [String.eqb Ascii.eqb Bool.eqb andb]. rewrite ?andb_false_r. reflexivity. }
  assert (Hoo : join_rows d dir wh cutoff o o = []).
  { apply join_rows_none. intros. unfold transfer_join.
    change (movement_type o) with "TRANSFER_OUT"%string.
    cbn [String.eqb Ascii.eqb Bool.eqb andb]. rewrite ?andb_false_r. reflexivity. }
  assert (Hoi : join_rows d dir wh cutoff o i
                = [transfer_record o i pr usr wf wt]).
  { apply (join_rows_one d dir wh cutoff o i pr usr wf wt ref);
      try reflexivity; assumption. }
  unfold get_transfer_history.
  eapply Permutation_trans; [apply order_by_permutation|].
  eapply Permutation_trans;
    [|apply perm_skip; apply Permutation_sym; apply order_by_permutation].
  fold d'. rewrite Hm.
  change (Permutation
            (flat_map (fun sm1 => flat_map (join_rows d' dir wh cutoff sm1)
                                           (stock_movements d ++ [o; i]))
                      (stock_movements d ++ [o; i]))
            (transfer_record o i pr usr wf wt
             :: flat_map (fun sm1 => flat_map (join_rows d dir wh cutoff sm1)
                                              (stock_movements d))
                         (stock_movements d))).
  rewrite flat_map_app. cbn [flat_map]. rewrite !flat_map_app. cbn [flat_map].
  rewrite !Hjoin, !Hin_any, Hoo, Hoi, !app_nil_r.
  rewrite (flat_map_nil (join_rows d' dir wh cutoff i)) by (intros; rewrite Hjoin; apply Hin_any).
  rewrite (flat_map_nil (join_rows d' dir wh cutoff o))
    by (intros m Hin; rewrite Hjoin; apply (Hold_o m Hin)).
  cbn [app].
  rewrite (flat_map_ext_in
             (fun sm1 => flat_map (join_rows d' dir wh cutoff sm1) (stock_movements d ++ [o; i]))
             (fun sm1 => flat_map (join_rows d dir wh cutoff sm1) (stock_movements d))).
  - apply Permutation_sym. apply Permutation_cons_append.
  - intros m Hin. rewrite flat_map_app. cbn [flat_map].
    rewrite !Hjoin. destruct (Hold_o m Hin) as (H1 & H2 & _). rewrite H1, H2, !app_nil_r.
    apply flat_map_ext_in. intros; apply Hjoin.
Qed.

(** * Distribution report *)

(** ** Splitting and joining text *)

Lemma str_split_nonempty sep s : str_split sep s <> [].
Proof.
  destruct s as [|c s]; simpl; [discriminate|].
  destruct (Ascii.eqb c sep); [discriminate|].
  destruct (str_split sep s); discriminate.
Qed.

Lemma str_split_no_sep sep s : contains sep s = false -> str_split sep s = [s].
Proof.
  induction s as [|c s IH]; simpl; [reflexivity|].
  intros H. apply orb_false_iff in H. destruct H as [Hc Hs].
  rewrite Hc, (IH Hs). reflexivity.
Qed.

Lemma str_split_app sep a b :
  contains sep a = false ->
  str_split sep (a ++ String sep b) = a :: str_split sep b.
Proof.
  induction a as [|c a IH]; simpl.
  - intros _. rewrite Ascii.eqb_refl. reflexivity.
  - intros H. apply orb_false_iff in H. destruct H as [Hc Ha].
    rewrite Hc, (IH Ha). reflexivity.
Qed.

Lemma str_split_concat sep pieces :
  pieces <> [] ->
  Forall (fun s => contains sep s = false) pieces ->
  str_split sep (String.concat (String sep EmptyString) pieces) = pieces.
Proof.
  induction pieces as [|x pieces IH]; [congruence|].
  intros _ H. inversion H as [|? ? Hx Hrest]; subst.
  destruct pieces as [|y pieces].
  - simpl. apply str_split_no_sep. exact Hx.
  - change (String.concat (String sep EmptyString) (x :: y :: pieces))
      with (x ++ String sep (String.concat (String sep EmptyString) (y :: pieces)))%string.
    rewrite (str_split_app _ _ _ Hx), IH; [reflexivity|discriminate|exact Hrest].
Qed.

Lemma str_split_length_app sep a b :
  List.length (str_split sep (a ++ String sep b))
  = (List.length (str_split sep a) + List.length (str_split sep b))%nat.
Proof.
  induction a as [|c a IH]; simpl.
  - rewrite Ascii.eqb_refl. reflexivity.
  - destruct (Ascii.eqb c sep); simpl; [rewrite IH; reflexivity|].
    pose proof (str_split_nonempty sep (a ++ String sep b)) as H1.
    pose proof (str_split_nonempty sep a) as H2.
    destruct (str_split sep (a ++ String sep b)); [congruence|].
    destruct (str_split sep a); [congruence|]. exact IH.
Qed.

Lemma contains_split_length sep s :
  contains sep s = true -> (2 <= List.length (str_split sep s))%nat.
Proof.
  induction s as [|c s IH]; simpl; [discriminate|].
  pose proof (str_split_nonempty sep s) as Hn.
  destruct (Ascii.eqb c sep); simpl.
  - intros _. destruct (str_split sep s); [congruence|simpl; lia].
  - intros H. specialize (IH H). destruct (str_split sep s); [congruence|exact IH].
Qed.

Lemma contains_app sep a b :
  contains sep (a ++ b) = contains sep a || contains sep b.
Proof.
  induction a as [|c a IH]; simpl; [reflexivity|].
  rewrite IH. apply orb_assoc.
Qed.

Lemma contains_uint sep u :
  sep = ","%char \/ sep = ":"%char ->
  contains sep (NilEmpty.string_of_uint u) = false.
Proof.
  intros H. induction u as [|u IH|u IH|u IH|u IH|u IH|u IH|u IH|u IH|u IH|u IH];
    simpl; [reflexivity|..]; rewrite IH; destruct H as [-> | ->]; reflexivity.
Qed.

Lemma contains_str sep z :
  sep = ","%char \/ sep = ":"%char -> contains sep (str z) = false.
Proof.
  intros H. unfold str.
  assert (Hu : forall u, contains sep (NilZero.string_of_uint u) = false).
  { intros u. unfold NilZero.string_of_uint.
    destruct u; try apply (contains_uint sep _ H).
    destruct H as [-> | ->]; reflexivity. }
  destruct (Z.to_int z) as [u|u]; simpl; [apply Hu|].
  rewrite Hu. destruct H as [-> | ->]; reflexivity.
Qed.

Lemma traverse_map {A B} (f : A -> option B) (g : A -> B) l :
  (forall x, In x l -> f x = Some (g x)) -> traverse f l = Some (map g l).
Proof.
  induction l as [|x l IH]; simpl; [reflexivity|].
  intros H. rewrite (H x) by now left. rewrite IH; [reflexivity|].
  intros y Hy. apply H. now right.
Qed.

Lemma traverse_none {A B} (f : A -> option B) l x :
  In x l -> f x = None -> traverse f l = None.
Proof.
  induction l as [|y l IH]; simpl; [tauto|].
  intros [->|Hin] Hx; [rewrite Hx; reflexivity|].
  destruct (f y); [|reflexivity]. rewrite (IH Hin Hx). reflexivity.
Qed.

Lemma traverse_some {A B} (f : A -> option B) l ys :
  traverse f l = Some ys -> Forall2 (fun x y => f x = Some y) l ys.
Proof.
  revert ys. induction l as [|x l IH]; simpl; intros ys H.
  - injection H as <-. constructor.
  - destruct (f x) as [y|] eqn:E; [|discriminate].
    destruct (traverse f l) as [ys'|]; [|discriminate].
    injection H as <-. constructor; [exact E|]. apply IH. reflexivity.
Qed.

(** ** Sorting by quantity *)

Lemma last_cons {A} (a b : A) l : last (b :: l) a = last l b.
Proof.
  revert a b. induction l as [|c l IH]; intros a b; [reflexivity|].
  change (last (b :: c :: l) a) with (last (c :: l) a).
  rewrite (IH a c), (IH b c). reflexivity.
Qed.

Lemma last_in {A} (a : A) l : In (last l a) (a :: l).
Proof.
  revert a. induction l as [|b l IH]; intros a; [now left|].
  rewrite last_cons. right. apply IH.
Qed.

Lemma sorted_bounds (l : list (string * Z)) lowest rest :
  order_by (fun y x => snd y <? snd x) l = lowest :: rest ->
  In lowest l /\ In (last rest lowest) l /\
  Forall (fun x => snd lowest <= snd x <= snd (last rest lowest)) l.
Proof.
  intros E.
  pose proof (order_by_permutation (fun y x : string * Z => snd y <? snd x) l) as Hp.
  assert (Hs : StronglySorted (fun y x : string * Z => snd y <= snd x) (lowest :: rest)).
  { rewrite <- E. apply Sorted_StronglySorted; [intros x y z; lia|].
    apply order_by_sorted; intros x y H.
    - apply Z.ltb_lt in H. lia.
    - apply Z.ltb_ge in H. exact H. }
  rewrite E in Hp.
  assert (Hmax : forall a l', StronglySorted (fun y x : string * Z => snd y <= snd x) (a :: l') ->
                              Forall (fun x => snd x <= snd (last l' a)) (a :: l')).
  { intros a l'. revert a. induction l' as [|b l' IH]; intros a Hss.
    - constructor; [simpl; lia|constructor].
    - rewrite last_cons. inversion Hss as [|? ? Hss' Hall]; subst.
      specialize (IH b Hss'). constructor; [|exact IH].
      inversion Hall as [|? ? Hab _]; subst.
      inversion IH as [|? ? Hb _]; subst. lia. }
  split; [apply (Permutation_in _ Hp); now left|].
  split; [apply (Permutation_in _ Hp); apply last_in|].
  apply (Permutation_Forall Hp).
  inversion Hs as [|? ? _ Hall]; subst.
  specialize (Hmax _ _ Hs).
  apply Forall_forall. intros x Hx. split.
  - destruct Hx as [<-|Hx]; [lia|]. exact (proj1 (Forall_forall _ _) Hall x Hx).
  - exact (proj1 (Forall_forall _ _) Hmax x Hx).
Qed.

Lemma list_max_spec l :
  l <> [] -> In (list_max l) l /\ Forall (fun x => x <= list_max l) l.
Proof.
  destruct l as [|a l]; [congruence|]. intros _. unfold list_max.
  induction l as [|b l IH]; simpl.
  - split; [now left|]. constructor; [lia|constructor].
  - destruct IH as [Hin Hall].
    inversion Hall as [|? ? Ha Hl]; subst. split.
    + destruct (Z.max_spec b (fold_right Z.max a l)) as [[_ ->]|[_ ->]].
      * destruct Hin as [<-|Hin]; [now left|right; now right].
      * right. now left.
    + constructor; [lia|]. constructor; [lia|].
      apply (Forall_impl _ (P := fun x => x <= fold_right Z.max a l)); [intros; lia|exact Hl].
Qed.

Lemma list_min_spec l :
  l <> [] -> In (list_min l) l /\ Forall (fun x => list_min l <= x) l.
Proof.
  destruct l as [|a l]; [congruence|]. intros _. unfold list_min.
  induction l as [|b l IH]; simpl.
  - split; [now left|]. constructor; [lia|constructor].
  - destruct IH as [Hin Hall].
    inversion Hall as [|? ? Ha Hl]; subst. split.
    + destruct (Z.min_spec b (fold_right Z.min a l)) as [[_ ->]|[_ ->]].
      * right. now left.
      * destruct Hin as [<-|Hin]; [now left|right; now right].
    + constructor; [lia|]. constructor; [lia|].
      apply (Forall_impl _ (P := fun x => fold_right Z.min a l <= x)); [intros; lia|exact Hl].
Qed.

(** ** The join *)

Lemma product_rows_in d dir p r :
  In r (product_rows d dir p) ->
  In (fst r) (warehouses dir) /\ In (snd r) (inventory d) /\
  product_id (snd r) = id p /\ warehouse_id (snd r) = w_id (fst r).
Proof.
  unfold product_rows. intros H. apply in_flat_map in H. destruct H as (i & Hi & H).
  apply filter_In in Hi. destruct Hi as [Hi Hp]. apply Z.eqb_eq in Hp.
  apply in_map_iff in H. destruct H as (w & <- & Hw).
  apply filter_In in Hw. destruct Hw as [Hw Hid]. apply Z.eqb_eq in Hid.
  repeat split; assumption.
Qed.

Lemma in_distribution_query d dir r :
  In r (distribution_query d dir) <->
  exists p, In p (products d) /\ r = distribution_row d dir p /\ having r = true.
Proof.
  unfold distribution_query. split.
  - intros H. apply (Permutation_in _ (order_by_permutation _ _)) in H.
    apply filter_In in H. destruct H as [H Hh].
    apply in_map_iff in H. destruct H as (p & <- & Hp). exists p. tauto.
  - intros (p & Hp & -> & Hh).
    apply (Permutation_in _ (Permutation_sym (order_by_permutation _ _))).
    apply filter_In. split; [apply in_map; exact Hp|exact Hh].
Qed.

Lemma decimal_int_str z : decimal_int (str z) = Some z.
Proof.
  unfold decimal_int, str. rewrite NilZero.isi.
  - simpl. f_equal. apply DecimalZ.of_to.
  - destruct z; simpl; try discriminate.
    intros H. injection H as H. exact (DecimalPos.Unsigned.to_uint_nonnil _ H).
  - destruct z; simpl; try discriminate.
    intros H. injection H as H. exact (DecimalPos.Unsigned.to_uint_nonnil _ H).
Qed.

Lemma traverse_map_map {A B C} (f : B -> option C) (h : A -> B) (g : A -> C) l :
  (forall x, In x l -> f (h x) = Some (g x)) -> traverse f (map h l) = Some (map g l).
Proof.
  induction l as [|x l IH]; simpl; [reflexivity|].
  intros H. rewrite (H x) by now left. rewrite IH; [reflexivity|].
  intros y Hy. apply H. now right.
Qed.

Lemma traverse_singletons {A B} (f : A -> option (list B)) (R : A -> B -> Prop) l :
  (forall x, In x l -> exists y, f x = Some [y] /\ R x y) ->
  exists ys, traverse f l = Some (map (fun y => [y]) ys) /\ Forall2 R l ys.
Proof.
  induction l as [|x l IH]; simpl; intros H.
  - exists []. split; [reflexivity|constructor].
  - destruct (H x (or_introl eq_refl)) as (y & Hy & HR).
    destruct IH as (ys & Hys & HF); [intros z Hz; apply H; now right|].
    exists (y :: ys). rewrite Hy, Hys. split; [reflexivity|constructor; assumption].
Qed.

Lemma concat_singletons {A} (ys : list A) : List.concat (map (fun y => [y]) ys) = ys.
Proof. induction ys as [|y ys IH]; simpl; [reflexivity|rewrite IH; reflexivity]. Qed.

Lemma forall2_in_right {A B} (R : A -> B -> Prop) l ys y :
  Forall2 R l ys -> In y ys -> exists x, In x l /\ R x y.
Proof.
  induction 1 as [|x y' l ys HR _ IH]; simpl; [tauto|].
  intros [<-|Hin].
  - exists x. split; [now left|exact HR].
  - destruct (IH Hin) as (x' & Hx' & HR'). exists x'. split; [now right|exact HR'].
Qed.

Lemma plain_name_inv w :
  plain_name w = true ->
  contains "," (w_name w) = false /\ contains ":" (w_name w) = false.
Proof.
  unfold plain_name. intros H. apply andb_true_iff in H. destruct H as [H1 H2].
  apply negb_true_iff in H1. apply negb_true_iff in H2. split; assumption.
Qed.

Lemma name_and_quantity_split r :
  name_and_quantity r = (w_name (fst r) ++ String ":" (str (quantity (snd r))))%string.
Proof. reflexivity. Qed.

Lemma name_and_quantity_no_comma r :
  contains "," (w_name (fst r)) = false -> contains "," (name_and_quantity r) = false.
Proof.
  intros H. rewrite name_and_quantity_split, contains_app, H. simpl.
  apply contains_str. now left.
Qed.

Lemma pieces_of_group rows :
  rows <> [] ->
  Forall (fun r => contains "," (w_name (fst r)) = false) rows ->
  str_split "," (group_concat (map name_and_quantity rows)) = map name_and_quantity rows.
Proof.
  intros Hne Hall. unfold group_concat.
  apply (str_split_concat ","%char).
  - destruct rows; [congruence|discriminate].
  - apply Forall_map. revert Hall. apply Forall_impl. intros r.
    apply name_and_quantity_no_comma.
Qed.

Lemma parse_piece_colon py_int r :
  contains ":" (w_name (fst r)) = true -> parse_piece py_int (name_and_quantity r) = None.
Proof.
  intros H. unfold parse_piece. rewrite name_and_quantity_split.
  pose proof (str_split_length_app ":" (w_name (fst r)) (str (quantity (snd r)))) as Hl.
  pose proof (contains_split_length _ _ H) as H2.
  pose proof (str_split_nonempty ":" (str (quantity (snd r)))) as H1.
  destruct (str_split ":" (str (quantity (snd r)))) as [|x1 l1]; [congruence|].
  destruct (str_split ":" (w_name (fst r) ++ String ":" (str (quantity (snd r)))))
    as [|a [|b [|c l]]]; simpl in Hl, H2; try lia. reflexivity.
Qed.

Section DistributionProperties.

Variable py_int : string -> option Z.
Hypothesis py_int_str : forall z, py_int (str z) = Some z.

Lemma parse_piece_round_trip r :
  plain_name (fst r) = true ->
  parse_piece py_int (name_and_quantity r) = Some (named_quantity r).
Proof.
  intros H. apply plain_name_inv in H. destruct H as [_ Hcolon].
  unfold parse_piece. rewrite name_and_quantity_split, (str_split_app _ _ _ Hcolon).
  rewrite str_split_no_sep by (apply contains_str; now right).
  rewrite py_int_str. reflexivity.
Qed.

Lemma parsed_rows rows :
  rows <> [] ->
  Forall (fun r => plain_name (fst r) = true) rows ->
  parse_warehouse_quantities py_int (group_concat (map name_and_quantity rows))
  = Some (map named_quantity rows).
Proof.
  intros Hne Hall.
  assert (Hcomma : Forall (fun r => contains "," (w_name (fst r)) = false) rows).
  { revert Hall. apply Forall_impl. intros r H. apply plain_name_inv in H. tauto. }
  unfold parse_warehouse_quantities. rewrite (pieces_of_group rows Hne Hcomma).
  apply traverse_map_map. intros r Hr. apply parse_piece_round_trip.
  exact (proj1 (Forall_forall _ _) Hall r Hr).
Qed.

(** X27.  Round trip through text.  When no warehouse name of a group holds
    a comma or a colon, the loop of [optimize_inventory_distribution] reads
    back from the GROUP_CONCAT text exactly the names and quantities of the
    group's rows, in their order and for quantities of either sign. *)
Theorem warehouse_quantities_round_trip rows :
  rows <> [] ->
  Forall (fun r => plain_name (fst r) = true) rows ->
  parse_warehouse_quantities py_int (group_concat (map name_and_quantity rows))
  = Some (map named_quantity rows).
Proof.
  intros Hne Hall. unfold parse_warehouse_quantities.
  rewrite pieces_of_group; [|exact Hne|].
  - apply traverse_map_map. intros r Hr. apply parse_piece_round_trip.
    exact (proj1 (Forall_forall _ _) Hall r Hr).
  - revert Hall. apply Forall_impl. intros r H. apply plain_name_inv in H. tauto.
Qed.

Lemma having_inv r :
  having r = true ->
  1 < warehouse_count r /\
  int_gt_float (quantity_difference r) (avg_quantity r * 0.5) = true.
Proof.
  unfold having. intros H. apply andb_true_iff in H. destruct H as [H1 H2].
  apply Z.ltb_lt in H1. split; assumption.
Qed.

Lemma suggestion_for_plain d dir p :
  Forall (fun w => plain_name w = true) (warehouses dir) ->
  having (distribution_row d dir p) = true ->
  exists lowest highest,
    In lowest (map named_quantity (product_rows d dir p)) /\
    In highest (map named_quantity (product_rows d dir p)) /\
    Forall (fun r => snd lowest <= quantity (snd r) <= snd highest) (product_rows d dir p) /\
    snd highest - snd lowest = quantity_difference (distribution_row d dir p) /\
    suggestion_for py_int (distribution_row d dir p)
    = match int_of_float (int_true_div (snd highest - snd lowest) 2) with
      | inl _ => None
      | inr st =>
          Some [mkSuggestion (id p) (name p) (fst highest) (fst lowest)
                  (snd highest) (snd lowest) st
                  ("Reduces imbalance by " ++ str st ++ " units")
                  (if int_gt_float (quantity_difference (distribution_row d dir p))
                                   (avg_quantity (distribution_row d dir p) * 2)%float
                   then "HIGH" else "MEDIUM")]
      end.
Proof.
  intros Hplain Hh. apply having_inv in Hh. destruct Hh as [Hcount Hgt].
  set (rows := product_rows d dir p) in *.
  assert (Hne : rows <> []).
  { intros E. cbn [warehouse_count distribution_row] in Hcount. fold rows in Hcount.
    rewrite E in Hcount. simpl in Hcount. lia. }
  assert (Hrows : Forall (fun r => plain_name (fst r) = true) rows).
  { apply Forall_forall. intros r Hr. apply product_rows_in in Hr.
    exact (proj1 (Forall_forall _ _) Hplain _ (proj1 Hr)). }
  unfold suggestion_for.
  change (warehouse_quantities (distribution_row d dir p))
    with (group_concat (map name_and_quantity rows)).
  rewrite (parsed_rows rows Hne Hrows).
  destruct (order_by (fun y x : string * Z => snd y <? snd x) (map named_quantity rows))
    as [|lowest rest] eqn:E.
  { exfalso.
    pose proof (order_by_permutation (fun y x : string * Z => snd y <? snd x)
                  (map named_quantity rows)) as Hp.
    rewrite E in Hp. apply Permutation_nil in Hp.
    destruct rows; [congruence|discriminate]. }
  apply sorted_bounds in E. destruct E as (Hlo & Hhi & Hall).
  set (highest := last rest lowest) in *.
  exists lowest, highest.
  assert (Hbounds : Forall (fun r => snd lowest <= quantity (snd r) <= snd highest) rows).
  { apply Forall_forall. intros r Hr.
    exact (proj1 (Forall_forall _ _) Hall (named_quantity r) (in_map _ _ _ Hr)). }
  assert (Hdiff : snd highest - snd lowest
                  = quantity_difference (distribution_row d dir p)).
  { cbn [quantity_difference distribution_row]. fold rows.
    set (qs := map (fun r : Warehouse * InventoryRow => quantity (snd r)) rows).
    assert (Hqne : qs <> []) by (subst qs; destruct rows; [congruence|discriminate]).
    destruct (list_max_spec qs Hqne) as [Hmax_in Hmax_all].
    destruct (list_min_spec qs Hqne) as [Hmin_in Hmin_all].
    assert (Hq : forall x, In x (map named_quantity rows) -> In (snd x) qs).
    { intros x Hx. apply in_map_iff in Hx. destruct Hx as (r & <- & Hr).
      subst qs. apply in_map_iff. exists r. split; [reflexivity|exact Hr]. }
    assert (Hqb : forall q, In q qs -> snd lowest <= q <= snd highest).
    { intros q Hin. subst qs. apply in_map_iff in Hin. destruct Hin as (r & <- & Hr).
      exact (proj1 (Forall_forall _ _) Hbounds r Hr). }
    pose proof (proj1 (Forall_forall _ _) Hmax_all _ (Hq _ Hhi)).
    pose proof (proj1 (Forall_forall _ _) Hmin_all _ (Hq _ Hlo)).
    pose proof (Hqb _ Hmax_in). pose proof (Hqb _ Hmin_in). cbv beta in *. lia. }
  split; [exact Hlo|]. split; [exact Hhi|]. split; [exact Hbounds|].
  split; [exact Hdiff|].
  rewrite Hdiff, Hgt. reflexivity.
Qed.

(** X28.  With plain warehouse names every suggestion is for a product that
    has rows in at least two registered warehouses, moves stock from a
    warehouse holding the largest quantity of the product to one holding
    the smallest, reports those two quantities, passes the imbalance check
    against half the average, and proposes the integer part of half the
    difference. *)
Theorem suggestions_move_from_fullest_to_emptiest d dir s :
  Forall (fun w => plain_name w = true) (warehouses dir) ->
  In s (optimize_inventory_distribution py_int d dir) ->
  exists p,
    In p (products d) /\ sg_product_id s = id p /\ sg_product_name s = name p /\
    (2 <= List.length (product_rows d dir p))%nat /\
    In (from_warehouse s, current_from_quantity s)
       (map named_quantity (product_rows d dir p)) /\
    In (to_warehouse s, current_to_quantity s)
       (map named_quantity (product_rows d dir p)) /\
    Forall (fun r => current_to_quantity s <= quantity (snd r) <= current_from_quantity s)
           (product_rows d dir p) /\
    int_gt_float (current_from_quantity s - current_to_quantity s)
                 (sql_avg (map snd (product_rows d dir p)) * 0.5)%float = true /\
    int_of_float (int_true_div (current_from_quantity s - current_to_quantity s) 2)
    = inr (suggested_transfer s).
Proof.
  intros Hplain. unfold optimize_inventory_distribution.
  destruct (traverse (suggestion_for py_int) (distribution_query d dir))
    as [found|] eqn:E; [|contradiction].
  intros Hs. apply in_concat in Hs. destruct Hs as (l & Hl & Hs).
  apply traverse_some in E.
  destruct (forall2_in_right _ _ _ _ E Hl) as (r & Hr & Hf).
  apply in_distribution_query in Hr. destruct Hr as (p & Hp & -> & Hh).
  destruct (suggestion_for_plain d dir p Hplain Hh)
    as (lowest & highest & Hlo & Hhi & Hb & Hd & Hsf).
  rewrite Hsf in Hf.
  destruct (int_of_float (int_true_div (snd highest - snd lowest) 2)) as [e|st] eqn:Et;
    [discriminate|].
  injection Hf as <-. destruct Hs as [<-|[]].
  apply having_inv in Hh. destruct Hh as [Hcount Hgt].
  exists p. cbn [sg_product_id sg_product_name from_warehouse to_warehouse
                 current_from_quantity current_to_quantity suggested_transfer].
  split; [exact Hp|]. split; [reflexivity|]. split; [reflexivity|].
  split; [cbn [warehouse_count distribution_row] in Hcount; lia|].
  split; [destruct highest; exact Hhi|]. split; [destruct lowest; exact Hlo|].
  split; [exact Hb|]. split; [|exact Et].
  rewrite Hd. exact Hgt.
Qed.

(** X29.  With plain warehouse names, and when no halved difference is too
    large for [int], the report has exactly one suggestion for each row of
    the query, in the query's order, which is by decreasing imbalance: the
    second imbalance check, made in Python on the parsed text, never drops
    a row that passed the HAVING clause. *)
Theorem one_suggestion_per_unbalanced_product d dir :
  Forall (fun w => plain_name w = true) (warehouses dir) ->
  Forall (fun r => exists z, int_of_float (int_true_div (quantity_difference r) 2) = inr z)
         (distribution_query d dir) ->
  Forall2 (fun r s =>
             sg_product_id s = dr_product_id r /\
             sg_product_name s = dr_product_name r /\
             current_from_quantity s - current_to_quantity s = quantity_difference r /\
             int_of_float (int_true_div (quantity_difference r) 2)
             = inr (suggested_transfer s) /\
             priority s = (if int_gt_float (quantity_difference r) (avg_quantity r * 2)%float
                           then "HIGH" else "MEDIUM")%string)
          (distribution_query d dir) (optimize_inventory_distribution py_int d dir) /\
  Sorted (fun a b => quantity_difference b <= quantity_difference a)
         (distribution_query d dir).
Proof.
  intros Hplain Hfit. split.
  - unfold optimize_inventory_distribution.
    destruct (traverse_singletons (suggestion_for py_int)
                (fun r s =>
                   sg_product_id s = dr_product_id r /\
                   sg_product_name s = dr_product_name r /\
                   current_from_quantity s - current_to_quantity s = quantity_difference r /\
                   int_of_float (int_true_div (quantity_difference r) 2)
                   = inr (suggested_transfer s) /\
                   priority s
                   = (if int_gt_float (quantity_difference r) (avg_quantity r * 2)%float
                      then "HIGH" else "MEDIUM")%string)
                (distribution_query d dir)) as (ys & Hys & HF).
    + intros r Hr.
      destruct (proj1 (Forall_forall _ _) Hfit r Hr) as (z & Hz).
      apply in_distribution_query in Hr. destruct Hr as (p & Hp & -> & Hh).
      destruct (suggestion_for_plain d dir p Hplain Hh)
        as (lowest & highest & _ & _ & _ & Hd & Hsf).
      rewrite Hd, Hz in Hsf. eexists. split; [exact Hsf|].
      cbn [sg_product_id sg_product_name current_from_quantity current_to_quantity
           suggested_transfer priority].
      repeat split; [exact Hd|exact Hz].
    + rewrite Hys, concat_singletons. exact HF.
  - unfold distribution_query. apply order_by_sorted; unfold larger; intros x y H.
    + apply Z.ltb_lt in H. lia.
    + apply Z.ltb_ge in H. exact H.
Qed.

End DistributionProperties.

(** X30.  One warehouse name with a colon blanks the whole report.  When a
    product that passes the HAVING clause has a row in a warehouse whose
    name holds a colon (and no name of its group holds a comma), the text
    of that row splits into more than two parts, the unpacking raises, and
    the report is empty, for every product and whatever [int] accepts. *)
Theorem colon_in_a_name_blanks_the_report py_int d dir p r :
  In p (products d) ->
  having (distribution_row d dir p) = true ->
  In r (product_rows d dir p) ->
  contains ":" (w_name (fst r)) = true ->
  Forall (fun r => contains "," (w_name (fst r)) = false) (product_rows d dir p) ->
  optimize_inventory_distribution py_int d dir = [].
Proof.
  intros Hp Hh Hr Hcolon Hcomma. unfold optimize_inventory_distribution.
  rewrite (traverse_none _ _ (distribution_row d dir p)); [reflexivity| |].
  - apply in_distribution_query. exists p. repeat split; assumption.
  - unfold suggestion_for, parse_warehouse_quantities.
    change (warehouse_quantities (distribution_row d dir p))
      with (group_concat (map name_and_quantity (product_rows d dir p))).
    rewrite pieces_of_group; [|intros E; rewrite E in Hr; contradiction|exact Hcomma].
    rewrite (traverse_none _ _ (name_and_quantity r)); [reflexivity| |].
    + apply in_map. exact Hr.
    + apply parse_piece_colon. exact Hcolon.
Qed.

(** * Closed instances of the further properties *)

Ltac forall_rows tac := cbn; repeat (apply Forall_cons; [tac|]); apply Forall_nil.

Ltac distinct_keys :=
  cbn; repeat (apply NoDup_cons; [cbn; intuition discriminate|]); apply NoDup_nil.


(** X2 on the sample ledger with the schema of the set-up script: the
    quantity was already set to 105 when the movement row was refused. *)
Lemma adjust_all_or_nothing_witness :
  success (fst (adjust_inventory sample_clock (sample_db SetupSchema)
                  1 1 5 "CORRECTION" 7 None)) = false /\
  snd (adjust_inventory sample_clock (sample_db SetupSchema) 1 1 5 "CORRECTION" 7 None)
  = sample_db SetupSchema.
Proof.
  assert (H : success (fst (adjust_inventory sample_clock (sample_db SetupSchema)
                              1 1 5 "CORRECTION" 7 None)) = false) by reflexivity.
  split; [exact H|].
  exact (adjust_all_or_nothing sample_clock (sample_db SetupSchema)
           1 1 5 "CORRECTION" 7 None H).
Defined.

(** X3 on the sample ledger: a transfer that creates the destination row. *)
Lemma transfer_keeps_nonnegative_stock_witness :
  nonnegative_stock (inventory (sample_db AppSchema)) /\
  0 <= 30 /\
  nonnegative_stock
    (inventory (snd (transfer_inventory sample_clock (sample_db AppSchema)
                       1 1 3 30 7 None))).
Proof.
  assert (H1 : nonnegative_stock (inventory (sample_db AppSchema)))
    by (unfold nonnegative_stock; forall_rows ltac:(cbn; lia)).
  assert (H2 : 0 <= 30) by lia.
  split; [exact H1|]. split; [exact H2|].
  exact (transfer_keeps_nonnegative_stock sample_clock (sample_db AppSchema)
           1 1 3 30 7 None H1 H2).
Defined.

(** X4 on the sample ledger: 40 damaged units out of 100. *)
Lemma adjust_keeps_nonnegative_stock_witness :
  nonnegative_stock (inventory (sample_db AppSchema)) /\
  nonnegative_stock
    (inventory (snd (adjust_inventory sample_clock (sample_db AppSchema)
                       1 1 (-40) "DAMAGE" 7 None))).
Proof.
  assert (H1 : nonnegative_stock (inventory (sample_db AppSchema)))
    by (unfold nonnegative_stock; forall_rows ltac:(cbn; lia)).
  split; [exact H1|].
  exact (adjust_keeps_nonnegative_stock sample_clock (sample_db AppSchema)
           1 1 (-40) "DAMAGE" 7 None H1).
Defined.

(** X5 on the sample ledger: a transfer to a warehouse without a row, and
    an adjustment. *)
Lemma writes_keep_unique_keys_witness :
  unique_keys (inventory (sample_db AppSchema)) /\
  unique_keys
    (inventory (snd (transfer_inventory sample_clock (sample_db AppSchema)
                       1 1 3 30 7 None))) /\
  unique_keys
    (inventory (snd (adjust_inventory sample_clock (sample_db AppSchema)
                       1 1 5 "FOUND" 7 None))).
Proof.
  assert (H : unique_keys (inventory (sample_db AppSchema)))
    by (unfold unique_keys; distinct_keys).
  split; [exact H|].
  exact (writes_keep_unique_keys sample_clock (sample_db AppSchema)
           1 1 3 30 7 None 5 "FOUND" None H).
Defined.

(** X6 on the sample ledger: the row created at warehouse 3 has the
    thresholds 20 and 200 of the source row. *)
Lemma transfer_created_row_inherits_witness :
  find (at_key 1 1) (inventory (sample_db AppSchema)) = Some (sample_row 1 1 100 95) /\
  30 <= quantity (sample_row 1 1 100 95) /\
  stored_quantity (sample_db AppSchema) 1 3 = None /\
  exists row,
    find (at_key 1 3)
         (inventory (snd (transfer_inventory sample_clock (sample_db AppSchema)
                            1 1 3 30 7 None)))
    = Some row /\
    quantity row = 30 /\ reserved_quantity row = 0 /\
    reorder_level row = reorder_level (sample_row 1 1 100 95) /\
    max_stock_level row = max_stock_level (sample_row 1 1 100 95).
Proof.
  assert (H1 : find (at_key 1 1) (inventory (sample_db AppSchema))
               = Some (sample_row 1 1 100 95)) by reflexivity.
  assert (H2 : 30 <= quantity (sample_row 1 1 100 95)) by (cbn; lia).
  assert (H3 : stored_quantity (sample_db AppSchema) 1 3 = None) by reflexivity.
  split; [exact H1|]. split; [exact H2|]. split; [exact H3|].
  exact (transfer_created_row_inherits sample_clock (sample_db AppSchema)
           1 1 3 30 7 None (sample_row 1 1 100 95) H1 H2 H3).
Defined.



(** X10 on the sample ledger: corrections by 5 and by -5. *)
Lemma adjust_direction_not_recorded_witness :
  stored_quantity (sample_db AppSchema) 1 1 = Some 100 /\
  0 <= 100 + 5 /\
  0 <= 100 - 5 /\
  movement_type_check (schema (sample_db AppSchema)) ("ADJUST_" ++ "CORRECTION") = true /\
  stock_movements
    (snd (adjust_inventory sample_clock (sample_db AppSchema) 1 1 5 "CORRECTION" 7 None))
  = stock_movements
      (snd (adjust_inventory sample_clock (sample_db AppSchema)
              1 1 (- 5) "CORRECTION" 7 None)) /\
  stored_quantity
    (snd (adjust_inventory sample_clock (sample_db AppSchema) 1 1 5 "CORRECTION" 7 None))
    1 1 = Some (100 + 5) /\
  stored_quantity
    (snd (adjust_inventory sample_clock (sample_db AppSchema)
            1 1 (- 5) "CORRECTION" 7 None)) 1 1 = Some (100 - 5).
Proof.
  assert (H1 : stored_quantity (sample_db AppSchema) 1 1 = Some 100) by reflexivity.
  assert (H2 : 0 <= 100 + 5) by lia.
  assert (H3 : 0 <= 100 - 5) by lia.
  assert (H4 : movement_type_check (schema (sample_db AppSchema))
                 ("ADJUST_" ++ "CORRECTION") = true) by reflexivity.
  split; [exact H1|]. split; [exact H2|]. split; [exact H3|]. split; [exact H4|].
  exact (adjust_direction_not_recorded sample_clock (sample_db AppSchema)
           1 1 5 "CORRECTION" 7 None 100 H1 H2 H3 H4).
Defined.

(** X11 on the sample ledger with the schema of the set-up script: 3 units
    found. *)
Lemma adjust_never_succeeds_on_setup_schema_witness :
  schema (sample_db SetupSchema) = SetupSchema /\
  success (fst (adjust_inventory sample_clock (sample_db SetupSchema)
                  2 1 3 "FOUND" 7 None)) = false /\
  snd (adjust_inventory sample_clock (sample_db SetupSchema) 2 1 3 "FOUND" 7 None)
  = sample_db SetupSchema.
Proof.
  assert (H : schema (sample_db SetupSchema) = SetupSchema) by reflexivity.
  split; [exact H|].
  exact (adjust_never_succeeds_on_setup_schema sample_clock (sample_db SetupSchema)
           2 1 3 "FOUND" 7 None H).
Defined.

(** X13 on the sample ledger: 30 units from warehouse 1 to warehouse 2. *)
Lemma transfer_counts_as_demand_at_source_witness :
  success (fst (transfer_inventory sample_clock (sample_db AppSchema) 1 1 2 30 7 None))
  = true /\
  datetime_leb sample_since (sample_clock 3%nat) = true /\
  (let d' := snd (transfer_inventory sample_clock (sample_db AppSchema) 1 1 2 30 7 None) in
   In 30 (collected (_get_historical_movements d' 1 1 sample_since)) /\
   In (transfer_in_row sample_clock 1 1 2 30 7 None) (stock_movements d') /\
   is_outbound (transfer_in_row sample_clock 1 1 2 30 7 None) = false).
Proof.
  assert (H1 : success (fst (transfer_inventory sample_clock (sample_db AppSchema)
                               1 1 2 30 7 None)) = true) by reflexivity.
  assert (H2 : datetime_leb sample_since (sample_clock 3%nat) = true) by reflexivity.
  split; [exact H1|]. split; [exact H2|].
  exact (transfer_counts_as_demand_at_source sample_clock (sample_db AppSchema)
           1 1 2 30 7 None sample_since H1 H2).
Defined.

(** X14 on a ledger with eight movements, two of them outbound. *)
Lemma predict_demand_few_outbound_witness :
  (7 <= List.length (_get_historical_movements few_outbound_db 1 1 sample_since))%nat /\
  (1 <= List.length (collected (_get_historical_movements few_outbound_db 1 1 sample_since))
   < 7)%nat /\
  (let dm := collected (_get_historical_movements few_outbound_db 1 1 sample_since) in
   let r := predict_demand sample_std numpy_round2 few_outbound_db sample_since 1 1 30 in
   method r = "moving_average"%string /\
   predicted_demand r
   = numpy_round2 ((np_mean dm * 0.7 + np_mean dm * 0.3) * float_of_int 30) /\
   historical_points r = Some (List.length dm)).
Proof.
  assert (H1 : (7 <= List.length
                       (_get_historical_movements few_outbound_db 1 1 sample_since))%nat)
    by (vm_compute; lia).
  assert (H2 : (1 <= List.length
                       (collected (_get_historical_movements few_outbound_db 1 1 sample_since))
                < 7)%nat) by (vm_compute; lia).
  split; [exact H1|]. split; [exact H2|].
  exact (predict_demand_few_outbound sample_std numpy_round2 few_outbound_db sample_since
           1 1 30 H1 H2).
Defined.

(** X15 on the ledger of the reorder example. *)
Lemma reorder_only_when_available_is_low_witness :
  should_reorder
    (get_reorder_recommendation sample_std numpy_round2 reorder_example_db sample_since 1 1)
  = true /\
  exists i pr,
    find (at_key 1 1) (inventory reorder_example_db) = Some i /\
    find (fun pr => id pr =? 1) (products reorder_example_db) = Some pr /\
    quantity i - reserved_quantity i <= reorder_level i.
Proof.
  assert (H : should_reorder
                (get_reorder_recommendation sample_std numpy_round2 reorder_example_db
                   sample_since 1 1) = true) by (vm_compute; reflexivity).
  split; [exact H|].
  exact (reorder_only_when_available_is_low sample_std numpy_round2 reorder_example_db
           sample_since 1 1 H).
Defined.

(** X16 on the sample ledger after the transfer of 30 units. *)
Lemma transfer_history_sound_witness :
  let rec :=
    mkTransferRecord 1 "Widget" 1 2 "Main" "Branch" 30
      (Some ("TRANSFER-" ++ strftime (sample_clock 2%nat))%string) (sample_clock 3%nat)
      "keeper" (Some "Transfer to warehouse 2. "%string) in
  In rec (get_transfer_history transferred_db sample_directory None sample_since) /\
  exists sm1 sm2 ref,
    In sm1 (stock_movements transferred_db) /\ In sm2 (stock_movements transferred_db) /\
    movement_type sm1 = "TRANSFER_OUT"%string /\
    movement_type sm2 = "TRANSFER_IN"%string /\
    sm_reference_number sm1 = Some ref /\ sm_reference_number sm2 = Some ref /\
    tr_reference_number rec = Some ref /\
    tr_product_id rec = sm_product_id sm1 /\
    tr_quantity rec = sm_quantity sm1 /\
    transfer_date rec = created_at sm1 /\
    datetime_leb sample_since (transfer_date rec) = true /\
    from_warehouse_id rec = sm_warehouse_id sm1 /\
    to_warehouse_id rec = sm_warehouse_id sm2 /\
    In (tr_product_id rec) (map id (products transferred_db)) /\
    In (from_warehouse_id rec) (map w_id (warehouses sample_directory)) /\
    In (to_warehouse_id rec) (map w_id (warehouses sample_directory)).
Proof.
  intros rec.
  assert (H : In rec (get_transfer_history transferred_db sample_directory None
                        sample_since)) by (vm_compute; left; reflexivity).
  split; [exact H|].
  exact (transfer_history_sound transferred_db sample_directory None sample_since rec H).
Defined.

(** X17 on the sample ledger, with the filter set to the destination. *)
Lemma transfer_is_listed_in_history_witness :
  success (fst (transfer_inventory sample_clock (sample_db AppSchema) 1 1 2 30 7 None))
  = true /\
  In (mkProduct 1 "Widget") (products (sample_db AppSchema)) /\
  In keeper (users sample_directory) /\
  In main_warehouse (warehouses sample_directory) /\
  In branch_warehouse (warehouses sample_directory) /\
  datetime_leb sample_since (sample_clock 3%nat) = true /\
  In (mkTransferRecord 1 "Widget" 1 2 "Main" "Branch" 30
        (Some ("TRANSFER-" ++ strftime (sample_clock 2%nat))%string) (sample_clock 3%nat)
        "keeper" (Some ("Transfer to warehouse " ++ str 2 ++ ". " ++ or_else None "")%string))
     (get_transfer_history
        (snd (transfer_inventory sample_clock (sample_db AppSchema) 1 1 2 30 7 None))
        sample_directory (Some 2) sample_since).
Proof.
  assert (H1 : success (fst (transfer_inventory sample_clock (sample_db AppSchema)
                               1 1 2 30 7 None)) = true) by reflexivity.
  assert (H2 : In (mkProduct 1 "Widget") (products (sample_db AppSchema)))
    by (left; reflexivity).
  assert (H3 : In keeper (users sample_directory)) by (left; reflexivity).
  assert (H4 : In main_warehouse (warehouses sample_directory)) by (left; reflexivity).
  assert (H5 : In branch_warehouse (warehouses sample_directory))
    by (right; left; reflexivity).
  assert (H6 : datetime_leb sample_since (sample_clock 3%nat) = true) by reflexivity.
  split; [exact H1|]. split; [exact H2|]. split; [exact H3|]. split; [exact H4|].
  split; [exact H5|]. split; [exact H6|].
  exact (transfer_is_listed_in_history sample_clock (sample_db AppSchema) sample_directory
           1 1 2 30 7 None sample_since (mkProduct 1 "Widget") keeper main_warehouse
           branch_warehouse (Some 2) H1 H2 eq_refl H3 eq_refl H4 eq_refl H5 eq_refl H6
           (or_intror (or_intror eq_refl))).
Defined.

(** X19 on the sample ledger: 30 units of product 1 go from warehouse 1 to
    warehouse 2 and, in the same second, 5 units of product 2 from warehouse
    1 to warehouse 3; the history then shows 30 units of product 1 going to
    warehouse 3. *)
Lemma same_second_transfers_are_cross_listed_witness :
  (let first := transfer_inventory sample_clock (sample_db AppSchema) 1 1 2 30 7 None in
   let second := transfer_inventory sample_clock (snd first) 2 1 3 5 7 None in
   success (fst first) = true /\
   success (fst second) = true /\
   strftime (sample_clock 2%nat) = strftime (sample_clock 2%nat) /\
   In (mkProduct 1 "Widget") (products (sample_db AppSchema)) /\
   In keeper (users sample_directory) /\
   In main_warehouse (warehouses sample_directory) /\
   In annex_warehouse (warehouses sample_directory) /\
   datetime_leb sample_since (sample_clock 3%nat) = true /\
   exists rec,
     In rec (get_transfer_history (snd second) sample_directory None sample_since) /\
     tr_product_id rec = 1 /\ tr_quantity rec = 30 /\
     from_warehouse_id rec = 1 /\ to_warehouse_id rec = 3).
Proof.
  intros first second.
  assert (H1 : success (fst first) = true) by reflexivity.
  assert (H2 : success (fst second) = true) by reflexivity.
  assert (H3 : strftime (sample_clock 2%nat) = strftime (sample_clock 2%nat))
    by reflexivity.
  assert (H4 : In (mkProduct 1 "Widget") (products (sample_db AppSchema)))
    by (left; reflexivity).
  assert (H5 : In keeper (users sample_directory)) by (left; reflexivity).
  assert (H6 : In main_warehouse (warehouses sample_directory)) by (left; reflexivity).
  assert (H7 : In annex_warehouse (warehouses sample_directory))
    by (right; right; left; reflexivity).
  assert (H8 : datetime_leb sample_since (sample_clock 3%nat) = true) by reflexivity.
  split; [exact H1|]. split; [exact H2|]. split; [exact H3|]. split; [exact H4|].
  split; [exact H5|]. split; [exact H6|]. split; [exact H7|]. split; [exact H8|].
  exact (same_second_transfers_are_cross_listed sample_clock sample_clock
           (sample_db AppSchema) sample_directory 1 1 2 30 7 None 2 1 3 5 7 None
           sample_since (mkProduct 1 "Widget") keeper main_warehouse annex_warehouse
           H1 H2 H3 H4 eq_refl H5 eq_refl H6 eq_refl H7 eq_refl H8).
Defined.

(** X21 on the sample ledger: the entry of the warehouse without a
    capacity. *)
Lemma capacity_entry_without_room_witness :
  let e := capacity_entry (sample_db AppSchema) annex_warehouse in
  In e (get_warehouse_capacity_report (sample_db AppSchema) sample_directory) /\
  0 <= available_capacity e /\
  match ce_capacity e with
  | Some c =>
      if 0 <? c then available_capacity e = Z.max 0 (c - total_items e)
      else available_capacity e = 0 /\ capacity_status e = "NORMAL"%string /\
           utilization_percentage e = 0%float
  | None =>
      available_capacity e = 0 /\ capacity_status e = "NORMAL"%string /\
      utilization_percentage e = 0%float
  end.
Proof.
  intros e.
  assert (H : In e (get_warehouse_capacity_report (sample_db AppSchema) sample_directory))
    by (apply in_map; vm_compute; left; reflexivity).
  split; [exact H|].
  exact (capacity_entry_without_room (sample_db AppSchema) sample_directory e H).
Defined.

(** X22 on the sample ledger: the entry of warehouse 1 after 30 units left
    it. *)
Lemma transfer_moves_report_totals_witness :
  unique_keys (inventory (sample_db AppSchema)) /\
  1 <> 2 /\
  stored_quantity (sample_db AppSchema) 1 1 = Some 100 /\
  30 <= 100 /\
  total_items
    (capacity_entry (snd (transfer_inventory sample_clock (sample_db AppSchema)
                            1 1 2 30 7 None)) main_warehouse)
  = total_items (capacity_entry (sample_db AppSchema) main_warehouse)
    + (if w_id main_warehouse =? 1 then - 30 else 0)
    + (if w_id main_warehouse =? 2 then 30 else 0).
Proof.
  assert (H1 : unique_keys (inventory (sample_db AppSchema)))
    by (unfold unique_keys; distinct_keys).
  assert (H2 : 1 <> 2) by discriminate.
  assert (H3 : stored_quantity (sample_db AppSchema) 1 1 = Some 100) by reflexivity.
  assert (H4 : 30 <= 100) by lia.
  split; [exact H1|]. split; [exact H2|]. split; [exact H3|]. split; [exact H4|].
  exact (transfer_moves_report_totals sample_clock (sample_db AppSchema)
           1 1 2 30 7 None 100 main_warehouse H1 H2 H3 H4).
Defined.

(** X24 on the sample ledger: the details of warehouse 1. *)
Lemma warehouse_info_agrees_with_report_witness :
  exists info,
    get_warehouse_info sample_category (sample_db AppSchema) sample_directory 1
    = Some info /\
    exists w,
      In w (warehouses sample_directory) /\ w_id w = 1 /\ wi_id info = 1 /\
      wi_total_items info = total_items (capacity_entry (sample_db AppSchema) w) /\
      wi_total_products info = unique_products (capacity_entry (sample_db AppSchema) w) /\
      wi_low_stock_products info
      = low_stock_items (capacity_entry (sample_db AppSchema) w) /\
      wi_capacity_utilization info
      = utilization_percentage (capacity_entry (sample_db AppSchema) w) /\
      (List.length (wi_top_products info) <= 5)%nat /\
      (List.length (wi_recent_movements info) <= 10)%nat.
Proof.
  eexists. split.
  - vm_compute. reflexivity.
  - apply (warehouse_info_agrees_with_report sample_category (sample_db AppSchema)
             sample_directory 1).
    vm_compute. reflexivity.
Defined.

(** X25 on the sample ledger: one row is out of stock and two need a
    reorder. *)
Lemma dashboard_out_of_stock_needs_reorder_witness :
  Forall (fun i => 0 <= reorder_level i) (inventory (sample_db AppSchema)) /\
  out_of_stock (get_dashboard_summary (fun _ => 0%float) (sample_db AppSchema)
                  (sample_clock 0%nat))
  <= reorder_needed (get_dashboard_summary (fun _ => 0%float) (sample_db AppSchema)
                       (sample_clock 0%nat)).
Proof.
  assert (H : Forall (fun i => 0 <= reorder_level i) (inventory (sample_db AppSchema)))
    by (forall_rows ltac:(cbn; lia)).
  split; [exact H|].
  exact (dashboard_out_of_stock_needs_reorder (fun _ => 0%float) (sample_db AppSchema)
           (sample_clock 0%nat) H).
Defined.

(** X26 on the sample ledger after a first transfer: a second one, of 20
    units to warehouse 3 a day later, adds its record to the one that was
    there. *)
Lemma transfer_adds_one_history_record_witness :
  success (fst (transfer_inventory later_clock transferred_db 1 1 3 20 7 None)) = true /\
  Forall (fun m => sm_reference_number m
                   <> Some ("TRANSFER-" ++ strftime (later_clock 2%nat))%string)
         (stock_movements transferred_db) /\
  NoDup (map id (products transferred_db)) /\
  In (mkProduct 1 "Widget") (products transferred_db) /\
  NoDup (map u_id (users sample_directory)) /\
  In keeper (users sample_directory) /\
  NoDup (map w_id (warehouses sample_directory)) /\
  In main_warehouse (warehouses sample_directory) /\
  In annex_warehouse (warehouses sample_directory) /\
  datetime_leb sample_since (later_clock 3%nat) = true /\
  Permutation
    (get_transfer_history
       (snd (transfer_inventory later_clock transferred_db 1 1 3 20 7 None))
       sample_directory None sample_since)
    (mkTransferRecord 1 "Widget" 1 3 "Main" "Annex" 20
       (Some ("TRANSFER-" ++ strftime (later_clock 2%nat))%string) (later_clock 3%nat)
       "keeper" (Some ("Transfer to warehouse " ++ str 3 ++ ". " ++ or_else None "")%string)
     :: get_transfer_history transferred_db sample_directory None sample_since).
Proof.
  assert (H1 : success (fst (transfer_inventory later_clock transferred_db
                               1 1 3 20 7 None)) = true) by reflexivity.
  assert (H2 : Forall (fun m => sm_reference_number m
                                <> Some ("TRANSFER-" ++ strftime (later_clock 2%nat))%string)
                      (stock_movements transferred_db))
    by (vm_compute; repeat (apply Forall_cons; [discriminate|]); apply Forall_nil).
  assert (H3 : NoDup (map id (products transferred_db))) by distinct_keys.
  assert (H4 : In (mkProduct 1 "Widget") (products transferred_db)) by (left; reflexivity).
  assert (H5 : NoDup (map u_id (users sample_directory))) by distinct_keys.
  assert (H6 : In keeper (users sample_directory)) by (left; reflexivity).
  assert (H7 : NoDup (map w_id (warehouses sample_directory))) by distinct_keys.
  assert (H8 : In main_warehouse (warehouses sample_directory)) by (left; reflexivity).
  assert (H9 : In annex_warehouse (warehouses sample_directory))
    by (right; right; left; reflexivity).
  assert (H10 : datetime_leb sample_since (later_clock 3%nat) = true) by reflexivity.
  split; [exact H1|]. split; [exact H2|]. split; [exact H3|]. split; [exact H4|].
  split; [exact H5|]. split; [exact H6|]. split; [exact H7|]. split; [exact H8|].
  split; [exact H9|]. split; [exact H10|].
  exact (transfer_adds_one_history_record later_clock transferred_db sample_directory
           1 1 3 20 7 None sample_since (mkProduct 1 "Widget") keeper main_warehouse
           annex_warehouse None H1 H2 H3 H4 eq_refl H5 H6 eq_refl H7 H8 eq_refl H9 eq_refl
           H10 (or_introl eq_refl)).
Defined.

(** X27 on two rows, one of them with a negative quantity. *)
Lemma warehouse_quantities_round_trip_witness :
  (forall z, decimal_int (str z) = Some z) /\
  [(main_warehouse, sample_row 1 1 100 95); (branch_warehouse, sample_row 1 2 (-3) 0)]
  <> [] /\
  Forall (fun r : Warehouse * InventoryRow => plain_name (fst r) = true)
         [(main_warehouse, sample_row 1 1 100 95); (branch_warehouse, sample_row 1 2 (-3) 0)] /\
  parse_warehouse_quantities decimal_int
    (group_concat
       (map name_and_quantity
            [(main_warehouse, sample_row 1 1 100 95);
             (branch_warehouse, sample_row 1 2 (-3) 0)]))
  = Some (map named_quantity
              [(main_warehouse, sample_row 1 1 100 95);
               (branch_warehouse, sample_row 1 2 (-3) 0)]).
Proof.
  assert (H1 : [(main_warehouse, sample_row 1 1 100 95);
                (branch_warehouse, sample_row 1 2 (-3) 0)] <> []) by discriminate.
  assert (H2 : Forall (fun r : Warehouse * InventoryRow => plain_name (fst r) = true)
                      [(main_warehouse, sample_row 1 1 100 95);
                       (branch_warehouse, sample_row 1 2 (-3) 0)])
    by (forall_rows reflexivity).
  split; [exact decimal_int_str|]. split; [exact H1|]. split; [exact H2|].
  exact (warehouse_quantities_round_trip decimal_int decimal_int_str _ H1 H2).
Defined.

(** X28 on the sample ledger: product 1 has 100 units in Main and none in
    Branch. *)
Lemma suggestions_move_from_fullest_to_emptiest_witness :
  let s := mkSuggestion 1 "Widget" "Main" "Branch" 100 0 50
             "Reduces imbalance by 50 units" "MEDIUM" in
  (forall z, decimal_int (str z) = Some z) /\
  Forall (fun w => plain_name w = true) (warehouses sample_directory) /\
  In s (optimize_inventory_distribution decimal_int (sample_db AppSchema) sample_directory) /\
  exists p,
    In p (products (sample_db AppSchema)) /\
    sg_product_id s = id p /\ sg_product_name s = name p /\
    (2 <= List.length (product_rows (sample_db AppSchema) sample_directory p))%nat /\
    In (from_warehouse s, current_from_quantity s)
       (map named_quantity (product_rows (sample_db AppSchema) sample_directory p)) /\
    In (to_warehouse s, current_to_quantity s)
       (map named_quantity (product_rows (sample_db AppSchema) sample_directory p)) /\
    Forall (fun r => current_to_quantity s <= quantity (snd r) <= current_from_quantity s)
           (product_rows (sample_db AppSchema) sample_directory p) /\
    int_gt_float (current_from_quantity s - current_to_quantity s)
                 (sql_avg (map snd (product_rows (sample_db AppSchema) sample_directory p))
                  * 0.5)%float = true /\
    int_of_float (int_true_div (current_from_quantity s - current_to_quantity s) 2)
    = inr (suggested_transfer s).
Proof.
  intros s.
  assert (H1 : Forall (fun w => plain_name w = true) (warehouses sample_directory))
    by (forall_rows reflexivity).
  assert (H2 : In s (optimize_inventory_distribution decimal_int (sample_db AppSchema)
                       sample_directory)) by (vm_compute; left; reflexivity).
  split; [exact decimal_int_str|]. split; [exact H1|]. split; [exact H2|].
  exact (suggestions_move_from_fullest_to_emptiest decimal_int decimal_int_str
           (sample_db AppSchema) sample_directory s H1 H2).
Defined.

(** X29 on the sample ledger. *)
Lemma one_suggestion_per_unbalanced_product_witness :
  (forall z, decimal_int (str z) = Some z) /\
  Forall (fun w => plain_name w = true) (warehouses sample_directory) /\
  Forall (fun r => exists z, int_of_float (int_true_div (quantity_difference r) 2) = inr z)
         (distribution_query (sample_db AppSchema) sample_directory) /\
  Forall2 (fun r s =>
             sg_product_id s = dr_product_id r /\
             sg_product_name s = dr_product_name r /\
             current_from_quantity s - current_to_quantity s = quantity_difference r /\
             int_of_float (int_true_div (quantity_difference r) 2)
             = inr (suggested_transfer s) /\
             priority s = (if int_gt_float (quantity_difference r) (avg_quantity r * 2)%float
                           then "HIGH" else "MEDIUM")%string)
          (distribution_query (sample_db AppSchema) sample_directory)
          (optimize_inventory_distribution decimal_int (sample_db AppSchema)
             sample_directory) /\
  Sorted (fun a b => quantity_difference b <= quantity_difference a)
         (distribution_query (sample_db AppSchema) sample_directory).
Proof.
  assert (H1 : Forall (fun w => plain_name w = true) (warehouses sample_directory))
    by (forall_rows reflexivity).
  assert (H2 : Forall (fun r => exists z,
                         int_of_float (int_true_div (quantity_difference r) 2) = inr z)
                      (distribution_query (sample_db AppSchema) sample_directory))
    by (apply Forall_forall; intros r Hr; vm_compute in Hr;
        destruct Hr as [<-|[]]; eexists; vm_compute; reflexivity).
  split; [exact decimal_int_str|]. split; [exact H1|]. split; [exact H2|].
  exact (one_suggestion_per_unbalanced_product decimal_int decimal_int_str
           (sample_db AppSchema) sample_directory H1 H2).
Defined.

(** X30 on the sample ledger with a warehouse named Dock:2. *)
Lemma colon_in_a_name_blanks_the_report_witness :
  In (mkProduct 1 "Widget") (products (sample_db AppSchema)) /\
  having (distribution_row (sample_db AppSchema) colon_directory (mkProduct 1 "Widget"))
  = true /\
  In (dock_warehouse, sample_row 1 2 0 0)
     (product_rows (sample_db AppSchema) colon_directory (mkProduct 1 "Widget")) /\
  contains ":" (w_name (fst (dock_warehouse, sample_row 1 2 0 0))) = true /\
  Forall (fun r => contains "," (w_name (fst r)) = false)
         (product_rows (sample_db AppSchema) colon_directory (mkProduct 1 "Widget")) /\
  optimize_inventory_distribution decimal_int (sample_db AppSchema) colon_directory = [].
Proof.
  assert (H1 : In (mkProduct 1 "Widget") (products (sample_db AppSchema)))
    by (left; reflexivity).
  assert (H2 : having (distribution_row (sample_db AppSchema) colon_directory
                         (mkProduct 1 "Widget")) = true) by (vm_compute; reflexivity).
  assert (H3 : In (dock_warehouse, sample_row 1 2 0 0)
                  (product_rows (sample_db AppSchema) colon_directory
                     (mkProduct 1 "Widget"))) by (right; left; reflexivity).
  assert (H4 : contains ":" (w_name (fst (dock_warehouse, sample_row 1 2 0 0))) = true)
    by reflexivity.
  assert (H5 : Forall (fun r => contains "," (w_name (fst r)) = false)
                      (product_rows (sample_db AppSchema) colon_directory
                         (mkProduct 1 "Widget"))) by (forall_rows reflexivity).
  split; [exact H1|]. split; [exact H2|]. split; [exact H3|]. split; [exact H4|].
  split; [exact H5|].
  exact (colon_in_a_name_blanks_the_report decimal_int (sample_db AppSchema)
           colon_directory (mkProduct 1 "Widget") (dock_warehouse, sample_row 1 2 0 0)
           H1 H2 H3 H4 H5).
Defined.
